(** * The PID-file manager of [pid/__init__.py], embedded and verified.

    The module [pid] defines one class, [PidFile], whose methods talk to the
    operating system: the file system, [flock], [kill], the SIGTERM
    disposition and the [atexit] registry.  The embedding has three layers:

    - [PyStr], [posixpath], [PyInt]: the Python string, path and integer
      conversion functions the source calls, as pure functions;
    - [OS]: a model of the part of the operating system the source touches,
      as a record [World] and operations in a state-and-exception monad;
    - [Pid]: the class itself, method by method, in the same monad over a
      [World] paired with the fields of [self].

    The theorems [C1_...] to [C10_...] settle the claims C1 to C10 about
    it; the theorems [X1_...] to [X24_...] at the end are further
    properties of the methods. *)

From Stdlib Require Import ZArith Ascii String List Lia Bool.
From stdpp Require Import base option gmap strings list.

Open Scope Z_scope.

(** ** Python strings *)

Module PyStr.

Definition sep : ascii := "/"%char.
Definition newline : ascii := "010"%char.
Definition cr : ascii := "013"%char.

(** [s.startswith(p)] *)
Definition startswith (s p : string) : bool := String.prefix p s.

(** [s.endswith(suf)]: [suf] is one of the tails of [s]. *)
Fixpoint endswith (s suf : string) : bool :=
  String.eqb s suf ||
  match s with
  | EmptyString => false
  | String _ s' => endswith s' suf
  end.

(** [c in s] for a one-character [c]. *)
Fixpoint contains (c : ascii) (s : string) : bool :=
  match s with
  | EmptyString => false
  | String a s' => Ascii.eqb a c || contains c s'
  end.

(** [s.split(c)]: never empty, one more piece than there are [c] in [s]. *)
Fixpoint split (c : ascii) (s : string) : list string :=
  match s with
  | EmptyString => [EmptyString]
  | String a s' =>
      if Ascii.eqb a c then EmptyString :: split c s'
      else match split c s' with
           | x :: xs => String a x :: xs
           | [] => [String a EmptyString]
           end
  end.

(** [c.join(l)] *)
Fixpoint join (c : ascii) (l : list string) : string :=
  match l with
  | [] => EmptyString
  | [x] => x
  | x :: xs => x +:+ String c (join c xs)
  end.

(** [s.rfind(c)]: the index of the last [c], or -1. *)
Fixpoint rfind (c : ascii) (s : string) : Z :=
  match s with
  | EmptyString => -1
  | String a s' =>
      let r := rfind c s' in
      if 0 <=? r then r + 1 else if Ascii.eqb a c then 0 else -1
  end.

(** The slices [s[:n]] and [s[n:]]. *)
Fixpoint take (n : nat) (s : string) : string :=
  match n, s with
  | S n', String a s' => String a (take n' s')
  | _, _ => EmptyString
  end.

Fixpoint drop (n : nat) (s : string) : string :=
  match n, s with
  | S n', String _ s' => drop n' s'
  | _, _ => s
  end.

(** [s.split(c, 1)[0]]: what stands before the first [c]. *)
Fixpoint before (c : ascii) (s : string) : string :=
  match s with
  | EmptyString => EmptyString
  | String a s' => if Ascii.eqb a c then EmptyString else String a (before c s')
  end.

(** [str.isspace] on the ASCII range (Python 3): TAB, LF, VT, FF, CR, the
    four separators FS, GS, RS, US, and the space. *)
Definition is_space (a : ascii) : bool :=
  let n := nat_of_ascii a in
  ((9 <=? n)%nat && (n <=? 13)%nat) || ((28 <=? n)%nat && (n <=? 32)%nat).

Fixpoint lstrip (s : string) : string :=
  match s with
  | EmptyString => EmptyString
  | String a s' => if is_space a then lstrip s' else s
  end.

Fixpoint rstrip (s : string) : string :=
  match s with
  | EmptyString => EmptyString
  | String a s' =>
      match rstrip s' with
      | EmptyString => if is_space a then EmptyString else String a EmptyString
      | r => String a r
      end
  end.

(** [s.strip()] *)
Definition strip (s : string) : string := rstrip (lstrip s).

(** [s.rstrip(c)] for a one-character [c]. *)
Fixpoint rstrip_char (c : ascii) (s : string) : string :=
  match s with
  | EmptyString => EmptyString
  | String a s' =>
      match rstrip_char c s' with
      | EmptyString => if Ascii.eqb a c then EmptyString else String a EmptyString
      | r => String a r
      end
  end.

(** [c * n] *)
Fixpoint repeat (c : ascii) (n : nat) : string :=
  match n with
  | O => EmptyString
  | S n' => String c (repeat c n')
  end.

(** Truth value of a string: non-empty. *)
Definition truthy (s : string) : bool := negb (String.eqb s EmptyString).

(** [s.isascii()]: every character is below 128. *)
Fixpoint isascii (s : string) : bool :=
  match s with
  | EmptyString => true
  | String a s' => (nat_of_ascii a <? 128)%nat && isascii s'
  end.

End PyStr.

(** ** [os.path] on POSIX ([posixpath.py]) *)

Module posixpath.
Import PyStr.

(** [os.path.basename(p)]: [p[p.rfind('/') + 1:]] *)
Definition basename (p : string) : string :=
  drop (Z.to_nat (rfind sep p + 1)) p.

(** [os.path.dirname(p)] *)
Definition dirname (p : string) : string :=
  let i := Z.to_nat (rfind sep p + 1) in
  let head := take i p in
  if truthy head && negb (String.eqb head (repeat sep (String.length head)))
  then rstrip_char sep head
  else head.

(** [os.path.isabs(p)] *)
Definition isabs (p : string) : bool := startswith p "/".

(** [os.path.join(a, b)] with one further component. *)
Definition join (a b : string) : string :=
  if startswith b "/" then b
  else if negb (truthy a) || endswith a "/" then a +:+ b
  else a +:+ "/" +:+ b.

(** The loop body of [normpath]: one component against the components
    kept so far. *)
Definition norm_step (initial_slashes : nat) (new_comps : list string)
    (comp : string) : list string :=
  if String.eqb comp "" || String.eqb comp "." then new_comps
  else if negb (String.eqb comp "..")
          || ((initial_slashes =? 0)%nat && bool_decide (new_comps = []))
          || (bool_decide (new_comps ≠ []) &&
              bool_decide (last new_comps = Some ".."))
  then new_comps ++ [comp]
  else if bool_decide (new_comps ≠ []) then removelast new_comps
  else new_comps.

(** [os.path.normpath(path)] *)
Definition normpath (path : string) : string :=
  if String.eqb path "" then "."
  else
    let initial_slashes :=
      if startswith path "/" then
        if startswith path "//" && negb (startswith path "///") then 2%nat
        else 1%nat
      else 0%nat in
    let comps := fold_left (norm_step initial_slashes) (split sep path) [] in
    let path := PyStr.join sep comps in
    let path := repeat sep initial_slashes +:+ path in
    if truthy path then path else ".".

(** [os.path.abspath(path)], the working directory being [cwd]. *)
Definition abspath (cwd path : string) : string :=
  if isabs path then normpath path else normpath (join cwd path).

End posixpath.

(** ** Integers as text: ["%d" % n] and [int(s)] *)

Module PyInt.
Import PyStr.

Definition digit_char (d : Z) : ascii := ascii_of_nat (48 + Z.to_nat d).

Definition digit_val (a : ascii) : option Z :=
  let n := nat_of_ascii a in
  if (48 <=? n)%nat && (n <=? 57)%nat then Some (Z.of_nat n - 48) else None.

(** The digits of [n >= 0], most significant first, pushed in front of
    [acc]; [fuel] bounds the number of digits. *)
Fixpoint digits_onto (fuel : nat) (n : Z) (acc : string) : string :=
  let acc' := String (digit_char (n mod 10)) acc in
  match fuel with
  | O => acc'
  | S fuel' => if n / 10 =? 0 then acc' else digits_onto fuel' (n / 10) acc'
  end.

(** ["%d" % n] *)
Definition format_d (n : Z) : string :=
  if n <? 0 then String "-" (digits_onto (Z.to_nat (Z.log2 (- n))) (- n) "")
  else digits_onto (Z.to_nat (Z.log2 n)) n "".

(** The digit part of an integer literal: decimal digits, with single
    underscores allowed between two digits. *)
Fixpoint parse_digits (after_digit : bool) (acc : Z) (s : string) : option Z :=
  match s with
  | EmptyString => if after_digit then Some acc else None
  | String a s' =>
      match digit_val a with
      | Some d => parse_digits true (acc * 10 + d) s'
      | None =>
          if Ascii.eqb a "_" && after_digit then parse_digits false acc s'
          else None
      end
  end.

(** [int(s)] in base 10; [None] stands for the [ValueError]. *)
Definition int (s : string) : option Z :=
  match strip s with
  | String "-" s' => Z.opp <$> parse_digits false 0 s'
  | String "+" s' => parse_digits false 0 s'
  | s' => parse_digits false 0 s'
  end.

End PyInt.

(** ** Exceptions and the state-and-exception monad *)

Definition errno := Z.
Definition EPERM : errno := 1.
Definition ENOENT : errno := 2.
Definition ESRCH : errno := 3.
Definition EBADF : errno := 9.
Definition EWOULDBLOCK : errno := 11.
Definition EEXIST : errno := 17.
Definition ENOTDIR : errno := 20.
Definition EISDIR : errno := 21.

(** The exceptions that reach the source.  [IOError] is [OSError]:
    [OSError e] is raised by the operating system with [errno = e],
    [IOError_msg] is an [IOError] built from a message, whose [errno] is
    [None].  [UnsupportedOperation] derives from both [OSError] and
    [ValueError]. *)
#[warnings="-register-all"]
Inductive exn : Type :=
  | OSError (e : errno)
  | IOError_msg (msg : string)
  | ValueError_closed_file
  | ValueError_invalid_literal (s : string)
  | UnsupportedOperation
  | TypeError
  | AttributeError
  | OverflowError
  | SystemExit (code : Z)
  | PidFileUnreadableError (arg : exn)
  | PidFileAlreadyRunningError (arg : exn + string)
  | PidFileAlreadyLockedError (arg : exn).

(** [isinstance(exc, IOError)] *)
Definition is_IOError (exc : exn) : bool :=
  match exc with
  | OSError _ | IOError_msg _ | UnsupportedOperation => true
  | _ => false
  end.

(** [isinstance(exc, ValueError)] *)
Definition is_ValueError (exc : exn) : bool :=
  match exc with
  | ValueError_closed_file | ValueError_invalid_literal _
  | UnsupportedOperation => true
  | _ => false
  end.

(** [exc.errno] *)
Definition exn_errno (exc : exn) : option errno :=
  match exc with
  | OSError e => Some e
  | _ => None
  end.

(** [isinstance(exc, PidFileError)]: the three exception classes of the
    module derive from [PidFileError], which derives from [Exception]. *)
Definition is_PidFileError (exc : exn) : bool :=
  match exc with
  | PidFileUnreadableError _ | PidFileAlreadyRunningError _
  | PidFileAlreadyLockedError _ => true
  | _ => false
  end.

Inductive result (A : Type) : Type :=
  | Ret (a : A)
  | Raise (e : exn).
Arguments Ret {A} a.
Arguments Raise {A} e.

(** A computation over a state [S]: the final state and a value or a raised
    exception. *)
Definition M (S A : Type) : Type := S -> S * result A.

Definition ret {S A} (a : A) : M S A := fun s => (s, Ret a).
Definition raise {S A} (e : exn) : M S A := fun s => (s, Raise e).
Definition bind {S A B} (c : M S A) (k : A -> M S B) : M S B :=
  fun s => match c s with
           | (s', Ret a) => k a s'
           | (s', Raise e) => (s', Raise e)
           end.
Definition gets {S A} (f : S -> A) : M S A := fun s => (s, Ret (f s)).
Definition modify {S} (f : S -> S) : M S unit := fun s => (f s, Ret tt).

(** [try: c  except <the exceptions h selects> as exc: h exc] *)
Definition try_except {S A} (c : M S A) (h : exn -> option (M S A)) : M S A :=
  fun s => match c s with
           | (s', Raise e) =>
               match h e with
               | Some handler => handler s'
               | None => (s', Raise e)
               end
           | r => r
           end.

(** [try: c  finally: fin]: [fin] runs on every way out of [c]; what it
    raises replaces the outcome of [c]. *)
Definition try_finally {S A} (c : M S A) (fin : M S unit) : M S A :=
  fun s => match c s with
           | (s', r) =>
               match fin s' with
               | (s'', Ret _) => (s'', r)
               | (s'', Raise e) => (s'', Raise e)
               end
           end.

Declare Scope py_scope.
Delimit Scope py_scope with py.
Notation "'let*' x ':=' c 'in' k" := (bind c (fun x => k))
  (at level 10, x name, c at level 100, k at level 200) : py_scope.
Notation "c '>>>' k" := (bind c (fun _ => k))
  (at level 100, k at level 200, right associativity) : py_scope.
Open Scope py_scope.

(** ** The operating system, as far as the source touches it *)

Module OS.
Import PyStr.

(** A directory entry: a directory, with what [os.access] answers for
    [R_OK] and [W_OK], or a regular file, by its inode number. *)
Inductive node : Type :=
  | Dir (readable writable : bool)
  | File (ino : nat).

Record inode : Type := {
  i_data : string;
  i_mode : Z;
  i_uid : Z;
  i_gid : Z;
}.

Inductive open_mode : Type := mode_r | mode_a_plus.

(** A Python file object over an open file description.  [f_wbuf] holds
    what was written and not yet flushed; [f_fault] is the error every
    system call on the descriptor reports, if the descriptor is broken
    ([EBADF] when it was closed behind the object's back). *)
Record file_obj : Type := {
  f_ino : nat;
  f_mode : open_mode;
  f_pos : nat;
  f_wbuf : string;
  f_closed : bool;
  f_fault : option errno;
}.

(** Who holds the [flock] lock of an inode: a file object of this
    process, or an open file description of another process. *)
Inductive lock_owner : Type :=
  | LockedBy (h : nat)
  | LockedElsewhere.

Inductive callable : Type :=
  | sigterm_noop_handler
  | other_callable (tag : nat).

(** What [signal.getsignal] returns. *)
Inductive handler : Type :=
  | SIG_IGN
  | SIG_DFL
  | handler_None
  | handler_callable (f : callable).

Record World : Type := {
  w_pid : Z;                       (* os.getpid() *)
  w_argv0 : string;                (* sys.argv[0] *)
  w_cwd : string;                  (* os.getcwd() *)
  w_tempdir : string;              (* tempfile.gettempdir() *)
  w_umask : Z;
  w_euid : Z;
  w_egid : Z;
  w_fs : gmap string node;         (* by normalised absolute path *)
  w_inodes : gmap nat inode;
  w_files : gmap nat file_obj;     (* the file objects, by identity *)
  w_locks : gmap nat lock_owner;   (* flock, by inode *)
  w_procs : gmap Z bool;           (* pid -> may this process signal it *)
  w_sigterm : handler;
  w_atexit : list nat;             (* owners of the registered close *)
}.

Definition set_fs (f : gmap string node -> gmap string node) (w : World) : World :=
  {| w_pid := w_pid w; w_argv0 := w_argv0 w; w_cwd := w_cwd w;
     w_tempdir := w_tempdir w; w_umask := w_umask w; w_euid := w_euid w;
     w_egid := w_egid w; w_fs := f (w_fs w); w_inodes := w_inodes w;
     w_files := w_files w; w_locks := w_locks w; w_procs := w_procs w;
     w_sigterm := w_sigterm w; w_atexit := w_atexit w |}.

Definition set_inodes (f : gmap nat inode -> gmap nat inode) (w : World) : World :=
  {| w_pid := w_pid w; w_argv0 := w_argv0 w; w_cwd := w_cwd w;
     w_tempdir := w_tempdir w; w_umask := w_umask w; w_euid := w_euid w;
     w_egid := w_egid w; w_fs := w_fs w; w_inodes := f (w_inodes w);
     w_files := w_files w; w_locks := w_locks w; w_procs := w_procs w;
     w_sigterm := w_sigterm w; w_atexit := w_atexit w |}.

Definition set_files (f : gmap nat file_obj -> gmap nat file_obj) (w : World) : World :=
  {| w_pid := w_pid w; w_argv0 := w_argv0 w; w_cwd := w_cwd w;
     w_tempdir := w_tempdir w; w_umask := w_umask w; w_euid := w_euid w;
     w_egid := w_egid w; w_fs := w_fs w; w_inodes := w_inodes w;
     w_files := f (w_files w); w_locks := w_locks w; w_procs := w_procs w;
     w_sigterm := w_sigterm w; w_atexit := w_atexit w |}.

Definition set_locks (f : gmap nat lock_owner -> gmap nat lock_owner) (w : World) : World :=
  {| w_pid := w_pid w; w_argv0 := w_argv0 w; w_cwd := w_cwd w;
     w_tempdir := w_tempdir w; w_umask := w_umask w; w_euid := w_euid w;
     w_egid := w_egid w; w_fs := w_fs w; w_inodes := w_inodes w;
     w_files := w_files w; w_locks := f (w_locks w); w_procs := w_procs w;
     w_sigterm := w_sigterm w; w_atexit := w_atexit w |}.

Definition set_sigterm (h : handler) (w : World) : World :=
  {| w_pid := w_pid w; w_argv0 := w_argv0 w; w_cwd := w_cwd w;
     w_tempdir := w_tempdir w; w_umask := w_umask w; w_euid := w_euid w;
     w_egid := w_egid w; w_fs := w_fs w; w_inodes := w_inodes w;
     w_files := w_files w; w_locks := w_locks w; w_procs := w_procs w;
     w_sigterm := h; w_atexit := w_atexit w |}.

Definition set_atexit (l : list nat) (w : World) : World :=
  {| w_pid := w_pid w; w_argv0 := w_argv0 w; w_cwd := w_cwd w;
     w_tempdir := w_tempdir w; w_umask := w_umask w; w_euid := w_euid w;
     w_egid := w_egid w; w_fs := w_fs w; w_inodes := w_inodes w;
     w_files := w_files w; w_locks := w_locks w; w_procs := w_procs w;
     w_sigterm := w_sigterm w; w_atexit := l |}.

(** *** Paths.  A path is resolved lexically ([abspath]); there are no
    symbolic links.  The empty path names nothing.  Permissions are what
    [os.access] reports; the other calls are those of a process that
    passes the kernel's permission checks. *)

Definition resolve (w : World) (p : string) : string :=
  posixpath.abspath (w_cwd w) p.

Definition node_at (w : World) (p : string) : option node :=
  if truthy p then w_fs w !! resolve w p else None.

(** [os.path.isdir(p)], [os.path.isfile(p)] *)
Definition isdir (w : World) (p : string) : bool :=
  match node_at w p with Some (Dir _ _) => true | _ => false end.

Definition isfile (w : World) (p : string) : bool :=
  match node_at w p with Some (File _) => true | _ => false end.

(** [os.access(p, os.R_OK)], [os.access(p, os.W_OK)] *)
Definition access_R_OK (w : World) (p : string) : bool :=
  match node_at w p with
  | Some (Dir r _) => r
  | Some (File _) => true
  | None => false
  end.

Definition access_W_OK (w : World) (p : string) : bool :=
  match node_at w p with
  | Some (Dir _ wr) => wr
  | Some (File _) => true
  | None => false
  end.

(** The inode table is total: a number it does not list is an empty
    file. *)
Definition inode_of (w : World) (i : nat) : inode :=
  match w_inodes w !! i with
  | Some x => x
  | None => {| i_data := ""; i_mode := 0; i_uid := 0; i_gid := 0 |}
  end.

Definition data_of (w : World) (i : nat) : string := i_data (inode_of w i).

(** The content of the regular file at [p], if there is one. *)
Definition file_content (w : World) (p : string) : option string :=
  match node_at w p with
  | Some (File i) => Some (data_of w i)
  | _ => None
  end.

(** The directories above [a], outermost first. *)
Fixpoint ancestors (fuel : nat) (a : string) : list string :=
  match fuel with
  | O => []
  | S fuel' =>
      let d := posixpath.dirname a in
      if String.eqb d a then [] else ancestors fuel' d ++ [d]
  end.

Definition mkdir_missing (acc : result (gmap string node)) (d : string)
    : result (gmap string node) :=
  match acc with
  | Ret fs =>
      match fs !! d with
      | None => Ret (<[d := Dir true true]> fs)
      | Some (Dir _ _) => Ret fs
      | Some (File _) => Raise (OSError ENOTDIR)
      end
  | Raise e => Raise e
  end.

(** [os.makedirs(p)]: the missing directories above [p], then [p], which
    must not exist. *)
Definition os_makedirs (p : string) : M World unit := fun w =>
  if truthy p then
    let a := resolve w p in
    match fold_left mkdir_missing (ancestors (String.length a) a) (Ret (w_fs w)) with
    | Ret fs =>
        match fs !! a with
        | None => (set_fs (fun _ => <[a := Dir true true]> fs) w, Ret tt)
        | Some _ => (set_fs (fun _ => fs) w, Raise (OSError EEXIST))
        end
    | Raise e => (w, Raise e)
    end
  else (w, Raise (OSError ENOENT)).

(** [os.remove(p)] *)
Definition os_remove (p : string) : M World unit := fun w =>
  match node_at w p with
  | Some (File _) => (set_fs (delete (resolve w p)) w, Ret tt)
  | Some (Dir _ _) => (w, Raise (OSError EISDIR))
  | None => (w, Raise (OSError ENOENT))
  end.

(** *** File objects *)

Definition set_meta (i : nat) (g : inode -> inode) (w : World) : World :=
  set_inodes <[i := g (inode_of w i)]> w.

Definition set_data (i : nat) (d : string) (w : World) : World :=
  set_meta i (fun x => {| i_data := d; i_mode := i_mode x;
                          i_uid := i_uid x; i_gid := i_gid x |}) w.

Definition set_file (h : nat) (f : file_obj) (w : World) : World :=
  set_files <[h := f]> w.

(** An open file object under an identity not yet in use. *)
Definition alloc_file (i : nat) (md : open_mode) (pos : nat) (w : World)
    : World * nat :=
  let h := fresh (dom (w_files w)) in
  (set_file h {| f_ino := i; f_mode := md; f_pos := pos; f_wbuf := "";
                 f_closed := false; f_fault := None |} w, h).

(** [open(path, "r")] and [open(path, "a+")]: the second creates a
    missing file in an existing directory and starts at the end. *)
Definition open (path : string) (md : open_mode) : M World nat := fun w =>
  match node_at w path with
  | Some (File i) =>
      let pos := match md with
                 | mode_r => O
                 | mode_a_plus => String.length (data_of w i)
                 end in
      let '(w', h) := alloc_file i md pos w in (w', Ret h)
  | Some (Dir _ _) => (w, Raise (OSError EISDIR))
  | None =>
      match md with
      | mode_r => (w, Raise (OSError ENOENT))
      | mode_a_plus =>
          if truthy path then
            match w_fs w !! posixpath.dirname (resolve w path) with
            | Some (Dir _ _) =>
                let i := fresh (dom (w_inodes w)) in
                let w1 := set_inodes
                  <[i := {| i_data := ""; i_uid := w_euid w; i_gid := w_egid w;
                            i_mode := Z.land 438 (Z.lnot (w_umask w)) |}]> w in
                let w2 := set_fs <[resolve w path := File i]> w1 in
                let '(w', h) := alloc_file i md O w2 in (w', Ret h)
            | Some (File _) => (w, Raise (OSError ENOTDIR))
            | None => (w, Raise (OSError ENOENT))
            end
          else (w, Raise (OSError ENOENT))
      end
  end.

(** The state of a file object; an identity that names no object behaves
    as a closed one. *)
Inductive file_state : Type :=
  | Closed
  | Broken (f : file_obj) (e : errno)
  | Usable (f : file_obj).

Definition file_state_of (w : World) (h : nat) : file_state :=
  match w_files w !! h with
  | None => Closed
  | Some f =>
      if f_closed f then Closed
      else match f_fault f with
           | Some e => Broken f e
           | None => Usable f
           end
  end.

Definition with_pos (n : nat) (f : file_obj) : file_obj :=
  {| f_ino := f_ino f; f_mode := f_mode f; f_pos := n; f_wbuf := f_wbuf f;
     f_closed := f_closed f; f_fault := f_fault f |}.

Definition with_wbuf (b : string) (f : file_obj) : file_obj :=
  {| f_ino := f_ino f; f_mode := f_mode f; f_pos := f_pos f; f_wbuf := b;
     f_closed := f_closed f; f_fault := f_fault f |}.

Definition closed_obj (f : file_obj) : file_obj :=
  {| f_ino := f_ino f; f_mode := f_mode f; f_pos := f_pos f; f_wbuf := "";
     f_closed := true; f_fault := f_fault f |}.

(** The pending output reaches the file; in append mode it goes to the
    end, and the position follows. *)
Definition flushed (h : nat) (f : file_obj) (w : World) : World * file_obj :=
  if truthy (f_wbuf f) then
    let d := data_of w (f_ino f) +:+ f_wbuf f in
    let f' := with_pos (String.length d) (with_wbuf "" f) in
    (set_file h f' (set_data (f_ino f) d w), f')
  else (w, f).

Definition unlock (h : nat) (i : nat) (w : World) : World :=
  match w_locks w !! i with
  | Some (LockedBy h') => if decide (h' = h) then set_locks (delete i) w else w
  | _ => w
  end.

(** [fh.close()]: a closed object stays closed without error; the
    object ends closed also when the system call fails. *)
Definition file_close (h : nat) : M World unit := fun w =>
  match file_state_of w h with
  | Closed => (w, Ret tt)
  | Broken f e =>
      (unlock h (f_ino f) (set_file h (closed_obj f) w), Raise (OSError e))
  | Usable f =>
      let '(w1, f1) := flushed h f w in
      (unlock h (f_ino f) (set_file h (closed_obj f1) w1), Ret tt)
  end.

(** [fh.seek(n)] *)
Definition file_seek (h : nat) (n : nat) : M World unit := fun w =>
  match file_state_of w h with
  | Closed => (w, Raise ValueError_closed_file)
  | Broken _ e => (w, Raise (OSError e))
  | Usable f =>
      let '(w1, f1) := flushed h f w in
      (set_file h (with_pos n f1) w1, Ret tt)
  end.

(** Text mode.  The source opens its files as text and without
    [newline=], so reading translates the line ends: a carriage return,
    with the line feed that follows it if there is one, reads as one line
    feed (universal newlines); writing leaves a line feed as it is on
    POSIX.  The bytes are read as the characters of the same number, which
    is what every encoding that extends ASCII makes of a file that
    [isascii]; how other bytes decode is left to the locale and is not
    modelled. *)
Fixpoint universal_newlines (s : string) : string :=
  match s with
  | EmptyString => EmptyString
  | String a s' =>
      if Ascii.eqb a cr then
        String newline
          match s' with
          | String b s'' =>
              if Ascii.eqb b newline then universal_newlines s''
              else universal_newlines s'
          | EmptyString => EmptyString
          end
      else String a (universal_newlines s')
  end.

(** The number of bytes of [s] that make up its first [n] characters of
    text. *)
Fixpoint text_bytes (n : nat) (s : string) {struct s} : nat :=
  match n, s with
  | S n', String a s' =>
      if Ascii.eqb a cr then
        match s' with
        | String b s'' =>
            if Ascii.eqb b newline then 2 + text_bytes n' s''
            else 1 + text_bytes n' s'
        | EmptyString => 1
        end
      else 1 + text_bytes n' s'
  | _, _ => O
  end.

(** [fh.read(n)]: at most [n] characters of the text from the current
    position on. *)
Definition file_read (h : nat) (n : nat) : M World string := fun w =>
  match file_state_of w h with
  | Closed => (w, Raise ValueError_closed_file)
  | Broken _ e => (w, Raise (OSError e))
  | Usable f =>
      let '(w1, f1) := flushed h f w in
      let rest := drop (f_pos f1) (data_of w1 (f_ino f1)) in
      (set_file h (with_pos (f_pos f1 + text_bytes n rest) f1) w1,
       Ret (take n (universal_newlines rest)))
  end.

(** [fh.truncate()]: the file is cut, or padded with NUL, at the current
    position. *)
Definition file_truncate (h : nat) : M World unit := fun w =>
  match file_state_of w h with
  | Closed => (w, Raise ValueError_closed_file)
  | Broken _ e => (w, Raise (OSError e))
  | Usable f =>
      match f_mode f with
      | mode_r => (w, Raise UnsupportedOperation)
      | mode_a_plus =>
          let '(w1, f1) := flushed h f w in
          let d := data_of w1 (f_ino f1) in
          let d' := take (f_pos f1) d +:+
                    repeat "000"%char (f_pos f1 - String.length d) in
          (set_data (f_ino f1) d' w1, Ret tt)
      end
  end.

(** [fh.write(s)] *)
Definition file_write (h : nat) (s : string) : M World unit := fun w =>
  match file_state_of w h with
  | Closed => (w, Raise ValueError_closed_file)
  | Broken f _ | Usable f =>
      match f_mode f with
      | mode_r => (w, Raise UnsupportedOperation)
      | mode_a_plus => (set_file h (with_wbuf (f_wbuf f +:+ s) f) w, Ret tt)
      end
  end.

(** [fh.flush()] *)
Definition file_flush (h : nat) : M World unit := fun w =>
  match file_state_of w h with
  | Closed => (w, Raise ValueError_closed_file)
  | Broken f e =>
      if truthy (f_wbuf f) then (w, Raise (OSError e)) else (w, Ret tt)
  | Usable f => (fst (flushed h f w), Ret tt)
  end.

(** [fh.fileno()]: the descriptor is identified with the object. *)
Definition file_fileno (h : nat) : M World nat := fun w =>
  match file_state_of w h with
  | Closed => (w, Raise ValueError_closed_file)
  | _ => (w, Ret h)
  end.

(** [fcntl.flock(fd, LOCK_EX | LOCK_NB)] *)
Definition fcntl_flock (fd : nat) : M World unit := fun w =>
  match file_state_of w fd with
  | Closed => (w, Raise (OSError EBADF))
  | Broken _ e => (w, Raise (OSError e))
  | Usable f =>
      match w_locks w !! f_ino f with
      | None => (set_locks <[f_ino f := LockedBy fd]> w, Ret tt)
      | Some (LockedBy h') =>
          if decide (h' = fd) then (w, Ret tt)
          else (w, Raise (OSError EWOULDBLOCK))
      | Some LockedElsewhere => (w, Raise (OSError EWOULDBLOCK))
      end
  end.

(** [os.fchmod(fd, mode)] *)
Definition os_fchmod (fd : nat) (mode : Z) : M World unit := fun w =>
  match file_state_of w fd with
  | Closed => (w, Raise (OSError EBADF))
  | Broken _ e => (w, Raise (OSError e))
  | Usable f =>
      (set_meta (f_ino f) (fun x =>
         {| i_data := i_data x; i_mode := mode;
            i_uid := i_uid x; i_gid := i_gid x |}) w, Ret tt)
  end.

(** [os.fchown(fd, uid, gid)]: -1 leaves an id as it is. *)
Definition os_fchown (fd : nat) (uid gid : Z) : M World unit := fun w =>
  match file_state_of w fd with
  | Closed => (w, Raise (OSError EBADF))
  | Broken _ e => (w, Raise (OSError e))
  | Usable f =>
      (set_meta (f_ino f) (fun x =>
         {| i_data := i_data x; i_mode := i_mode x;
            i_uid := if uid =? -1 then i_uid x else uid;
            i_gid := if gid =? -1 then i_gid x else gid |}) w, Ret tt)
  end.

(** *** Processes and signals *)

(** [os.kill(pid, 0)]: the pid must fit a C [int]; then the probe
    succeeds, or fails with [ESRCH] or [EPERM]. *)
Definition os_kill_0 (pid : Z) : M World unit := fun w =>
  if (- 2 ^ 31 <=? pid) && (pid <? 2 ^ 31) then
    match w_procs w !! pid with
    | None => (w, Raise (OSError ESRCH))
    | Some true => (w, Ret tt)
    | Some false => (w, Raise (OSError EPERM))
    end
  else (w, Raise OverflowError).

(** [signal.getsignal(signal.SIGTERM)], [signal.signal(signal.SIGTERM, f)] *)
Definition signal_getsignal_SIGTERM : M World handler := gets w_sigterm.

Definition signal_signal_SIGTERM (f : callable) : M World unit :=
  modify (set_sigterm (handler_callable f)).

(** [atexit.register(obj.close)], [obj] known by its identity. *)
Definition atexit_register_close (owner : nat) : M World unit :=
  modify (fun w => set_atexit (w_atexit w ++ [owner]) w).

End OS.

(** ** The class [PidFile] *)

Module Pid.
Import PyStr OS.

Definition DEFAULT_PID_DIR : string := "/var/run/".

(** The slots of a [PidFile] object; [self_id] is the identity of the
    object, under which [atexit] knows its bound [close]. *)
Record PidFile : Type := {
  self_id : nat;
  pid : option Z;
  pidname : option string;
  piddir : option string;
  enforce_dotpid_postfix : bool;
  filename : option string;
  fh : option nat;
  lock_pidfile : bool;
  chmod : Z;
  uid : Z;
  gid : Z;
  force_tmpdir : bool;
  _logger : option string;
  _is_setup : bool;
}.

(** [PidFile.__init__] *)
Definition __init__ (id : nat) (pidname piddir : option string)
    (enforce_dotpid_postfix lock_pidfile : bool) (chmod uid gid : Z)
    (force_tmpdir : bool) : PidFile :=
  {| self_id := id; pidname := pidname; piddir := piddir;
     enforce_dotpid_postfix := enforce_dotpid_postfix;
     lock_pidfile := lock_pidfile; chmod := chmod; uid := uid; gid := gid;
     force_tmpdir := force_tmpdir;
     fh := None; filename := None; pid := None;
     _logger := None; _is_setup := false |}.

(** [PidFile(pidname, piddir)] with the defaults of the other arguments. *)
Definition PidFile_new (id : nat) (pidname piddir : option string) : PidFile :=
  __init__ id pidname piddir true true 420 (-1) (-1) false.

Definition with_pid (p : option Z) (m : PidFile) : PidFile :=
  {| self_id := self_id m; pid := p; pidname := pidname m; piddir := piddir m;
     enforce_dotpid_postfix := enforce_dotpid_postfix m;
     filename := filename m; fh := fh m; lock_pidfile := lock_pidfile m;
     chmod := chmod m; uid := uid m; gid := gid m;
     force_tmpdir := force_tmpdir m; _logger := _logger m;
     _is_setup := _is_setup m |}.

Definition with_filename (f : option string) (m : PidFile) : PidFile :=
  {| self_id := self_id m; pid := pid m; pidname := pidname m; piddir := piddir m;
     enforce_dotpid_postfix := enforce_dotpid_postfix m;
     filename := f; fh := fh m; lock_pidfile := lock_pidfile m;
     chmod := chmod m; uid := uid m; gid := gid m;
     force_tmpdir := force_tmpdir m; _logger := _logger m;
     _is_setup := _is_setup m |}.

Definition with_fh (h : option nat) (m : PidFile) : PidFile :=
  {| self_id := self_id m; pid := pid m; pidname := pidname m; piddir := piddir m;
     enforce_dotpid_postfix := enforce_dotpid_postfix m;
     filename := filename m; fh := h; lock_pidfile := lock_pidfile m;
     chmod := chmod m; uid := uid m; gid := gid m;
     force_tmpdir := force_tmpdir m; _logger := _logger m;
     _is_setup := _is_setup m |}.

Definition with_logger (l : option string) (m : PidFile) : PidFile :=
  {| self_id := self_id m; pid := pid m; pidname := pidname m; piddir := piddir m;
     enforce_dotpid_postfix := enforce_dotpid_postfix m;
     filename := filename m; fh := fh m; lock_pidfile := lock_pidfile m;
     chmod := chmod m; uid := uid m; gid := gid m;
     force_tmpdir := force_tmpdir m; _logger := l;
     _is_setup := _is_setup m |}.

Definition with_is_setup (b : bool) (m : PidFile) : PidFile :=
  {| self_id := self_id m; pid := pid m; pidname := pidname m; piddir := piddir m;
     enforce_dotpid_postfix := enforce_dotpid_postfix m;
     filename := filename m; fh := fh m; lock_pidfile := lock_pidfile m;
     chmod := chmod m; uid := uid m; gid := gid m;
     force_tmpdir := force_tmpdir m; _logger := _logger m;
     _is_setup := b |}.

(** A method runs over the world and the fields of [self]. *)
Definition St : Type := World * PidFile.

Definition os {A} (c : M World A) : M St A :=
  fun s => match c (fst s) with (w', r) => ((w', snd s), r) end.
Definition world : M St World := gets fst.
Definition self : M St PidFile := gets snd.
Definition set_self (f : PidFile -> PidFile) : M St unit :=
  modify (fun s => (fst s, f (snd s))).

(** The property [logger]; a [Logger] object is true.  What is logged is
    not part of the model. *)
Definition logger : M St string :=
  let* m := self in
  match _logger m with
  | Some l => ret l
  | None => set_self (with_logger (Some "PidFile")) >>> ret "PidFile"
  end.

(** [self.logger.debug(...)] *)
Definition logger_debug : M St unit := logger >>> ret tt.

(** [self.fh], to call a method of it. *)
Definition self_fh : M St nat :=
  let* m := self in
  match fh m with
  | Some h => ret h
  | None => raise AttributeError
  end.

(** [PidFile._make_filename] *)
Definition _make_filename : M St string :=
  let* m := self in
  let* w := world in
  let pidname :=
    match pidname m with
    | None => posixpath.basename (w_argv0 w) +:+ ".pid"
    | Some n => n
    end in
  let pidname :=
    if enforce_dotpid_postfix m && negb (endswith pidname ".pid")
    then pidname +:+ ".pid" else pidname in
  let piddir :=
    match piddir m with
    | None =>
        if isdir w DEFAULT_PID_DIR && negb (force_tmpdir m)
        then DEFAULT_PID_DIR else w_tempdir w
    | Some d => d
    end in
  (if negb (isdir w piddir) then os (os_makedirs piddir) else ret tt) >>>
  let* w := world in
  if negb (access_R_OK w piddir) then
    raise (IOError_msg ("Pid file directory '" +:+ piddir +:+ "' cannot be read"))
  else if negb (access_W_OK w piddir) then
    raise (IOError_msg
             ("Pid file directory '" +:+ piddir +:+ "' cannot be written to"))
  else ret (posixpath.abspath (w_cwd w) (posixpath.join piddir pidname)).

(** The body of the nested function [sigterm_noop_handler], whatever the
    arguments it is called with. *)
Definition sigterm_noop_handler_call (args : list Z) : M World unit :=
  raise (SystemExit 1).

(** The exit status of the interpreter when [e] is not caught. *)
Definition exit_status (e : exn) : Z :=
  match e with
  | SystemExit code => code
  | _ => 1
  end.

#[export] Instance callable_eq_dec : EqDecision callable.
Proof. solve_decision. Defined.
#[export] Instance handler_eq_dec : EqDecision handler.
Proof. solve_decision. Defined.

(** [PidFile._register_term_signal] *)
Definition _register_term_signal : M St unit :=
  let* h := os signal_getsignal_SIGTERM in
  if bool_decide (h = SIG_DFL)
  then os (signal_signal_SIGTERM sigterm_noop_handler)
  else ret tt.

(** [PidFile._setup] *)
Definition _setup : M St unit :=
  let* m := self in
  if negb (_is_setup m) then
    logger_debug >>>
    let* m := self in
    (match filename m with
     | None =>
         let* w := world in
         set_self (with_pid (Some (w_pid w))) >>>
         let* f := _make_filename in
         set_self (with_filename (Some f)) >>>
         _register_term_signal
     | Some _ => ret tt
     end) >>>
    set_self (with_is_setup true)
  else ret tt.

(** [PidFile.close] *)
Definition close (fh_arg : option nat) (cleanup : bool) : M St unit :=
  logger_debug >>>
  let* m := self in
  let fh := match fh_arg with Some h => Some h | None => fh m end in
  try_finally
    (try_except
       (match fh with
        | None => ret tt
        | Some h => os (file_close h)
        end)
       (fun exc =>
          if is_IOError exc then
            Some (if bool_decide (exn_errno exc ≠ Some EBADF)
                  then raise exc else ret tt)
          else None))
    (let* m := self in
     let* w := world in
     match filename m with
     | Some f =>
         if truthy f && isfile w f && cleanup then os (os_remove f) else ret tt
     | None => ret tt
     end).

(** The function [inner_check] of [PidFile.check]: [None] from the first
    [try] stands for its [return None]. *)
Definition inner_check (fh : nat) : M St unit :=
  let* parsed :=
    try_except
      (os (file_seek fh 0) >>>
       let* s := os (file_read fh 16) in
       let pid_str := strip (before newline s) in
       if negb (truthy pid_str) then ret None
       else match PyInt.int pid_str with
            | Some p => ret (Some p)
            | None => raise (ValueError_invalid_literal pid_str)
            end)
      (fun exc =>
         if is_IOError exc || is_ValueError exc then
           Some (close (Some fh) true >>> raise (PidFileUnreadableError exc))
         else None) in
  match parsed with
  | None => ret tt
  | Some pid =>
      let* running :=
        try_except
          (os (os_kill_0 pid) >>> ret true)
          (fun exc =>
             if is_IOError exc then
               Some (if bool_decide (exn_errno exc = Some ESRCH) then ret false
                     else close (Some fh) false >>>
                          raise (PidFileAlreadyRunningError (inl exc)))
             else None) in
      if running then
        close (Some fh) false >>>
        raise (PidFileAlreadyRunningError
                 (inr ("Program already running with pid: " +:+ PyInt.format_d pid)))
      else ret tt
  end.

(** [with open(path, mode) as fh: body fh] *)
Definition with_open {A} (path : string) (md : open_mode)
    (body : nat -> M St A) : M St A :=
  let* h := os (open path md) in
  try_finally (body h) (os (file_close h)).

(** [PidFile.check] *)
Definition check : M St unit :=
  _setup >>>
  logger_debug >>>
  let* m := self in
  match fh m with
  | None =>
      let* w := world in
      match filename m with
      | Some f =>
          if truthy f && isfile w f then with_open f mode_r inner_check
          else ret tt
      | None => ret tt
      end
  | Some h => inner_check h
  end.

(** [PidFile.create] *)
Definition create : M St unit :=
  _setup >>>
  logger_debug >>>
  let* m := self in
  let* h := match filename m with
            | Some f => os (open f mode_a_plus)
            | None => raise TypeError
            end in
  set_self (with_fh (Some h)) >>>
  let* m := self in
  (if lock_pidfile m then
     try_except
       (let* h := self_fh in
        let* fd := os (file_fileno h) in
        os (fcntl_flock fd))
       (fun exc =>
          if is_IOError exc then
            Some (close None false >>> raise (PidFileAlreadyLockedError exc))
          else None)
   else ret tt) >>>
  check >>>
  let* m := self in
  (if negb (chmod m =? 0) then
     let* h := self_fh in
     let* fd := os (file_fileno h) in
     os (os_fchmod fd (chmod m))
   else ret tt) >>>
  let* m := self in
  (if (0 <=? uid m) || (0 <=? gid m) then
     let* h := self_fh in
     let* fd := os (file_fileno h) in
     os (os_fchown fd (uid m) (gid m))
   else ret tt) >>>
  (let* h := self_fh in os (file_seek h 0)) >>>
  (let* h := self_fh in os (file_truncate h)) >>>
  (let* h := self_fh in
   let* m := self in
   match pid m with
   | Some p => os (file_write h (PyInt.format_d p +:+ String newline ""))
   | None => raise TypeError
   end) >>>
  (let* h := self_fh in os (file_flush h)) >>>
  (let* h := self_fh in os (file_seek h 0)) >>>
  let* m := self in
  os (atexit_register_close (self_id m)).

(** [PidFile.__enter__] and [PidFile.__exit__] *)
Definition __enter__ : M St unit := create.
Definition __exit__ : M St unit := close None true.

End Pid.

(** ** The filename derivation, in the words of the specification *)

(** Steps 1 and 2 of the derivation: the name hint if supplied, else the
    program's invocation base name followed by [.pid]; then, if the suffix
    is enforced and the name does not end with [.pid], [.pid] appended. *)
Definition spec_base_name (argv0 : string) (m : Pid.PidFile) : string :=
  let base :=
    match Pid.pidname m with
    | Some hint => hint
    | None => posixpath.basename argv0 +:+ ".pid"
    end in
  if Pid.enforce_dotpid_postfix m && negb (PyStr.endswith base ".pid")
  then base +:+ ".pid" else base.

(** ** Auxiliary definitions of the proofs and their instances *)

(** A path component that [normpath] keeps as it is. *)
Definition plain_component (b : string) : Prop :=
  b <> "" /\ b <> "." /\ b <> "..".

(** [c] relates every state it starts from to the state it ends in,
    whether it returns or raises. *)
Definition respects {T : Type} (R : relation T) {A} (c : M T A) : Prop :=
  forall s s' r, c s = (s', r) -> R s s'.

Definition respects_opt {T : Type} (R : relation T) {A} (o : option (M T A))
    : Prop :=
  match o with
  | Some c => respects R c
  | None => True
  end.

(** A relation on states that only looks at [self]. *)
Definition on_self (R : relation Pid.St) : Prop :=
  forall w w' m m', R (w, m) (w, m') -> R (w, m) (w', m').

(** [self] after [self.logger] was read once. *)
Definition logged (m : Pid.PidFile) : Pid.PidFile :=
  match Pid._logger m with
  | Some _ => m
  | None => Pid.with_logger (Some "PidFile") m
  end.

(** What [_setup] fixes: once [_is_setup] holds, it, the resolved path and
    the captured process ID stay as they are. *)
Definition setup_kept : relation Pid.St := fun s s' =>
  Pid._is_setup (snd s) = true ->
  Pid._is_setup (snd s') = true /\
  Pid.filename (snd s') = Pid.filename (snd s) /\
  Pid.pid (snd s') = Pid.pid (snd s).

(** Two states of [self] that differ at most in the cached logger. *)
Definition same_but_logger : relation Pid.St := fun s s' =>
  Pid.with_logger None (snd s') = Pid.with_logger None (snd s).

(** The world after the [finally] clause of [close]. *)
Definition cleaned (f : option string) (cleanup : bool) (w : OS.World) : OS.World :=
  match f with
  | Some f =>
      if PyStr.truthy f && OS.isfile w f && cleanup
      then OS.set_fs (delete (OS.resolve w f)) w else w
  | None => w
  end.

(** What [close] makes of the outcome of [fh.close()]. *)
Definition close_outcome (r : result unit) : result unit :=
  match r with
  | Raise e =>
      if is_IOError e && bool_decide (exn_errno e = Some EBADF)
      then Ret tt else Raise e
  | r => r
  end.

(** An open, unbroken file object. *)
Definition fobj (md : OS.open_mode) (i pos : nat) (buf : string) : OS.file_obj :=
  {| OS.f_ino := i; OS.f_mode := md; OS.f_pos := pos; OS.f_wbuf := buf;
     OS.f_closed := false; OS.f_fault := None |}.

(** In [w], the file object [h] is open on inode [i] in mode [md], at
    position [pos], with [buf] written and not yet flushed. *)
Definition open_on (w : OS.World) (h : nat) (md : OS.open_mode) (i pos : nat)
    (buf : string) : Prop :=
  OS.w_files w !! h = Some (fobj md i pos buf).

(** The world once [fh.seek(0)] and [fh.read(16)] have run on [h]. *)
Definition after_read (w : OS.World) (h : nat) (md : OS.open_mode) (i : nat)
    : OS.World :=
  OS.set_file h
    (fobj md i (OS.text_bytes 16 (OS.data_of w i)) "")
    (OS.set_file h (fobj md i 0 "") w).

(** The world once the open object [h] has been closed. *)
Definition after_close (w : OS.World) (h : nat) (md : OS.open_mode) (i pos : nat)
    : OS.World :=
  OS.unlock h i (OS.set_file h (OS.closed_obj (fobj md i pos "")) w).

(** The outcome of the liveness probe, as [inner_check] treats it: [w2]
    is the world after the read, [wc] the world once the object is
    closed. *)
Definition probe_outcome (w2 wc : OS.World) (m : Pid.PidFile) (p : Z)
    (r : result unit) : Pid.St * result unit :=
  match r with
  | Ret _ =>
      ((wc, logged m),
       Raise (PidFileAlreadyRunningError
                (inr ("Program already running with pid: " +:+ PyInt.format_d p))))
  | Raise e =>
      if is_IOError e then
        if bool_decide (exn_errno e = Some ESRCH) then ((w2, m), Ret tt)
        else ((wc, logged m), Raise (PidFileAlreadyRunningError (inl e)))
      else ((w2, m), Raise e)
  end.

(** What [inner_check] makes of the first 16 characters of a text:
    [text[:16].split("\n", 1)[0].strip()].  The text of a file with the
    bytes [c] is [OS.universal_newlines c]. *)
Definition pid_str_of (content : string) : string :=
  PyStr.strip (PyStr.before PyStr.newline (PyStr.take 16 content)).

(** Strings without white space. *)
Fixpoint no_space (s : string) : bool :=
  match s with
  | EmptyString => true
  | String a s' => negb (PyStr.is_space a) && no_space s'
  end.

(** Strings of decimal digits, and the number of digits [digits_onto]
    prints. *)
Fixpoint is_digits (s : string) : bool :=
  match s with
  | EmptyString => true
  | String a s' => bool_decide (is_Some (PyInt.digit_val a)) && is_digits s'
  end.

Fixpoint ndigits (fuel : nat) (n : Z) : nat :=
  match fuel with
  | O => 1
  | S fuel' => if n / 10 =? 0 then 1%nat else S (ndigits fuel' (n / 10))
  end.

(** [create] in two parts: up to the call of [check], and what follows
    it. *)
Definition create_write : M Pid.St unit :=
  let* m := Pid.self in
  (if negb (Pid.chmod m =? 0) then
     let* h := Pid.self_fh in
     let* fd := Pid.os (OS.file_fileno h) in
     Pid.os (OS.os_fchmod fd (Pid.chmod m))
   else ret tt) >>>
  let* m := Pid.self in
  (if (0 <=? Pid.uid m) || (0 <=? Pid.gid m) then
     let* h := Pid.self_fh in
     let* fd := Pid.os (OS.file_fileno h) in
     Pid.os (OS.os_fchown fd (Pid.uid m) (Pid.gid m))
   else ret tt) >>>
  (let* h := Pid.self_fh in Pid.os (OS.file_seek h 0)) >>>
  (let* h := Pid.self_fh in Pid.os (OS.file_truncate h)) >>>
  (let* h := Pid.self_fh in
   let* m := Pid.self in
   match Pid.pid m with
   | Some p => Pid.os (OS.file_write h (PyInt.format_d p +:+ String PyStr.newline ""))
   | None => raise TypeError
   end) >>>
  (let* h := Pid.self_fh in Pid.os (OS.file_flush h)) >>>
  (let* h := Pid.self_fh in Pid.os (OS.file_seek h 0)) >>>
  let* m := Pid.self in
  Pid.os (OS.atexit_register_close (Pid.self_id m)).

Definition create_lock : M Pid.St unit :=
  let* m := Pid.self in
  if Pid.lock_pidfile m then
    try_except
      (let* h := Pid.self_fh in
       let* fd := Pid.os (OS.file_fileno h) in
       Pid.os (OS.fcntl_flock fd))
      (fun exc =>
         if is_IOError exc then
           Some (Pid.close None false >>> raise (PidFileAlreadyLockedError exc))
         else None)
  else ret tt.

Definition create_open : M Pid.St unit :=
  let* m := Pid.self in
  let* h := match Pid.filename m with
            | Some f => Pid.os (OS.open f OS.mode_a_plus)
            | None => raise TypeError
            end in
  Pid.set_self (Pid.with_fh (Some h)).

(** The slots that [_setup] never assigns, as far as the claims need
    them. *)
Definition same_config : relation Pid.St := fun s s' =>
  Pid.lock_pidfile (snd s') = Pid.lock_pidfile (snd s) /\
  Pid.fh (snd s') = Pid.fh (snd s).

(** The caller assigns the public slots that [_make_filename] reads. *)
Definition set_hints (name dir : option string) (enforce force_tmp : bool)
    (m : Pid.PidFile) : Pid.PidFile :=
  {| Pid.self_id := Pid.self_id m; Pid.pid := Pid.pid m;
     Pid.pidname := name; Pid.piddir := dir;
     Pid.enforce_dotpid_postfix := enforce;
     Pid.filename := Pid.filename m; Pid.fh := Pid.fh m;
     Pid.lock_pidfile := Pid.lock_pidfile m; Pid.chmod := Pid.chmod m;
     Pid.uid := Pid.uid m; Pid.gid := Pid.gid m;
     Pid.force_tmpdir := force_tmp; Pid._logger := Pid._logger m;
     Pid._is_setup := Pid._is_setup m |}.

(** The state in which [_make_filename] runs during the first [_setup]. *)
Definition at_make_filename (w : OS.World) (m : Pid.PidFile) : Pid.PidFile :=
  Pid.with_pid (Some (OS.w_pid w)) (logged m).

(** A machine with [/var/run] and [/tmp], running as process 4242. *)
Definition demo_world : OS.World :=
  {| OS.w_pid := 4242; OS.w_argv0 := "/usr/bin/myservice"; OS.w_cwd := "/home/u";
     OS.w_tempdir := "/tmp"; OS.w_umask := 18; OS.w_euid := 1000; OS.w_egid := 1000;
     OS.w_fs := {[ "/" := OS.Dir true true; "/var" := OS.Dir true true;
                   "/var/run" := OS.Dir true true; "/tmp" := OS.Dir true true ]};
     OS.w_inodes := ∅; OS.w_files := ∅; OS.w_locks := ∅;
     OS.w_procs := {[ 4242 := true ]};
     OS.w_sigterm := OS.SIG_DFL; OS.w_atexit := [] |}.

(** [demo_world] with the PID file of a process that is gone. *)
Definition stale_world : OS.World :=
  OS.set_inodes <[0%nat := {| OS.i_data := "31337" +:+ String PyStr.newline "";
                              OS.i_mode := 420; OS.i_uid := 0; OS.i_gid := 0 |}]>
    (OS.set_fs <["/var/run/myservice.pid" := OS.File 0]> demo_world).

(** [PidFile()] and [PidFile("custom")]. *)
Definition demo_manager : Pid.PidFile := Pid.PidFile_new 1 None None.
Definition custom_manager : Pid.PidFile := Pid.PidFile_new 2 (Some "custom") None.

(** [p = PidFile(); p.check()] where the stale file lies. *)
Definition checked_state : Pid.St := fst (Pid.check (stale_world, demo_manager)).
Definition checked_world : OS.World := fst checked_state.
Definition checked_manager : Pid.PidFile := snd checked_state.

(** The path at which [demo_manager] keeps its file on [demo_world]. *)
Definition demo_path : string := "/var/run/myservice.pid".

(** [demo_manager] and [custom_manager] after their first setup. *)
Definition demo_setup : Pid.St := fst (Pid._setup (demo_world, demo_manager)).
Definition custom_setup : Pid.St := fst (Pid._setup (demo_world, custom_manager)).

(** [demo_manager] after [create]. *)
Definition created_state : Pid.St := fst (Pid.create (demo_world, demo_manager)).
Definition created_world : OS.World := fst created_state.
Definition created_manager : Pid.PidFile := snd created_state.

(** The stale file, seen by a manager that is set up. *)
Definition stale_setup : Pid.St := fst (Pid._setup (stale_world, demo_manager)).

(** The state in which [create] calls [check] where the stale file lies:
    the manager holds the file object it has just opened and locked. *)
Definition held_state : Pid.St :=
  fst ((Pid._setup >>> Pid.logger_debug >>> create_open >>> create_lock)
         (stale_world, demo_manager)).

(** [demo_world] with a PID file that holds no number. *)
Definition garbage_world : OS.World :=
  OS.set_inodes <[0%nat := {| OS.i_data := "not-a-pid" +:+ String PyStr.newline "";
                              OS.i_mode := 420; OS.i_uid := 0; OS.i_gid := 0 |}]>
    (OS.set_fs <["/var/run/myservice.pid" := OS.File 0]> demo_world).
Definition garbage_setup : Pid.St := fst (Pid._setup (garbage_world, demo_manager)).

(** [stale_world] where another process holds the lock of the PID file. *)
Definition locked_world : OS.World :=
  OS.set_locks <[0%nat := OS.LockedElsewhere]> stale_world.
Definition locked_setup : Pid.St := fst (Pid._setup (locked_world, demo_manager)).
Definition locked_opened : OS.World :=
  fst (OS.open demo_path OS.mode_a_plus (fst locked_setup)).

(** A second [PidFile()] of the same program. *)
Definition other_manager : Pid.PidFile := Pid.PidFile_new 3 None None.

(** ** Further definitions of the proofs and their instances *)

Section FurtherDefinitions.
Import PyStr OS Pid.

(** The inode of the PID file once [create] has applied [chmod], [uid]
    and [gid] to [x]. *)
Definition create_meta (m : PidFile) (x : inode) : inode :=
  let x1 := if negb (chmod m =? 0)
            then {| i_data := i_data x; i_mode := chmod m;
                    i_uid := i_uid x; i_gid := i_gid x |}
            else x in
  if (0 <=? uid m) || (0 <=? gid m)
  then {| i_data := i_data x1; i_mode := i_mode x1;
          i_uid := if uid m =? -1 then i_uid x1 else uid m;
          i_gid := if gid m =? -1 then i_gid x1 else gid m |}
  else x1.

(** The inode of a file that [open(path, "a+")] creates. *)
Definition new_inode (w : World) : inode :=
  {| i_data := ""; i_uid := w_euid w; i_gid := w_egid w;
     i_mode := Z.land 438 (Z.lnot (w_umask w)) |}.

(** No [flock] lock is recorded for an inode that does not exist. *)
Definition no_stray_locks (w : World) : Prop :=
  forall j, w_inodes w !! j = None -> w_locks w !! j = None.

(** The content of a PID file that names no live process: nothing before
    the first newline, or the ID of a process that is gone. *)
Definition names_no_process (w : World) (c : string) : Prop :=
  pid_str_of c = "" \/
  exists q, PyInt.int (pid_str_of c) = Some q /\
            snd (os_kill_0 q w) = Raise (OSError ESRCH).

(** The world once [check] has opened the file at inode [i], read it and
    closed the file object again. *)
Definition inspected (w : World) (i : nat) : World :=
  let h := fresh (dom (w_files w)) in
  after_close (after_read (set_file h (fobj mode_r i 0 "") w) h mode_r i) h mode_r i
    (text_bytes 16 (data_of w i)).

(** What a file operation on an object leaves alone: the directory tree
    and the working directory. *)
Definition same_tree (w w' : World) : Prop :=
  w_fs w' = w_fs w /\ w_cwd w' = w_cwd w.

(** The outcome of [inner_check] for the directory tree: nothing is
    created or changed; the file at the resolved path is removed only on
    the way to an error that is not the already-running error. *)
Definition tree_kept_or_unreadable (w : World) (m : PidFile) (s' : St)
    (r : result unit) : Prop :=
  w_cwd (fst s') = w_cwd w /\
  (w_fs (fst s') = w_fs w \/
   exists f e, filename m = Some f /\ isfile w f = true /\
     w_fs (fst s') = delete (resolve w f) (w_fs w) /\
     r = Raise e /\ forall x, e <> PidFileAlreadyRunningError x).

(** An operation of the operating system that leaves the [atexit]
    registry alone. *)
Definition keeps_atexit {A} (c : M World A) : Prop :=
  forall w, w_atexit (fst (c w)) = w_atexit w.

(** The registry and the identity of [self] are as before. *)
Definition same_atexit : relation St := fun s s' =>
  w_atexit (fst s') = w_atexit (fst s) /\ self_id (snd s') = self_id (snd s).

(** [c] registers [self.close] once if it returns, and nothing if it
    raises. *)
Definition registers_close (c : M St unit) : Prop :=
  forall s s' r, c s = (s', r) ->
    match r with
    | Ret _ => w_atexit (fst s') = w_atexit (fst s) ++ [self_id (snd s)]
    | Raise _ => w_atexit (fst s') = w_atexit (fst s)
    end.

(** What [_setup] leaves alone in the world: the inodes, the locks and
    the file objects. *)
Definition same_files : relation St := fun s s' =>
  w_inodes (fst s') = w_inodes (fst s) /\ w_locks (fst s') = w_locks (fst s) /\
  w_files (fst s') = w_files (fst s).

(** [w] with the PID file of [demo_manager], which belongs to the user
    and holds [c]. *)
Definition with_pid_file (c : string) (w : OS.World) : OS.World :=
  OS.set_inodes <[0%nat := {| OS.i_data := c; OS.i_mode := 420;
                              OS.i_uid := OS.w_euid w; OS.i_gid := OS.w_egid w |}]>
    (OS.set_fs <[demo_path := OS.File 0]> w).

(** [w] with the process table [ps]. *)
Definition with_procs (ps : gmap Z bool) (w : OS.World) : OS.World :=
  {| OS.w_pid := OS.w_pid w; OS.w_argv0 := OS.w_argv0 w; OS.w_cwd := OS.w_cwd w;
     OS.w_tempdir := OS.w_tempdir w; OS.w_umask := OS.w_umask w;
     OS.w_euid := OS.w_euid w; OS.w_egid := OS.w_egid w; OS.w_fs := OS.w_fs w;
     OS.w_inodes := OS.w_inodes w; OS.w_files := OS.w_files w;
     OS.w_locks := OS.w_locks w; OS.w_procs := ps;
     OS.w_sigterm := OS.w_sigterm w; OS.w_atexit := OS.w_atexit w |}.

(** A PID file that holds three spaces. *)
Definition blank_world : OS.World := with_pid_file "   " demo_world.
Definition blank_setup : Pid.St := fst (Pid._setup (blank_world, demo_manager)).

(** The PID file of a process of the same user that is gone. *)
Definition left_over_world : OS.World :=
  with_pid_file ("31337" +:+ String PyStr.newline "") demo_world.
Definition left_over_setup : Pid.St :=
  fst (Pid._setup (left_over_world, demo_manager)).

(** A PID file that names process 1, which the user may not signal. *)
Definition foreign_world : OS.World :=
  with_procs {[ 4242 := true; 1 := false ]}
    (with_pid_file ("1" +:+ String PyStr.newline "") demo_world).
Definition foreign_setup : Pid.St := fst (Pid._setup (foreign_world, demo_manager)).

(** A PID file that holds a number beyond the range of a C [int]. *)
Definition huge_world : OS.World :=
  with_pid_file ("99999999999" +:+ String PyStr.newline "") demo_world.
Definition huge_setup : Pid.St := fst (Pid._setup (huge_world, demo_manager)).

(** [/var/run] may not be read. *)
Definition denied_world : OS.World :=
  OS.set_fs <["/var/run" := OS.Dir false true]> demo_world.
Definition denied_state : Pid.St := fst (Pid._setup (denied_world, demo_manager)).

(** A directory lies where the PID file should be. *)
Definition dir_world : OS.World :=
  OS.set_fs <[demo_path := OS.Dir true true]> demo_world.

(** [created_world] where the descriptor of the manager's file object
    reports the error 5 ([EIO]). *)
Definition broken_world : OS.World :=
  OS.set_file 0 {| OS.f_ino := 0; OS.f_mode := OS.mode_a_plus; OS.f_pos := 0;
                   OS.f_wbuf := ""; OS.f_closed := false; OS.f_fault := Some 5 |}
    created_world.

(** A second manager of the same program, set up while the first holds
    the file; the same without locking; and a manager with an absolute
    name hint. *)
Definition other_setup : Pid.PidFile :=
  snd (fst (Pid._setup (created_world, other_manager))).
Definition unlocked_manager : Pid.PidFile :=
  Pid.__init__ 4 None None true false 420 (-1) (-1) false.
Definition unlocked_setup : Pid.PidFile :=
  snd (fst (Pid._setup (created_world, unlocked_manager))).
Definition absolute_manager : Pid.PidFile :=
  Pid.PidFile_new 5 (Some "/opt/app/daemon") None.
Definition absolute_setup : Pid.St := fst (Pid._setup (demo_world, absolute_manager)).

(** [demo_manager], set up, after [create]; and [created_world] after the
    [close] of its manager. *)
Definition recreated_state : Pid.St := fst (Pid.create (fst demo_setup, snd demo_setup)).
Definition exited_state : Pid.St :=
  fst (Pid.close None true (created_world, created_manager)).

End FurtherDefinitions.

(** * Facts about the string and path functions *)

Section StrFacts.
Import PyStr.

Lemma app_nil_l (s : string) : "" +:+ s = s.
Proof. reflexivity. Qed.

Lemma app_cons (a : ascii) (s t : string) :
  String a s +:+ t = String a (s +:+ t).
Proof. reflexivity. Qed.

Lemma app_nil_r (s : string) : s +:+ "" = s.
Proof. induction s as [|a s IH]; [reflexivity|]. rewrite app_cons, IH. reflexivity. Qed.

Lemma app_assoc (a b c : string) : (a +:+ b) +:+ c = a +:+ (b +:+ c).
Proof.
  induction a as [|x a IH]; [reflexivity|].
  rewrite !app_cons, IH. reflexivity.
Qed.

Lemma app_eq_nil (a b : string) : a +:+ b = "" -> a = "" /\ b = "".
Proof. destruct a; [rewrite app_nil_l; auto | rewrite app_cons; discriminate]. Qed.

Lemma length_app (a b : string) :
  String.length (a +:+ b) = (String.length a + String.length b)%nat.
Proof.
  induction a as [|x a IH]; [reflexivity|].
  rewrite app_cons. simpl. rewrite IH. reflexivity.
Qed.

Lemma truthy_true (s : string) : truthy s = true <-> s <> "".
Proof.
  unfold truthy. destruct (String.eqb_spec s ""); simpl; split; congruence.
Qed.

Lemma truthy_app_r (a b : string) : b <> "" -> truthy (a +:+ b) = true.
Proof.
  intros Hb. apply truthy_true. intros H. apply app_eq_nil in H. tauto.
Qed.

(** *** [endswith] *)

Lemma endswith_unfold (s suf : string) :
  endswith s suf =
    String.eqb s suf ||
    match s with EmptyString => false | String _ s' => endswith s' suf end.
Proof. destruct s; reflexivity. Qed.

Lemma endswith_refl (s : string) : endswith s s = true.
Proof. rewrite endswith_unfold, String.eqb_refl. reflexivity. Qed.

Lemma endswith_app (x suf : string) : endswith (x +:+ suf) suf = true.
Proof.
  induction x as [|a x IH]; [apply endswith_refl|].
  rewrite app_cons, endswith_unfold, IH. apply orb_true_r.
Qed.

Lemma endswith_inv (s suf : string) :
  endswith s suf = true -> exists x, s = x +:+ suf.
Proof.
  induction s as [|a s IH]; rewrite endswith_unfold; intros H.
  - rewrite orb_false_r in H. apply String.eqb_eq in H. subst. exists "". reflexivity.
  - apply orb_true_iff in H as [H|H].
    + apply String.eqb_eq in H. exists "". rewrite <- H. reflexivity.
    + destruct (IH H) as [x ->]. exists (String a x). reflexivity.
Qed.

(** *** [contains], [rfind] and [basename] *)

Lemma contains_app (c : ascii) (a b : string) :
  contains c (a +:+ b) = contains c a || contains c b.
Proof.
  induction a as [|x a IH]; [reflexivity|].
  rewrite app_cons. simpl. rewrite IH. apply orb_assoc.
Qed.

Lemma rfind_lower (c : ascii) (s : string) : -1 <= rfind c s.
Proof.
  induction s as [|a s IH]; simpl; [lia|].
  destruct (0 <=? rfind c s) eqn:E; [lia|].
  destruct (Ascii.eqb a c); lia.
Qed.

Lemma rfind_contains (c : ascii) (s : string) :
  (0 <=? rfind c s) = contains c s.
Proof.
  induction s as [|a s IH]; simpl; [reflexivity|].
  rewrite <- IH. destruct (0 <=? rfind c s) eqn:E.
  - rewrite orb_true_r. apply Z.leb_le. apply Z.leb_le in E. lia.
  - rewrite orb_false_r. destruct (Ascii.eqb a c); reflexivity.
Qed.

Lemma drop_0 (s : string) : drop 0 s = s.
Proof. destruct s; reflexivity. Qed.

Lemma basename_cons (a : ascii) (s : string) :
  posixpath.basename (String a s) =
    if contains sep s then posixpath.basename s
    else if Ascii.eqb a sep then s else String a s.
Proof.
  unfold posixpath.basename. simpl rfind. rewrite <- rfind_contains.
  pose proof (rfind_lower sep s) as Hl.
  destruct (0 <=? rfind sep s) eqn:E.
  - apply Z.leb_le in E.
    replace (Z.to_nat (rfind sep s + 1 + 1)) with (S (Z.to_nat (rfind sep s + 1)))
      by lia.
    reflexivity.
  - destruct (Ascii.eqb a sep); simpl; [apply drop_0 | reflexivity].
Qed.

Lemma basename_nil : posixpath.basename "" = "".
Proof. reflexivity. Qed.

Lemma basename_nosep (s : string) :
  contains sep s = false -> posixpath.basename s = s.
Proof.
  destruct s as [|a s]; [reflexivity|]. simpl. intros H.
  apply orb_false_iff in H as [Ha Hs].
  rewrite basename_cons, Hs, Ha. reflexivity.
Qed.

Lemma contains_basename (s : string) :
  contains sep (posixpath.basename s) = false.
Proof.
  induction s as [|a s IH]; [reflexivity|].
  rewrite basename_cons. destruct (contains sep s) eqn:Hs; [exact IH|].
  destruct (Ascii.eqb a sep) eqn:Ha; [exact Hs|].
  simpl. rewrite Ha, Hs. reflexivity.
Qed.

Lemma basename_app_nosep (s1 s2 : string) :
  contains sep s2 = false ->
  posixpath.basename (s1 +:+ s2) = posixpath.basename s1 +:+ s2.
Proof.
  intros H2. induction s1 as [|a s1 IH].
  - rewrite app_nil_l. apply basename_nosep, H2.
  - rewrite app_cons, !basename_cons, contains_app, H2, orb_false_r.
    destruct (contains sep s1); [exact IH|].
    destruct (Ascii.eqb a sep); reflexivity.
Qed.

Lemma basename_after_sep (x b : string) :
  posixpath.basename ((x +:+ "/") +:+ b) = posixpath.basename b.
Proof.
  induction x as [|a x IH].
  - change (("" +:+ "/") +:+ b) with (String sep b).
    rewrite basename_cons, Ascii.eqb_refl.
    destruct (contains sep b) eqn:Hb; [reflexivity|].
    symmetry. apply basename_nosep, Hb.
  - rewrite !app_cons, basename_cons, !contains_app. simpl.
    rewrite orb_true_r. simpl. exact IH.
Qed.

Lemma basename_is_suffix (s : string) :
  exists x, s = x +:+ posixpath.basename s.
Proof.
  induction s as [|a s [x IH]].
  - exists "". reflexivity.
  - rewrite basename_cons. destruct (contains sep s).
    + exists (String a x). rewrite app_cons, <- IH. reflexivity.
    + destruct (Ascii.eqb_spec a sep) as [->|].
      * exists "/". reflexivity.
      * exists "". reflexivity.
Qed.

(** *** [split] and [join] *)

Lemma split_nosep (c : ascii) (s : string) :
  contains c s = false -> split c s = [s].
Proof.
  induction s as [|a s IH]; [reflexivity|]. simpl. intros H.
  apply orb_false_iff in H as [Ha Hs]. rewrite Ha, (IH Hs). reflexivity.
Qed.

Lemma split_sep (c : ascii) (s : string) :
  contains c s = true -> exists x y ys, split c s = x :: y :: ys.
Proof.
  induction s as [|a s IH]; [discriminate|]. simpl. intros H.
  destruct (Ascii.eqb a c); simpl in H.
  - destruct (contains c s) eqn:Hs.
    + destruct (IH eq_refl) as (x & y & ys & ->). eauto.
    + rewrite (split_nosep _ _ Hs). eauto.
  - destruct (IH H) as (x & y & ys & ->). eauto.
Qed.

Lemma split_last (s : string) :
  last (split sep s) = Some (posixpath.basename s).
Proof.
  induction s as [|a s IH]; [reflexivity|].
  rewrite basename_cons. simpl.
  destruct (contains sep s) eqn:Hs.
  - destruct (split_sep _ _ Hs) as (x & y & ys & E). rewrite E in *.
    destruct (Ascii.eqb a sep); exact IH.
  - rewrite (split_nosep _ _ Hs). destruct (Ascii.eqb a sep); reflexivity.
Qed.

Lemma join_snoc (c : ascii) (l : list string) (b : string) :
  l <> [] -> PyStr.join c (l ++ [b]) = PyStr.join c l +:+ String c b.
Proof.
  induction l as [|x l IH]; [congruence|]. intros _.
  destruct l as [|y l]; [reflexivity|].
  change (PyStr.join c ((x :: y :: l) ++ [b]))
    with (x +:+ String c (PyStr.join c ((y :: l) ++ [b]))).
  rewrite IH by congruence.
  change (PyStr.join c (x :: y :: l)) with (x +:+ String c (PyStr.join c (y :: l))).
  rewrite app_assoc, app_cons. reflexivity.
Qed.

(** *** [normpath], [join] and [abspath] keep the last component *)

Lemma norm_step_plain (k : nat) (l : list string) (b : string) :
  plain_component b -> posixpath.norm_step k l b = l ++ [b].
Proof.
  intros (H0 & H1 & H2). unfold posixpath.norm_step.
  apply String.eqb_neq in H0, H1, H2. rewrite H0, H1, H2. reflexivity.
Qed.

Lemma basename_repeat_sep (k : nat) (b : string) :
  contains sep b = false ->
  posixpath.basename (repeat sep k +:+ b) = b.
Proof.
  intros Hb. induction k as [|k IH]; simpl.
  - rewrite app_nil_l. apply basename_nosep, Hb.
  - rewrite app_cons, basename_cons, contains_app, Hb, orb_false_r, Ascii.eqb_refl.
    destruct (contains sep (repeat sep k)) eqn:Hk; [exact IH|].
    destruct k; [reflexivity|discriminate Hk].
Qed.

Lemma basename_normpath (p : string) :
  plain_component (posixpath.basename p) ->
  posixpath.basename (posixpath.normpath p) = posixpath.basename p.
Proof.
  intros Hb. pose proof Hb as (Hne & _).
  pose proof (contains_basename p) as Hc.
  unfold posixpath.normpath.
  destruct (String.eqb_spec p "") as [->|_]; [now destruct Hne|].
  set (k := if startswith p "/" then _ else _).
  destruct (proj1 (last_Some _ _) (split_last p)) as [init ->].
  rewrite fold_left_app. simpl fold_left.
  rewrite norm_step_plain by exact Hb.
  set (l := fold_left _ init []).
  assert (E : repeat sep k +:+ PyStr.join sep (l ++ [posixpath.basename p])
              = (repeat sep k +:+ (match l with [] => "" | _ => PyStr.join sep l +:+ "/" end))
                +:+ posixpath.basename p).
  { destruct l as [|x l'].
    - simpl. rewrite app_nil_r. reflexivity.
    - rewrite join_snoc by congruence. rewrite !app_assoc. reflexivity. }
  rewrite E, truthy_app_r by exact Hne.
  destruct l as [|x l'].
  - rewrite app_nil_r. apply basename_repeat_sep, Hc.
  - rewrite <- app_assoc. rewrite basename_after_sep. apply basename_nosep, Hc.
Qed.

Lemma basename_join (a b : string) :
  posixpath.basename (posixpath.join a b) = posixpath.basename b.
Proof.
  unfold posixpath.join. destruct (startswith b "/"); [reflexivity|].
  destruct (truthy a) eqn:Ha; simpl.
  - destruct (endswith a "/") eqn:He.
    + destruct (endswith_inv _ _ He) as [x ->]. apply basename_after_sep.
    + rewrite <- app_assoc. apply basename_after_sep.
  - destruct a; [reflexivity|discriminate].
Qed.

Lemma basename_abspath (cwd p : string) :
  plain_component (posixpath.basename p) ->
  posixpath.basename (posixpath.abspath cwd p) = posixpath.basename p.
Proof.
  intros Hb. unfold posixpath.abspath. destruct (posixpath.isabs p).
  - apply basename_normpath, Hb.
  - rewrite basename_normpath; rewrite basename_join; auto.
Qed.

Lemma dotpid_plain (y : string) : plain_component (y +:+ ".pid").
Proof.
  repeat split; intros H; apply (f_equal String.length) in H;
    rewrite length_app in H; simpl in H; lia.
Qed.

Lemma basename_dotpid (x : string) :
  posixpath.basename (x +:+ ".pid") = posixpath.basename x +:+ ".pid".
Proof. apply basename_app_nosep. reflexivity. Qed.

(** A path whose name ends in [.pid] keeps that ending through [join]
    and [abspath]. *)
Lemma abspath_join_dotpid (cwd d n : string) :
  endswith n ".pid" = true ->
  posixpath.basename (posixpath.abspath cwd (posixpath.join d n))
    = posixpath.basename n /\
  endswith (posixpath.abspath cwd (posixpath.join d n)) ".pid" = true.
Proof.
  intros He. destruct (endswith_inv _ _ He) as [x ->].
  assert (Hb : posixpath.basename (posixpath.abspath cwd (posixpath.join d (x +:+ ".pid")))
               = posixpath.basename (x +:+ ".pid")).
  { rewrite basename_abspath; rewrite basename_join; [reflexivity|].
    rewrite basename_dotpid. apply dotpid_plain. }
  split; [exact Hb|].
  destruct (basename_is_suffix
              (posixpath.abspath cwd (posixpath.join d (x +:+ ".pid")))) as [y E].
  rewrite Hb, basename_dotpid, <- app_assoc in E. rewrite E.
  apply endswith_app.
Qed.

End StrFacts.

(** * Facts about integers as text *)

Section IntFacts.
Import PyStr.

Lemma digit_val_char (d : Z) :
  0 <= d < 10 -> PyInt.digit_val (PyInt.digit_char d) = Some d.
Proof.
  intros H.
  assert (d = 0 \/ d = 1 \/ d = 2 \/ d = 3 \/ d = 4 \/ d = 5 \/ d = 6 \/ d = 7
          \/ d = 8 \/ d = 9) as E by lia.
  repeat (destruct E as [->|E]; [reflexivity|]). subst. reflexivity.
Qed.

Lemma digit_plain (a : ascii) :
  is_Some (PyInt.digit_val a) ->
  is_space a = false /\ Ascii.eqb a newline = false /\
  Ascii.eqb a "-" = false /\ Ascii.eqb a "+" = false.
Proof.
  destruct a as [[] [] [] [] [] [] [] []]; vm_compute; intros [x H];
    try discriminate H; auto.
Qed.

Lemma digits_onto_unfold (fuel : nat) (n : Z) (acc : string) :
  PyInt.digits_onto fuel n acc =
    match fuel with
    | O => String (PyInt.digit_char (n mod 10)) acc
    | S fuel' =>
        if n / 10 =? 0 then String (PyInt.digit_char (n mod 10)) acc
        else PyInt.digits_onto fuel' (n / 10)
               (String (PyInt.digit_char (n mod 10)) acc)
    end.
Proof. destruct fuel; reflexivity. Qed.

Lemma parse_digits_cons (b : bool) (a d : Z) (s : string) :
  0 <= d < 10 ->
  PyInt.parse_digits b a (String (PyInt.digit_char d) s)
  = PyInt.parse_digits true (a * 10 + d) s.
Proof. intros H. cbn [PyInt.parse_digits]. rewrite (digit_val_char _ H). reflexivity. Qed.

(** Parsing what was printed: the digits of [n] shift the accumulator. *)
Lemma digits_parse (fuel : nat) : forall (n : Z) (acc : string) (a : Z) (b : bool),
  0 <= n < 10 ^ Z.of_nat (S fuel) ->
  PyInt.parse_digits b a (PyInt.digits_onto fuel n acc)
  = PyInt.parse_digits true (a * 10 ^ Z.of_nat (ndigits fuel n) + n) acc.
Proof.
  induction fuel as [|fuel IH]; intros n acc a b Hn; rewrite digits_onto_unfold.
  - change (10 ^ Z.of_nat 1) with 10 in Hn. simpl ndigits.
    change (10 ^ Z.of_nat 1) with 10.
    rewrite parse_digits_cons by (apply Z.mod_pos_bound; lia).
    rewrite Z.mod_small by lia. reflexivity.
  - simpl ndigits. destruct (n / 10 =? 0) eqn:E.
    + apply Z.eqb_eq in E. change (10 ^ Z.of_nat 1) with 10.
      rewrite parse_digits_cons by (apply Z.mod_pos_bound; lia).
      f_equal. pose proof (Z.div_mod n 10). lia.
    + rewrite IH.
      * rewrite parse_digits_cons by (apply Z.mod_pos_bound; lia).
        f_equal. rewrite (Nat2Z.inj_succ (ndigits _ _)), Z.pow_succ_r by lia.
        pose proof (Z.div_mod n 10). lia.
      * rewrite Nat2Z.inj_succ, Z.pow_succ_r in Hn by lia.
        split; [apply Z.div_pos; lia|]. apply Z.div_lt_upper_bound; lia.
Qed.

Lemma is_digits_snoc (D : string) (d : Z) :
  0 <= d < 10 -> is_digits D = true ->
  is_digits (D +:+ String (PyInt.digit_char d) "") = true.
Proof.
  intros Hd. induction D as [|x D IH]; cbn [is_digits].
  - intros _. rewrite app_nil_l. cbn [is_digits].
    rewrite (digit_val_char _ Hd). reflexivity.
  - intros H. apply andb_true_iff in H as [Hx HD]. rewrite app_cons.
    cbn [is_digits]. rewrite Hx, (IH HD). reflexivity.
Qed.

Lemma digits_onto_shape (fuel : nat) : forall (n : Z) (acc : string),
  exists D, PyInt.digits_onto fuel n acc = D +:+ acc /\ is_digits D = true /\
            String.length D = ndigits fuel n /\ D <> "".
Proof.
  induction fuel as [|fuel IH]; intros n acc; rewrite digits_onto_unfold.
  - exists (String (PyInt.digit_char (n mod 10)) ""). repeat split; [|discriminate].
    cbn [is_digits]. rewrite digit_val_char by (apply Z.mod_pos_bound; lia).
    reflexivity.
  - simpl ndigits. destruct (n / 10 =? 0).
    + exists (String (PyInt.digit_char (n mod 10)) "").
      repeat split; [|discriminate].
      cbn [is_digits]. rewrite digit_val_char by (apply Z.mod_pos_bound; lia).
      reflexivity.
    + destruct (IH (n / 10) (String (PyInt.digit_char (n mod 10)) acc))
        as (D & -> & HD & HL & Hne).
      exists (D +:+ String (PyInt.digit_char (n mod 10)) ""). repeat split.
      * rewrite app_assoc. reflexivity.
      * apply is_digits_snoc; [apply Z.mod_pos_bound; lia | exact HD].
      * rewrite length_app, HL. simpl. lia.
      * intros H. apply app_eq_nil in H as [_ H]. discriminate.
Qed.

Lemma ndigits_bound (fuel : nat) : forall (n : Z) (k : nat),
  0 <= n < 10 ^ Z.of_nat (S k) -> (ndigits fuel n <= S k)%nat.
Proof.
  induction fuel as [|fuel IH]; intros n k Hn; simpl; [lia|].
  destruct (n / 10 =? 0) eqn:E; [lia|]. apply Z.eqb_neq in E.
  destruct k as [|k].
  - change (10 ^ Z.of_nat 1) with 10 in Hn. rewrite Z.div_small in E by lia.
    congruence.
  - apply le_n_S, IH. rewrite Nat2Z.inj_succ, Z.pow_succ_r in Hn by lia.
    split; [apply Z.div_pos; lia|]. apply Z.div_lt_upper_bound; lia.
Qed.

Lemma lstrip_digits (D : string) : is_digits D = true -> lstrip D = D.
Proof.
  destruct D as [|a D]; [reflexivity|]. cbn [is_digits lstrip]. intros H.
  apply andb_true_iff in H as [Ha _]. apply bool_decide_eq_true in Ha.
  destruct (digit_plain a Ha) as (-> & _). reflexivity.
Qed.

Lemma rstrip_digits (D : string) : is_digits D = true -> rstrip D = D.
Proof.
  induction D as [|a D IH]; [reflexivity|]. cbn [is_digits rstrip]. intros H.
  apply andb_true_iff in H as [Ha HD]. apply bool_decide_eq_true in Ha.
  rewrite (IH HD). destruct (digit_plain a Ha) as (-> & _).
  destruct D; reflexivity.
Qed.

Lemma strip_digits (D : string) : is_digits D = true -> strip D = D.
Proof.
  intros H. unfold strip. rewrite (lstrip_digits _ H). apply rstrip_digits, H.
Qed.

Lemma before_digits (D r : string) :
  is_digits D = true -> before newline (D +:+ String newline r) = D.
Proof.
  induction D as [|a D IH]; cbn [is_digits].
  - intros _. rewrite app_nil_l. cbn [before]. rewrite Ascii.eqb_refl. reflexivity.
  - intros H. apply andb_true_iff in H as [Ha HD]. apply bool_decide_eq_true in Ha.
    rewrite app_cons. cbn [before]. destruct (digit_plain a Ha) as (_ & -> & _).
    rewrite (IH HD). reflexivity.
Qed.

Lemma take_all (n : nat) (s : string) : (String.length s <= n)%nat -> take n s = s.
Proof.
  revert n. induction s as [|a s IH]; intros n H; destruct n; simpl in *;
    try reflexivity; try lia.
  rewrite IH by lia. reflexivity.
Qed.

Lemma int_unfold (s : string) :
  PyInt.int s =
    match strip s with
    | EmptyString => None
    | String a t =>
        if Ascii.eqb a "-" then Z.opp <$> PyInt.parse_digits false 0 t
        else if Ascii.eqb a "+" then PyInt.parse_digits false 0 t
        else PyInt.parse_digits false 0 (String a t)
    end.
Proof.
  unfold PyInt.int. destruct (strip s) as [|a t]; [reflexivity|].
  destruct a as [[] [] [] [] [] [] [] []]; reflexivity.
Qed.

Lemma int_digits (D : string) :
  D <> "" -> is_digits D = true -> PyInt.int D = PyInt.parse_digits false 0 D.
Proof.
  intros Hne HD. rewrite int_unfold, (strip_digits _ HD).
  destruct D as [|a D]; [congruence|]. cbn [is_digits] in HD.
  apply andb_true_iff in HD as [Ha _]. apply bool_decide_eq_true in Ha.
  destruct (digit_plain a Ha) as (_ & _ & -> & ->). reflexivity.
Qed.

(** A process ID of at most 15 digits, written by [create], is what
    [inner_check] reads back. *)
Lemma format_d_read (p : Z) :
  0 <= p < 10 ^ 15 ->
  pid_str_of (PyInt.format_d p +:+ String newline "") = PyInt.format_d p /\
  truthy (PyInt.format_d p) = true /\
  PyInt.int (PyInt.format_d p) = Some p.
Proof.
  intros Hp. unfold PyInt.format_d, pid_str_of.
  rewrite (proj2 (Z.ltb_ge p 0)) by lia.
  set (fuel := Z.to_nat (Z.log2 p)).
  assert (Hfuel : 0 <= p < 10 ^ Z.of_nat (S fuel)).
  { split; [lia|]. destruct (Z.eq_dec p 0) as [->|Hnz].
    - apply Z.pow_pos_nonneg; lia.
    - destruct (Z.log2_spec p) as [_ Hlt]; [lia|].
      eapply Z.lt_le_trans; [exact Hlt|].
      pose proof (Z.log2_nonneg p).
      replace (Z.of_nat (S fuel)) with (Z.succ (Z.log2 p)) by (unfold fuel; lia).
      apply Z.pow_le_mono_l. lia. }
  destruct (digits_onto_shape fuel p "") as (D & E & HD & HL & Hne).
  rewrite app_nil_r in E.
  pose proof (ndigits_bound fuel p 14 Hp) as Hb.
  rewrite take_all by (rewrite length_app, E, HL; simpl; lia).
  rewrite !E. rewrite (before_digits _ _ HD), (strip_digits _ HD).
  split; [reflexivity|]. split; [apply truthy_true, Hne|].
  rewrite (int_digits _ Hne HD), <- E, digits_parse by exact Hfuel.
  reflexivity.
Qed.

Lemma format_d_read_neg (p : Z) :
  - 10 ^ 14 < p < 0 ->
  pid_str_of (PyInt.format_d p +:+ String newline "") = PyInt.format_d p /\
  truthy (PyInt.format_d p) = true /\
  PyInt.int (PyInt.format_d p) = Some p.
Proof.
  intros Hp. unfold PyInt.format_d, pid_str_of.
  rewrite (proj2 (Z.ltb_lt p 0)) by lia.
  set (n := - p). assert (Hn : 0 <= n < 10 ^ 14) by (unfold n; lia).
  set (fuel := Z.to_nat (Z.log2 n)).
  assert (Hfuel : 0 <= n < 10 ^ Z.of_nat (S fuel)).
  { split; [lia|]. destruct (Z.eq_dec n 0) as [->|Hnz].
    - apply Z.pow_pos_nonneg; lia.
    - destruct (Z.log2_spec n) as [_ Hlt]; [lia|].
      eapply Z.lt_le_trans; [exact Hlt|].
      pose proof (Z.log2_nonneg n).
      replace (Z.of_nat (S fuel)) with (Z.succ (Z.log2 n)) by (unfold fuel; lia).
      apply Z.pow_le_mono_l. lia. }
  destruct (digits_onto_shape fuel n "") as (D & E & HD & HL & Hne).
  rewrite app_nil_r in E.
  pose proof (ndigits_bound fuel n 13 Hn) as Hb.
  rewrite take_all
    by (rewrite app_cons; cbn [String.length]; rewrite length_app, E, HL; simpl; lia).
  rewrite !E, app_cons. cbn [before].
  change (Ascii.eqb "-" newline) with false. cbv iota.
  rewrite (before_digits _ _ HD).
  assert (Hs : strip (String "-" D) = String "-" D).
  { unfold strip. cbn [lstrip]. change (is_space "-") with false. cbv iota.
    cbn [rstrip]. rewrite (rstrip_digits _ HD). destruct D; [congruence|reflexivity]. }
  rewrite Hs. split; [reflexivity|]. split; [reflexivity|].
  rewrite int_unfold, Hs. change (Ascii.eqb "-" "-") with true. cbv iota.
  rewrite <- E, digits_parse by exact Hfuel.
  change (PyInt.parse_digits true (0 * 10 ^ Z.of_nat (ndigits fuel n) + n) "")
    with (Some n). simpl. f_equal. unfold n. lia.
Qed.

Lemma format_d_read_all (p : Z) :
  - 10 ^ 14 < p < 10 ^ 15 ->
  pid_str_of (PyInt.format_d p +:+ String newline "") = PyInt.format_d p /\
  truthy (PyInt.format_d p) = true /\
  PyInt.int (PyInt.format_d p) = Some p.
Proof.
  intros Hp. destruct (Z.lt_ge_cases p 0).
  - apply format_d_read_neg. lia.
  - apply format_d_read. lia.
Qed.

End IntFacts.

(** ** Reading in text mode *)

Section TextFacts.
Import PyStr OS.

Lemma before_take (c : ascii) (s : string) : forall n : nat,
  before c (take n s) = take n (before c s).
Proof.
  induction s as [|a s IH]; intros [|n]; cbn [take before]; try reflexivity.
  destruct (Ascii.eqb a c); cbn [take]; [reflexivity|]. rewrite IH. reflexivity.
Qed.

(** The first line of a text read with universal newlines ends at the
    first line feed or carriage return of the file. *)
Lemma before_universal_newlines (s : string) :
  before newline (universal_newlines s) = before cr (before newline s).
Proof.
  induction s as [|a s IH]; [reflexivity|]. cbn [universal_newlines before].
  destruct (Ascii.eqb a cr) eqn:Ea.
  - apply Ascii.eqb_eq in Ea. subst a. reflexivity.
  - destruct (Ascii.eqb a newline) eqn:En; cbn [before]; rewrite ?En, ?Ea;
      [reflexivity|]. rewrite IH. reflexivity.
Qed.

Lemma pid_str_of_text (c : string) :
  pid_str_of (universal_newlines c)
  = strip (before cr (before newline (take 16 c))).
Proof.
  unfold pid_str_of.
  rewrite before_take, before_universal_newlines, <- !before_take. reflexivity.
Qed.

Lemma rstrip_idem (s : string) : rstrip (rstrip s) = rstrip s.
Proof.
  induction s as [|a s IH]; [reflexivity|]. cbn [rstrip].
  destruct (rstrip s) as [|b r] eqn:E.
  - destruct (is_space a) eqn:Ea; [reflexivity|]. cbn [rstrip]. rewrite Ea. reflexivity.
  - cbn [rstrip] in *. rewrite IH. reflexivity.
Qed.

Lemma lstrip_rstrip (s : string) : lstrip (rstrip (lstrip s)) = rstrip (lstrip s).
Proof.
  induction s as [|a s IH]; [reflexivity|]. cbn [lstrip].
  destruct (is_space a) eqn:Ea; [exact IH|]. cbn [rstrip].
  destruct (rstrip s); rewrite ?Ea; cbn [lstrip]; rewrite Ea; reflexivity.
Qed.

Lemma strip_idem (s : string) : strip (strip s) = strip s.
Proof. unfold strip. rewrite lstrip_rstrip. apply rstrip_idem. Qed.

Lemma strip_space_cons (a : ascii) (s : string) :
  is_space a = true -> strip (String a s) = strip s.
Proof. intros H. unfold strip. cbn [lstrip]. rewrite H. reflexivity. Qed.

Lemma strip_plain_cons (a : ascii) (s : string) :
  is_space a = false -> strip (String a s) = rstrip (String a s).
Proof. intros H. unfold strip. cbn [lstrip]. rewrite H. reflexivity. Qed.

Lemma no_space_cr (a : ascii) : is_space a = false -> Ascii.eqb a cr = false.
Proof.
  intros H. destruct (Ascii.eqb a cr) eqn:E; [|reflexivity].
  apply Ascii.eqb_eq in E. subst a. discriminate H.
Qed.

(** Cutting a string at its first carriage return changes nothing of what
    [rstrip] keeps, if that holds no white space. *)
Lemma rstrip_before_cr (s : string) :
  no_space (rstrip s) = true -> rstrip (before cr s) = rstrip s.
Proof.
  induction s as [|a s IH]; [reflexivity|]. cbn [rstrip before].
  destruct (Ascii.eqb a cr) eqn:Ea.
  - apply Ascii.eqb_eq in Ea. subst a. change (is_space cr) with true. cbv iota.
    destruct (rstrip s); [reflexivity|]. cbn [no_space]. discriminate.
  - intros H. cbn [rstrip]. rewrite IH; [reflexivity|].
    destruct (rstrip s) as [|b r]; [reflexivity|]. cbn [no_space] in H.
    apply andb_true_iff in H as [_ H]. exact H.
Qed.

Lemma strip_before_cr (s : string) :
  no_space (strip s) = true ->
  strip (before cr s) = "" \/ strip (before cr s) = strip s.
Proof.
  induction s as [|a s IH]; [left; reflexivity|]. cbn [before].
  destruct (Ascii.eqb a cr) eqn:Ea; [left; reflexivity|].
  destruct (is_space a) eqn:Es.
  - rewrite !(strip_space_cons _ _ Es). exact IH.
  - rewrite !(strip_plain_cons _ _ Es). intros H. right.
    rewrite <- (rstrip_before_cr (String a s) H). cbn [before]. rewrite Ea.
    reflexivity.
Qed.

Lemma strip_blank_before (c : ascii) (s : string) :
  strip s = "" -> strip (before c s) = "".
Proof.
  induction s as [|a s IH]; [reflexivity|]. cbn [before].
  destruct (Ascii.eqb a c); [reflexivity|].
  destruct (is_space a) eqn:Es.
  - rewrite !(strip_space_cons _ _ Es). exact IH.
  - rewrite (strip_plain_cons _ _ Es). cbn [rstrip].
    destruct (rstrip s); rewrite ?Es; discriminate.
Qed.

Lemma parse_digits_no_space (s : string) : forall (b : bool) (acc p : Z),
  PyInt.parse_digits b acc s = Some p -> no_space s = true.
Proof.
  induction s as [|a s IH]; intros b acc p; [reflexivity|].
  cbn [PyInt.parse_digits no_space].
  destruct (PyInt.digit_val a) as [d|] eqn:Ed.
  - intros H. destruct (digit_plain a (ex_intro _ d Ed)) as (-> & _).
    exact (IH _ _ _ H).
  - destruct (Ascii.eqb a "_") eqn:Eu; [|discriminate].
    apply Ascii.eqb_eq in Eu. subst a. destruct b; [|discriminate].
    intros H. exact (IH _ _ _ H).
Qed.

(** A string that [int] accepts holds no white space once stripped. *)
Lemma int_no_space (s : string) (p : Z) :
  PyInt.int s = Some p -> no_space (strip s) = true.
Proof.
  rewrite int_unfold. destruct (strip s) as [|a t]; [discriminate|].
  destruct (Ascii.eqb a "-") eqn:Em.
  { apply Ascii.eqb_eq in Em. subst a.
    destruct (PyInt.parse_digits false 0 t) as [q|] eqn:E; [|discriminate].
    intros _. exact (parse_digits_no_space _ _ _ _ E). }
  destruct (Ascii.eqb a "+") eqn:Ep.
  { apply Ascii.eqb_eq in Ep. subst a. intros H.
    exact (parse_digits_no_space _ _ _ _ H). }
  apply parse_digits_no_space.
Qed.

(** What the text of a file gives [inner_check], against what its bytes
    would give: a blank stays blank, and a number stays the same number
    unless a carriage return before it ends the first line. *)
Lemma pid_str_text_blank (c : string) :
  pid_str_of c = "" -> pid_str_of (universal_newlines c) = "".
Proof. rewrite pid_str_of_text. apply strip_blank_before. Qed.

Lemma pid_str_text_int (c : string) (p : Z) :
  PyInt.int (pid_str_of c) = Some p ->
  pid_str_of (universal_newlines c) = "" \/
  pid_str_of (universal_newlines c) = pid_str_of c.
Proof.
  intros H. apply int_no_space in H. rewrite pid_str_of_text.
  unfold pid_str_of in *. rewrite strip_idem in H. apply strip_before_cr, H.
Qed.

Lemma universal_newlines_digits (D s : string) :
  is_digits D = true -> universal_newlines (D +:+ s) = D +:+ universal_newlines s.
Proof.
  induction D as [|a D IH]; cbn [is_digits].
  - intros _. rewrite !app_nil_l. reflexivity.
  - intros H. apply andb_true_iff in H as [Ha HD]. apply bool_decide_eq_true in Ha.
    destruct (digit_plain a Ha) as (Hs & _). rewrite !app_cons.
    cbn [universal_newlines]. rewrite (no_space_cr _ Hs), (IH HD). reflexivity.
Qed.

(** What [create] writes reads the same in text mode. *)
Lemma universal_newlines_format_d (p : Z) (rest : string) :
  universal_newlines (PyInt.format_d p +:+ String newline rest)
  = PyInt.format_d p +:+ String newline (universal_newlines rest).
Proof.
  unfold PyInt.format_d. destruct (p <? 0).
  - destruct (digits_onto_shape (Z.to_nat (Z.log2 (- p))) (- p) "") as (D & E & HD & _).
    rewrite app_nil_r in E. rewrite E, !app_cons.
    change (universal_newlines (String "-" (D +:+ String newline rest)))
      with (String "-" (universal_newlines (D +:+ String newline rest))).
    rewrite (universal_newlines_digits _ _ HD). reflexivity.
  - destruct (digits_onto_shape (Z.to_nat (Z.log2 p)) p "") as (D & E & HD & _).
    rewrite app_nil_r in E. rewrite E.
    rewrite (universal_newlines_digits _ _ HD). reflexivity.
Qed.

End TextFacts.

(** * Reasoning about computations *)

Section MonadFacts.
Context {T : Type}.

Lemma bind_ret_inv {A B} (c : M T A) (k : A -> M T B) (s s' : T) (b : B) :
  bind c k s = (s', Ret b) ->
  exists a s1, c s = (s1, Ret a) /\ k a s1 = (s', Ret b).
Proof.
  unfold bind. destruct (c s) as [s1 [a|e]]; intros H; [eauto|discriminate].
Qed.

Lemma bind_run_ret {A B} (c : M T A) (k : A -> M T B) (s s1 : T) (a : A) :
  c s = (s1, Ret a) -> bind c k s = k a s1.
Proof. unfold bind. intros ->. reflexivity. Qed.

Lemma bind_run_raise {A B} (c : M T A) (k : A -> M T B) (s s1 : T) (e : exn) :
  c s = (s1, Raise e) -> bind c k s = (s1, Raise e).
Proof. unfold bind. intros ->. reflexivity. Qed.

Context (R : relation T) `{!PreOrder R}.

Lemma respects_ret {A} (a : A) : respects R (ret a).
Proof. intros s s' r [= <- _]. reflexivity. Qed.

Lemma respects_raise {A} (e : exn) : respects R (@raise T A e).
Proof. intros s s' r [= <- _]. reflexivity. Qed.

Lemma respects_gets {A} (f : T -> A) : respects R (gets f).
Proof. intros s s' r [= <- _]. reflexivity. Qed.

Lemma respects_bind {A B} (c : M T A) (k : A -> M T B) :
  respects R c -> (forall a, respects R (k a)) -> respects R (bind c k).
Proof.
  intros Hc Hk s s' r. unfold bind.
  destruct (c s) as [s1 [a|e]] eqn:E; intros H.
  - transitivity s1; [eapply Hc, E | eapply Hk, H].
  - injection H as <- _. eapply Hc, E.
Qed.

Lemma respects_try_except {A} (c : M T A) (h : exn -> option (M T A)) :
  respects R c -> (forall e, respects_opt R (h e)) -> respects R (try_except c h).
Proof.
  intros Hc Hh s s' r. unfold try_except.
  destruct (c s) as [s1 [a|e]] eqn:E; intros H.
  - injection H as <- _. eapply Hc, E.
  - specialize (Hh e). destruct (h e) as [handler|].
    + transitivity s1; [eapply Hc, E | eapply Hh, H].
    + injection H as <- _. eapply Hc, E.
Qed.

Lemma respects_try_finally {A} (c : M T A) (fin : M T unit) :
  respects R c -> respects R fin -> respects R (try_finally c fin).
Proof.
  intros Hc Hf s s' r. unfold try_finally.
  destruct (c s) as [s1 r1] eqn:E. destruct (fin s1) as [s2 [u|e]] eqn:F;
    intros [= <- _]; (transitivity s1; [eapply Hc, E | eapply Hf, F]).
Qed.

End MonadFacts.

Lemma bind_unfold {T A B} (c : M T A) (k : A -> M T B) (s : T) :
  bind c k s =
    match c s with
    | (s', Ret a) => k a s'
    | (s', Raise e) => (s', Raise e)
    end.
Proof. reflexivity. Qed.

Lemma try_except_unfold {T A} (c : M T A) (h : exn -> option (M T A)) (s : T) :
  try_except c h s =
    match c s with
    | (s', Raise e) =>
        match h e with
        | Some handler => handler s'
        | None => (s', Raise e)
        end
    | r => r
    end.
Proof. reflexivity. Qed.

Lemma try_finally_unfold {T A} (c : M T A) (fin : M T unit) (s : T) :
  try_finally c fin s =
    match c s with
    | (s', r) =>
        match fin s' with
        | (s'', Ret _) => (s'', r)
        | (s'', Raise e) => (s'', Raise e)
        end
    end.
Proof. reflexivity. Qed.

Lemma os_unfold {A} (c : M OS.World A) (w : OS.World) (m : Pid.PidFile) :
  Pid.os c (w, m) = match c w with (w', r) => ((w', m), r) end.
Proof. reflexivity. Qed.

(** Run a computation up to the next call of the operating system. *)
Ltac mstep :=
  progress (rewrite ?bind_unfold, ?try_except_unfold, ?try_finally_unfold,
              ?os_unfold;
            unfold Pid.self, Pid.world, gets, ret, raise, Pid.set_self, modify,
              Pid.self_fh, Pid.with_open;
            cbv beta iota; cbn [fst snd]).
Ltac mrun := repeat mstep.

(** * Facts about the operating system *)

Section FileFacts.
Import PyStr OS.

Lemma unlock_same (h i : nat) (w : World) :
  w_files (unlock h i w) = w_files w /\ w_fs (unlock h i w) = w_fs w /\
  w_cwd (unlock h i w) = w_cwd w /\ w_inodes (unlock h i w) = w_inodes w /\
  w_procs (unlock h i w) = w_procs w.
Proof.
  unfold unlock. destruct (w_locks w !! i) as [[h'|]|]; auto.
  destruct (decide (h' = h)); auto.
Qed.

Lemma flushed_same (h : nat) (f : file_obj) (w : World) :
  w_fs (fst (flushed h f w)) = w_fs w /\ w_cwd (fst (flushed h f w)) = w_cwd w /\
  w_procs (fst (flushed h f w)) = w_procs w /\
  f_ino (snd (flushed h f w)) = f_ino f /\
  (w_files w !! h = Some f ->
   dom (w_files (fst (flushed h f w))) = dom (w_files w)).
Proof.
  unfold flushed. destruct (truthy (f_wbuf f)); simpl; auto.
  repeat split; auto. intros Hf. apply dom_insert_lookup_L. eauto.
Qed.

Lemma file_state_closed_obj (h : nat) (f : file_obj) (w : World) :
  file_state_of (unlock h (f_ino f) (set_file h (closed_obj f) w)) h = Closed.
Proof.
  unfold file_state_of.
  destruct (unlock_same h (f_ino f) (set_file h (closed_obj f) w)) as (-> & _).
  simpl. rewrite lookup_insert_eq. reflexivity.
Qed.

Lemma file_state_Some (w : World) (h : nat) (f : file_obj) :
  file_state_of w h = Usable f \/ (exists e, file_state_of w h = Broken f e) ->
  w_files w !! h = Some f.
Proof.
  unfold file_state_of. destruct (w_files w !! h) as [g|].
  - destruct (f_closed g); [intros [H|[e H]]; discriminate|].
    destruct (f_fault g); intros [H|[e' H]]; congruence.
  - intros [H|[e H]]; discriminate.
Qed.

(** Closing leaves the object closed and the paths as they are. *)
Lemma file_close_facts (h : nat) (w : World) :
  file_state_of (fst (file_close h w)) h = Closed /\
  w_fs (fst (file_close h w)) = w_fs w /\
  w_cwd (fst (file_close h w)) = w_cwd w /\
  w_procs (fst (file_close h w)) = w_procs w /\
  (forall f, w_files w !! h = Some f ->
     exists f', w_files (fst (file_close h w)) !! h = Some f' /\ f_closed f' = true) /\
  dom (w_files (fst (file_close h w))) = dom (w_files w).
Proof.
  unfold file_close. destruct (file_state_of w h) eqn:E; simpl.
  - repeat split; auto. intros f Hf. exists f. split; [exact Hf|].
    unfold file_state_of in E. rewrite Hf in E.
    destruct (f_closed f); [reflexivity|]. destruct (f_fault f); discriminate.
  - pose proof (file_state_Some w h f (or_intror (ex_intro _ e E))) as Hf.
    destruct (unlock_same h (f_ino f) (set_file h (closed_obj f) w))
      as (Hfi & Hfs & Hc & _ & Hp).
    split; [apply file_state_closed_obj|]. rewrite Hfi, Hfs, Hc, Hp. simpl.
    repeat split; auto.
    + intros g _. rewrite lookup_insert_eq. eauto.
    + apply dom_insert_lookup_L. eauto.
  - pose proof (file_state_Some w h f (or_introl E)) as Hf.
    destruct (flushed_same h f w) as (Hfs' & Hc' & Hp' & Hi' & Hd').
    destruct (flushed h f w) as [w1 f1]. simpl in *.
    destruct (unlock_same h (f_ino f) (set_file h (closed_obj f1) w1))
      as (Hfi & Hfs & Hc & _ & Hp).
    split; [rewrite <- Hi'; apply file_state_closed_obj|].
    rewrite Hfi, Hfs, Hc, Hp. simpl. repeat split; auto.
    + intros g _. rewrite lookup_insert_eq. eauto.
    + rewrite <- (Hd' Hf). apply dom_insert_lookup_L.
      apply elem_of_dom. rewrite (Hd' Hf). apply elem_of_dom. eauto.
Qed.

Lemma file_seek_closed (h n : nat) (w : World) :
  file_state_of w h = Closed -> file_seek h n w = (w, Raise ValueError_closed_file).
Proof. unfold file_seek. intros ->. reflexivity. Qed.

Lemma file_close_closed (h : nat) (w : World) :
  file_state_of w h = Closed -> file_close h w = (w, Ret tt).
Proof. unfold file_close. intros ->. reflexivity. Qed.

Lemma remove_isfile (f : string) (w : World) :
  isfile w f = true -> os_remove f w = (set_fs (delete (resolve w f)) w, Ret tt).
Proof.
  unfold isfile, os_remove. destruct (node_at w f) as [[]|]; try discriminate.
  reflexivity.
Qed.

(** What a path names depends on the directory tree and the working
    directory only. *)
Lemma node_at_same (w w' : World) (p : string) :
  w_fs w' = w_fs w -> w_cwd w' = w_cwd w -> node_at w' p = node_at w p.
Proof. unfold node_at, resolve. intros -> ->. reflexivity. Qed.

Lemma isfile_same (w w' : World) (p : string) :
  w_fs w' = w_fs w -> w_cwd w' = w_cwd w -> isfile w' p = isfile w p.
Proof. unfold isfile. intros H1 H2. rewrite (node_at_same _ _ _ H1 H2). reflexivity. Qed.

Lemma isfile_truthy (w : World) (p : string) : isfile w p = true -> truthy p = true.
Proof. unfold isfile, node_at. destruct (truthy p); [reflexivity|discriminate]. Qed.

Lemma isfile_removed (w : World) (p : string) :
  isfile (set_fs (delete (resolve w p)) w) p = false.
Proof.
  unfold isfile, node_at, resolve. simpl. destruct (truthy p); [|reflexivity].
  rewrite lookup_delete_eq. reflexivity.
Qed.

Lemma cleaned_facts (f : option string) (c : bool) (w : World) :
  w_files (cleaned f c w) = w_files w /\ w_cwd (cleaned f c w) = w_cwd w /\
  w_inodes (cleaned f c w) = w_inodes w /\ w_procs (cleaned f c w) = w_procs w /\
  (forall h, file_state_of (cleaned f c w) h = file_state_of w h) /\
  (c = false -> cleaned f c w = w) /\
  (forall p, c = true -> f = Some p -> isfile (cleaned f c w) p = false).
Proof.
  unfold cleaned. destruct f as [p|]; [|repeat split; auto; discriminate].
  destruct (truthy p && isfile w p && c) eqn:E.
  - repeat split; auto.
    + intros ->. rewrite andb_false_r in E. discriminate.
    + intros q _ [= ->]. apply isfile_removed.
  - repeat split; auto. intros q -> [= ->]. rewrite andb_true_r in E.
    destruct (isfile w q) eqn:Hq; [|reflexivity].
    rewrite (isfile_truthy _ _ Hq) in E. discriminate.
Qed.

(** *** Operations on an open, unbroken file object *)

Section Ops.
Context (w : World) (h : nat) (md : open_mode) (i pos : nat).

Lemma state_open_on (buf : string) :
  open_on w h md i pos buf -> file_state_of w h = Usable (fobj md i pos buf).
Proof. unfold open_on, file_state_of. intros ->. reflexivity. Qed.

Hypothesis Hh : open_on w h md i pos "".

Lemma file_seek_run (n : nat) :
  file_seek h n w = (set_file h (fobj md i n "") w, Ret tt).
Proof. unfold file_seek. rewrite (state_open_on _ Hh). reflexivity. Qed.

Lemma file_read_run (n : nat) :
  file_read h n w =
    (set_file h (fobj md i (pos + text_bytes n (drop pos (data_of w i))) "") w,
     Ret (take n (universal_newlines (drop pos (data_of w i))))).
Proof. unfold file_read. rewrite (state_open_on _ Hh). reflexivity. Qed.

Lemma file_close_run : file_close h w = (after_close w h md i pos, Ret tt).
Proof. unfold file_close. rewrite (state_open_on _ Hh). reflexivity. Qed.

Lemma file_fileno_run : file_fileno h w = (w, Ret h).
Proof. unfold file_fileno. rewrite (state_open_on _ Hh). reflexivity. Qed.

End Ops.

Lemma open_on_set_file (w : World) (h : nat) (md : open_mode) (i pos : nat)
    (buf : string) :
  open_on (set_file h (fobj md i pos buf) w) h md i pos buf.
Proof. unfold open_on. simpl. apply lookup_insert_eq. Qed.

Lemma file_read_start (w : World) (h : nat) (md : open_mode) (i : nat) :
  open_on w h md i 0 "" ->
  file_read h 16 w =
    (set_file h (fobj md i (text_bytes 16 (data_of w i)) "") w,
     Ret (take 16 (universal_newlines (data_of w i)))).
Proof. intros Hh. rewrite (file_read_run _ _ _ _ _ Hh), drop_0. reflexivity. Qed.

Lemma after_close_facts (w : World) (h : nat) (md : open_mode) (i pos : nat) :
  w_fs (after_close w h md i pos) = w_fs w /\
  w_cwd (after_close w h md i pos) = w_cwd w /\
  w_inodes (after_close w h md i pos) = w_inodes w /\
  w_procs (after_close w h md i pos) = w_procs w /\
  w_files (after_close w h md i pos)
    = <[h := closed_obj (fobj md i pos "")]> (w_files w) /\
  file_state_of (after_close w h md i pos) h = Closed.
Proof.
  unfold after_close.
  destruct (unlock_same h i (set_file h (closed_obj (fobj md i pos "")) w))
    as (-> & -> & -> & -> & ->).
  repeat split. apply (file_state_closed_obj h (fobj md i pos "")).
Qed.

Lemma os_kill_0_world (p : Z) (w : World) : fst (os_kill_0 p w) = w.
Proof.
  unfold os_kill_0. destruct (_ && _); [|reflexivity].
  destruct (w_procs w !! p) as [[]|]; reflexivity.
Qed.

Lemma os_kill_0_same (p : Z) (w w' : World) :
  w_procs w' = w_procs w -> snd (os_kill_0 p w') = snd (os_kill_0 p w).
Proof.
  unfold os_kill_0. intros ->. destruct (_ && _); [|reflexivity].
  destruct (w_procs w !! p) as [[]|]; reflexivity.
Qed.

Lemma open_r_run (w : World) (f : string) (i : nat) :
  node_at w f = Some (File i) ->
  open f mode_r w =
    (set_file (fresh (dom (w_files w))) (fobj mode_r i 0 "") w,
     Ret (fresh (dom (w_files w)))).
Proof. unfold open. intros ->. reflexivity. Qed.

Lemma fresh_file (w : World) : w_files w !! fresh (dom (w_files w)) = None.
Proof. apply not_elem_of_dom, is_fresh. Qed.

Lemma file_content_node (w : World) (f c : string) :
  file_content w f = Some c ->
  exists i, node_at w f = Some (File i) /\ data_of w i = c /\ isfile w f = true.
Proof.
  unfold file_content, isfile. destruct (node_at w f) as [[|i]|]; try discriminate.
  intros [= <-]. eauto.
Qed.

Lemma cleaned_false (f : option string) (w : World) : cleaned f false w = w.
Proof. apply cleaned_facts. reflexivity. Qed.

Lemma cleaned_isfile (f : string) (w : World) :
  isfile w f = true -> cleaned (Some f) true w = set_fs (delete (resolve w f)) w.
Proof.
  intros H. unfold cleaned. rewrite H, (isfile_truthy _ _ H). reflexivity.
Qed.

Section AppendOps.
Context (w : World) (h i pos : nat).

Lemma file_truncate_run :
  open_on w h mode_a_plus i pos "" ->
  file_truncate h w =
    (set_data i (take pos (data_of w i) +:+
                 repeat "000"%char (pos - String.length (data_of w i))) w, Ret tt).
Proof. intros Hh. unfold file_truncate. rewrite (state_open_on _ _ _ _ _ _ Hh). reflexivity. Qed.

Lemma file_write_run (buf s : string) :
  open_on w h mode_a_plus i pos buf ->
  file_write h s w = (set_file h (fobj mode_a_plus i pos (buf +:+ s)) w, Ret tt).
Proof. intros Hh. unfold file_write. rewrite (state_open_on _ _ _ _ _ _ Hh). reflexivity. Qed.

Lemma file_flush_run (buf : string) :
  open_on w h mode_a_plus i pos buf -> buf <> "" ->
  file_flush h w =
    (set_file h (fobj mode_a_plus i (String.length (data_of w i +:+ buf)) "")
       (set_data i (data_of w i +:+ buf) w), Ret tt).
Proof.
  intros Hh Hb. unfold file_flush. rewrite (state_open_on _ _ _ _ _ _ Hh).
  unfold flushed. cbn [fobj f_wbuf]. rewrite (proj2 (truthy_true _) Hb). reflexivity.
Qed.

Lemma os_fchmod_run (md : open_mode) (mode : Z) :
  open_on w h md i pos "" ->
  os_fchmod h mode w =
    (set_meta i (fun x => {| i_data := i_data x; i_mode := mode;
                            i_uid := i_uid x; i_gid := i_gid x |}) w, Ret tt).
Proof. intros Hh. unfold os_fchmod. rewrite (state_open_on _ _ _ _ _ _ Hh). reflexivity. Qed.

Lemma os_fchown_run (md : open_mode) (u g : Z) :
  open_on w h md i pos "" ->
  os_fchown h u g w =
    (set_meta i (fun x => {| i_data := i_data x; i_mode := i_mode x;
              i_uid := if u =? -1 then i_uid x else u;
              i_gid := if g =? -1 then i_gid x else g |}) w, Ret tt).
Proof. intros Hh. unfold os_fchown. rewrite (state_open_on _ _ _ _ _ _ Hh). reflexivity. Qed.

End AppendOps.

Lemma data_of_set_data (w : World) (i : nat) (d : string) : data_of (set_data i d w) i = d.
Proof. unfold data_of, inode_of, set_data, set_meta. simpl. rewrite lookup_insert_eq. reflexivity. Qed.

Lemma os_kill_0_ret_range (p : Z) (w : World) :
  snd (os_kill_0 p w) = Ret tt -> - 10 ^ 14 < p < 10 ^ 15.
Proof.
  unfold os_kill_0. destruct (_ && _) eqn:E; [|discriminate].
  intros _. apply andb_true_iff in E as [E1 E2].
  apply Z.leb_le in E1. apply Z.ltb_lt in E2. lia.
Qed.

Lemma file_content_same (w w' : World) (f : string) :
  w_fs w' = w_fs w -> w_cwd w' = w_cwd w -> w_inodes w' = w_inodes w ->
  file_content w' f = file_content w f.
Proof.
  intros H1 H2 H3. unfold file_content, data_of, inode_of.
  rewrite (node_at_same _ _ _ H1 H2), H3. reflexivity.
Qed.

End FileFacts.

(** * Facts about the methods *)

Import PyStr OS Pid.

#[export] Instance setup_kept_preorder : PreOrder setup_kept.
Proof.
  split.
  - intros s H. auto.
  - intros s1 s2 s3 H12 H23 H. destruct (H12 H) as (H2 & Hf & Hp).
    destruct (H23 H2) as (H3 & Hf' & Hp'). repeat split; congruence.
Qed.

#[export] Instance same_but_logger_preorder : PreOrder same_but_logger.
Proof.
  split.
  - intros s. reflexivity.
  - intros s1 s2 s3 H12 H23. unfold same_but_logger in *. congruence.
Qed.

Lemma setup_kept_on_self : on_self setup_kept.
Proof. intros w w' m m' H. exact H. Qed.

Lemma same_but_logger_on_self : on_self same_but_logger.
Proof. intros w w' m m' H. exact H. Qed.

Lemma respects_os (R : relation St) `{!PreOrder R} {A} (c : M World A) :
  on_self R -> respects R (os c).
Proof.
  intros HR [w m] s' r. unfold os. simpl. destruct (c w) as [w' r'].
  intros [= <- _]. apply HR. reflexivity.
Qed.

Lemma respects_set_self (R : relation St) (f : PidFile -> PidFile) :
  (forall w m, R (w, m) (w, f m)) -> respects R (set_self f).
Proof. intros H [w m] s' r [= <- _]. apply H. Qed.

Lemma logger_debug_run (w : World) (m : PidFile) :
  logger_debug (w, m) = ((w, logged m), Ret tt).
Proof.
  unfold logger_debug, logger, logged, bind, self, gets, set_self, modify, ret.
  simpl. destruct (_logger m); reflexivity.
Qed.

Lemma logged_erase (m : PidFile) : with_logger None (logged m) = with_logger None m.
Proof. unfold logged. destruct (_logger m); reflexivity. Qed.

Lemma logged_idem (m : PidFile) : logged (logged m) = logged m.
Proof. unfold logged. destruct (_logger m) eqn:E; simpl; rewrite ?E; reflexivity. Qed.

Lemma respects_logger_debug (R : relation St) :
  (forall w m, R (w, m) (w, logged m)) -> respects R logger_debug.
Proof. intros H [w m] s' r. rewrite logger_debug_run. intros [= <- _]. apply H. Qed.

(** One step of a proof that a method respects a relation. *)
Ltac respects_step :=
  lazymatch goal with
  | |- respects ?R (bind _ _) => apply (respects_bind R); [ | intros ? ]
  | |- respects ?R (ret _) => apply (respects_ret R)
  | |- respects ?R (raise _) => apply (respects_raise R)
  | |- respects ?R (gets _) => apply (respects_gets R)
  | |- respects ?R self => apply (respects_gets R)
  | |- respects ?R world => apply (respects_gets R)
  | |- respects ?R (os _) => apply (respects_os R); assumption
  | |- respects ?R (try_except _ _) =>
      apply (respects_try_except R); [ | intros ?; cbv beta ]
  | |- respects ?R (try_finally _ _) => apply (respects_try_finally R)
  | |- respects _ (if ?b then _ else _) => destruct b
  | |- respects _ (match ?x with _ => _ end) => destruct x
  | |- respects_opt _ (if ?b then _ else _) => destruct b
  | |- respects_opt _ (Some _) => unfold respects_opt
  | |- respects_opt _ None => exact I
  end.

Section Frames.
Context (R : relation St) `{!PreOrder R}.
Hypothesis R_on_self : on_self R.
Hypothesis R_logged : forall w m, R (w, m) (w, logged m).

Lemma respects_close (a : option nat) (c : bool) : respects R (close a c).
Proof.
  unfold close.
  apply (respects_bind R); [apply respects_logger_debug, R_logged | intros _].
  repeat respects_step.
Qed.

Lemma respects_inner_check (h : nat) : respects R (inner_check h).
Proof.
  unfold inner_check.
  repeat first [ apply respects_close | respects_step ].
Qed.

Lemma respects_check_body :
  respects R
    (logger_debug >>>
     let* m := self in
     match fh m with
     | None =>
         let* w := world in
         match filename m with
         | Some f =>
             if truthy f && isfile w f then with_open f mode_r inner_check
             else ret tt
         | None => ret tt
         end
     | Some h => inner_check h
     end).
Proof.
  apply (respects_bind R); [apply respects_logger_debug, R_logged | intros _].
  unfold with_open.
  repeat first [ apply respects_inner_check | respects_step ].
Qed.

End Frames.

Lemma setup_done (w : World) (m : PidFile) :
  _is_setup m = true -> _setup (w, m) = ((w, m), Ret tt).
Proof. intros H. unfold _setup, bind, self, gets. simpl. rewrite H. reflexivity. Qed.

Lemma setup_kept_logged (w : World) (m : PidFile) : setup_kept (w, m) (w, logged m).
Proof. unfold setup_kept, logged. simpl. destruct (_logger m); simpl; auto. Qed.

Lemma respects_setup_kept_setup : respects setup_kept _setup.
Proof.
  intros [w m] s' r H Hs. simpl in Hs. rewrite (setup_done _ _ Hs) in H.
  injection H as <- _. auto.
Qed.

Lemma respects_setup_kept_check : respects setup_kept check.
Proof.
  unfold check.
  apply (respects_bind setup_kept); [apply respects_setup_kept_setup | intros _].
  apply (respects_check_body setup_kept);
    auto using setup_kept_on_self, setup_kept_logged.
Qed.

Lemma respects_setup_kept_create : respects setup_kept create.
Proof.
  pose proof setup_kept_on_self as Hos.
  unfold create.
  apply (respects_bind setup_kept); [apply respects_setup_kept_setup | intros _].
  apply (respects_bind setup_kept);
    [apply respects_logger_debug, setup_kept_logged | intros _].
  unfold self_fh.
  repeat first
    [ apply respects_setup_kept_check
    | apply (respects_close setup_kept); solve [auto using setup_kept_logged]
    | apply respects_set_self; intros ? ? ?; simpl in *; solve [auto]
    | respects_step ].
Qed.

(** *** [_make_filename] and [_setup] *)

Lemma makedirs_cwd (p : string) (w w' : World) (r : result unit) :
  os_makedirs p w = (w', r) ->
  w_cwd w' = w_cwd w /\ w_sigterm w' = w_sigterm w.
Proof.
  unfold os_makedirs. destruct (truthy p); [|intros [= <- _]; auto].
  destruct (fold_left _ _ _) as [fs|e]; [|intros [= <- _]; auto].
  destruct (fs !! _); intros [= <- _]; auto.
Qed.

Lemma makedirs_isdir (p : string) (w w' : World) :
  os_makedirs p w = (w', Ret tt) -> isdir w' p = true.
Proof.
  unfold os_makedirs. destruct (truthy p) eqn:Hp; [|discriminate].
  destruct (fold_left _ _ _) as [fs|e]; [|discriminate].
  destruct (fs !! _) eqn:E; [discriminate|]. intros [= <-].
  unfold isdir, node_at. rewrite Hp. unfold resolve. simpl.
  rewrite lookup_insert_eq. reflexivity.
Qed.

Lemma make_filename_ret (w : World) (m : PidFile) (s' : St) (f : string) :
  _make_filename (w, m) = (s', Ret f) ->
  exists D,
    D = match piddir m with
        | None => if isdir w DEFAULT_PID_DIR && negb (force_tmpdir m)
                  then DEFAULT_PID_DIR else w_tempdir w
        | Some d => d
        end /\
    snd s' = m /\ w_sigterm (fst s') = w_sigterm w /\
    isdir (fst s') D = true /\
    access_R_OK (fst s') D = true /\ access_W_OK (fst s') D = true /\
    f = posixpath.abspath (w_cwd w) (posixpath.join D (spec_base_name (w_argv0 w) m)).
Proof.
  unfold _make_filename. intros H.
  apply bind_ret_inv in H as (m0 & s0 & [= <- <-] & H).
  apply bind_ret_inv in H as (w0 & s0 & [= <- <-] & H).
  simpl fst in H. simpl snd in H.
  set (D := match piddir m with None => _ | Some d => d end) in *.
  exists D. split; [reflexivity|].
  apply bind_ret_inv in H as ([] & [w1 m1] & H1 & H).
  apply bind_ret_inv in H as (w2 & s2 & [= <- <-] & H).
  simpl fst in H.
  destruct (access_R_OK w1 D) eqn:HR; [|discriminate].
  destruct (access_W_OK w1 D) eqn:HW; [|discriminate].
  simpl in H. injection H as <- <-. simpl.
  assert (m1 = m /\ (w_cwd w1 = w_cwd w /\ w_sigterm w1 = w_sigterm w)
          /\ isdir w1 D = true) as (-> & (Hc & Hg) & Hd).
  { destruct (isdir w D) eqn:Hd; simpl in H1.
    - injection H1 as <- <-. auto.
    - unfold os in H1. simpl in H1. destruct (os_makedirs D w) as [w' r] eqn:E.
      injection H1 as <- <- ->. eauto using makedirs_cwd, makedirs_isdir. }
  rewrite Hc. repeat split; auto.
Qed.

Lemma register_term_signal_run (w : World) (m : PidFile) :
  _register_term_signal (w, m) =
    ((if bool_decide (w_sigterm w = SIG_DFL)
      then set_sigterm (handler_callable sigterm_noop_handler) w else w, m), Ret tt).
Proof.
  unfold _register_term_signal, bind, os, signal_getsignal_SIGTERM, gets. simpl.
  destruct (bool_decide (w_sigterm w = SIG_DFL)); reflexivity.
Qed.

Lemma at_make_filename_hints (w : World) (m : PidFile) :
  pidname (at_make_filename w m) = pidname m /\
  piddir (at_make_filename w m) = piddir m /\
  enforce_dotpid_postfix (at_make_filename w m) = enforce_dotpid_postfix m /\
  force_tmpdir (at_make_filename w m) = force_tmpdir m.
Proof. unfold at_make_filename, logged. destruct (_logger m); auto. Qed.

Lemma setup_first (w : World) (m : PidFile) (s' : St) :
  _setup (w, m) = (s', Ret tt) -> _is_setup m = false -> filename m = None ->
  exists f w1,
    _make_filename (w, at_make_filename w m) = ((w1, at_make_filename w m), Ret f) /\
    s' = (if bool_decide (w_sigterm w1 = SIG_DFL)
          then set_sigterm (handler_callable sigterm_noop_handler) w1 else w1,
          with_is_setup true (with_filename (Some f) (at_make_filename w m))).
Proof.
  intros H Hs Hf. unfold _setup in H.
  apply bind_ret_inv in H as (m0 & s0 & [= <- <-] & H). simpl in H.
  rewrite Hs in H. simpl in H.
  apply bind_ret_inv in H as ([] & s0 & H0 & H).
  rewrite logger_debug_run in H0. injection H0 as <-.
  apply bind_ret_inv in H as (m0 & s0 & [= <- <-] & H). simpl in H.
  apply bind_ret_inv in H as ([] & s1 & H & H1).
  replace (filename (logged m)) with (@None string) in H
    by (unfold logged; destruct (_logger m); simpl; congruence).
  apply bind_ret_inv in H as (w0 & s0 & [= <- <-] & H). simpl in H.
  apply bind_ret_inv in H as ([] & s0 & [= <-] & H). simpl in H.
  apply bind_ret_inv in H as (f & [w1 m1] & Hmf & H).
  apply bind_ret_inv in H as ([] & s0 & [= <-] & H). simpl in H.
  rewrite register_term_signal_run in H. injection H as <-.
  injection H1 as <-. simpl.
  destruct (make_filename_ret _ _ _ _ Hmf) as (D & _ & Hm & _). simpl in Hm. subst m1.
  exists f, w1. split; [exact Hmf | reflexivity].
Qed.

Lemma setup_ret_is_setup (w : World) (m : PidFile) (s' : St) :
  _setup (w, m) = (s', Ret tt) -> _is_setup (snd s') = true.
Proof.
  destruct (_is_setup m) eqn:Hs.
  - rewrite (setup_done _ _ Hs). intros [= <-]. exact Hs.
  - unfold _setup. intros H.
    apply bind_ret_inv in H as (m0 & s0 & [= <- <-] & H). simpl in H.
    rewrite Hs in H. simpl in H.
    apply bind_ret_inv in H as ([] & s0 & _ & H).
    apply bind_ret_inv in H as (m0 & s1 & _ & H).
    apply bind_ret_inv in H as ([] & s2 & _ & H).
    injection H as <-. reflexivity.
Qed.


(** *** [close] *)

Lemma logged_fields (m : PidFile) :
  fh (logged m) = fh m /\ filename (logged m) = filename m /\
  _is_setup (logged m) = _is_setup m /\ pid (logged m) = pid m /\
  lock_pidfile (logged m) = lock_pidfile m /\ chmod (logged m) = chmod m /\
  uid (logged m) = uid m /\ gid (logged m) = gid m /\
  self_id (logged m) = self_id m.
Proof. unfold logged. destruct (_logger m); repeat split. Qed.

Lemma finally_run (c : bool) (w : World) (m : PidFile) :
  (let* m := self in
   let* w := world in
   match filename m with
   | Some f => if truthy f && isfile w f && c then os (os_remove f) else ret tt
   | None => ret tt
   end) (w, m) = ((cleaned (filename m) c w, m), Ret tt).
Proof.
  mrun. unfold cleaned.
  destruct (filename m) as [p|]; [|reflexivity].
  destruct (truthy p); simpl; [|reflexivity].
  destruct (isfile w p) eqn:E; simpl; [|reflexivity].
  destruct c; [|reflexivity].
  mrun. rewrite (remove_isfile _ _ E). reflexivity.
Qed.

(** [close] as a function of what [fh.close()] does. *)
Lemma close_run (a : option nat) (c : bool) (w : World) (m : PidFile) :
  close a c (w, m) =
    match (match a with Some h => Some h | None => fh m end) with
    | None => ((cleaned (filename m) c w, logged m), Ret tt)
    | Some h =>
        ((cleaned (filename m) c (fst (file_close h w)), logged m),
         close_outcome (snd (file_close h w)))
    end.
Proof.
  unfold close. rewrite (bind_run_ret _ _ _ _ _ (logger_debug_run w m)).
  unfold bind at 1, self at 1, gets at 1. cbn [snd].
  destruct (logged_fields m) as (-> & Hf & _).
  rewrite try_finally_unfold, try_except_unfold.
  destruct (match a with Some h => Some h | None => fh m end) as [h|].
  - rewrite os_unfold.
    destruct (file_close h w) as [w1 [[]|e]]; cbn [fst snd close_outcome].
    + rewrite finally_run, Hf. reflexivity.
    + destruct (is_IOError e) eqn:Hio; cbn [andb].
      * destruct (bool_decide_reflect (exn_errno e = Some EBADF)) as [E|E].
        -- rewrite bool_decide_eq_false_2 by tauto. unfold ret.
           rewrite finally_run, Hf. reflexivity.
        -- rewrite bool_decide_eq_true_2 by tauto. unfold raise.
           rewrite finally_run, Hf. reflexivity.
      * rewrite finally_run, Hf. reflexivity.
  - unfold ret at 1. rewrite finally_run, Hf. reflexivity.
Qed.

(** *** [check] on a closed file object *)

Lemma inner_check_closed (w : World) (m : PidFile) (h : nat) :
  file_state_of w h = Closed ->
  inner_check h (w, m) =
    ((cleaned (filename m) true w, logged m),
     Raise (PidFileUnreadableError ValueError_closed_file)).
Proof.
  intros Hc. unfold inner_check. mrun.
  rewrite (file_seek_closed _ _ _ Hc). mrun. cbn [is_IOError is_ValueError orb]. mrun.
  rewrite close_run. rewrite (file_close_closed _ _ Hc). reflexivity.
Qed.

Lemma check_held (w : World) (m : PidFile) (h : nat) :
  _is_setup m = true -> fh m = Some h ->
  check (w, m) = inner_check h (w, logged m).
Proof.
  intros Hs Hh. unfold check. mrun. rewrite (setup_done _ _ Hs). mrun.
  rewrite logger_debug_run. mrun.
  destruct (logged_fields m) as (-> & _). rewrite Hh. reflexivity.
Qed.

Lemma check_closed (w : World) (m : PidFile) (h : nat) :
  _is_setup m = true -> fh m = Some h -> file_state_of w h = Closed ->
  check (w, m) =
    ((cleaned (filename m) true w, logged m),
     Raise (PidFileUnreadableError ValueError_closed_file)).
Proof.
  intros Hs Hh Hc. rewrite (check_held _ _ _ Hs Hh).
  rewrite (inner_check_closed _ _ _ Hc).
  destruct (logged_fields m) as (_ & -> & _). rewrite logged_idem. reflexivity.
Qed.

(** *** [inner_check] and [check] on an open file object *)

Lemma inner_check_run (w : World) (m : PidFile) (h : nat) (md : open_mode)
    (i pos : nat) :
  open_on w h md i pos "" ->
  inner_check h (w, m) =
    let w2 := after_read w h md i in
    let wc := after_close w2 h md i (text_bytes 16 (data_of w i)) in
    let pid_str := pid_str_of (universal_newlines (data_of w i)) in
    if negb (truthy pid_str) then ((w2, m), Ret tt)
    else match PyInt.int pid_str with
         | None =>
             ((cleaned (filename m) true wc, logged m),
              Raise (PidFileUnreadableError (ValueError_invalid_literal pid_str)))
         | Some p => probe_outcome w2 wc m p (snd (os_kill_0 p w))
         end.
Proof.
  intros Hh. unfold inner_check. mrun.
  rewrite (file_seek_run _ _ _ _ _ Hh). mrun.
  rewrite (file_read_start _ _ md i) by apply open_on_set_file. mrun.
  change (data_of (set_file h (fobj md i 0 "") w) i) with (data_of w i).
  fold (after_read w h md i).
  assert (Hc : file_close h (after_read w h md i)
               = (after_close (after_read w h md i) h md i
                    (text_bytes 16 (data_of w i)), Ret tt)).
  { apply file_close_run. apply open_on_set_file. }
  unfold pid_str_of.
  set (pid_str := strip (before newline (take 16 (universal_newlines (data_of w i))))).
  cbv zeta. destruct (truthy pid_str); cbn [negb]; [|reflexivity].
  destruct (PyInt.int pid_str) as [p|].
  - mrun. pose proof (os_kill_0_world p (after_read w h md i)) as Hw.
    pose proof (os_kill_0_same p w (after_read w h md i) eq_refl) as Hr.
    destruct (os_kill_0 p (after_read w h md i)) as [wk rk].
    simpl in Hw, Hr. subst wk.
    rewrite <- Hr. unfold probe_outcome. destruct rk as [[]|e]; mrun.
    + rewrite close_run, Hc. cbn [fst snd close_outcome].
      rewrite cleaned_false. reflexivity.
    + destruct (is_IOError e); [|reflexivity].
      destruct (bool_decide (exn_errno e = Some ESRCH)); mrun; [reflexivity|].
      rewrite close_run, Hc. cbn [fst snd close_outcome].
      rewrite cleaned_false. reflexivity.
  - mrun. cbn [is_IOError is_ValueError orb]. mrun.
    rewrite close_run, Hc. reflexivity.
Qed.

Lemma check_after_setup (w w1 : World) (m m1 : PidFile) :
  _setup (w, m) = ((w1, m1), Ret tt) ->
  _is_setup m1 = true /\ check (w, m) = check (w1, m1).
Proof.
  intros H. pose proof (setup_ret_is_setup _ _ _ H) as Hs. simpl in Hs.
  split; [exact Hs|].
  unfold check. rewrite (bind_run_ret _ _ _ _ _ H).
  rewrite (bind_run_ret _ _ _ _ _ (setup_done w1 m1 Hs)). reflexivity.
Qed.

(** [check] on a manager that holds no file object, where a file lies at
    the resolved path. *)
Lemma check_fresh_run (w : World) (m : PidFile) (f : string) (i : nat) :
  _is_setup m = true -> fh m = None -> filename m = Some f ->
  node_at w f = Some (File i) ->
  check (w, m) =
    let h := fresh (dom (w_files w)) in
    match inner_check h (set_file h (fobj mode_r i 0 "") w, logged m) with
    | (s1, r1) =>
        ((fst (file_close h (fst s1)), snd s1),
         match snd (file_close h (fst s1)) with
         | Ret _ => r1
         | Raise e => Raise e
         end)
    end.
Proof.
  intros Hs Hh Hf Hn. unfold check. mrun. rewrite (setup_done _ _ Hs). mrun.
  rewrite logger_debug_run. mrun.
  destruct (logged_fields m) as (-> & -> & _). rewrite Hh, Hf. mrun.
  assert (Hi : isfile w f = true) by (unfold isfile; rewrite Hn; reflexivity).
  rewrite Hi, (isfile_truthy _ _ Hi). cbn [andb]. mrun.
  rewrite (open_r_run _ _ _ Hn). mrun. cbv zeta.
  destruct (inner_check _ _) as [[w1 m1] r1]. mrun.
  destruct (file_close _ w1) as [w2 [[]|e]]; reflexivity.
Qed.

Lemma int_Some_truthy (s : string) (p : Z) :
  PyInt.int s = Some p -> truthy s = true.
Proof. destruct s; [vm_compute; discriminate|reflexivity]. Qed.

(** *** [create] *)

Lemma create_parts (s : St) :
  create s =
    (_setup >>> logger_debug >>> create_open >>> create_lock >>> check >>>
     create_write) s.
Proof.
  destruct s as [w m]. unfold create. rewrite !bind_unfold.
  destruct (_setup (w, m)) as [[w1 m1] [[]|e]]; [|reflexivity].
  rewrite !bind_unfold, !logger_debug_run.
  unfold create_open. mrun.
  destruct (filename (logged m1)) as [f|]; mrun; [|reflexivity].
  destruct (open f mode_a_plus w1) as [w2 [h|e]]; mrun; [|reflexivity].
  unfold create_lock. mrun.
  reflexivity.
Qed.

Ltac solve_open Ho :=
  first [ exact Ho
        | unfold open_on; simpl; first [exact Ho | apply lookup_insert_eq] ].


Ltac run_ops Hh Hp Ho Hnl :=
  repeat first
    [ mstep
    | rewrite Hh
    | rewrite Hp
    | erewrite file_fileno_run by solve_open Ho
    | erewrite os_fchmod_run by solve_open Ho
    | erewrite os_fchown_run by solve_open Ho
    | erewrite file_seek_run by solve_open Ho
    | erewrite file_truncate_run by solve_open Ho
    | erewrite file_write_run by solve_open Ho
    | erewrite file_flush_run by (solve_open Ho || exact Hnl)
    | progress unfold atexit_register_close ].

Lemma create_write_run (w : World) (m : PidFile) (h i pos : nat) (p : Z) :
  fh m = Some h -> pid m = Some p -> open_on w h mode_a_plus i pos "" ->
  exists w',
    create_write (w, m) = ((w', m), Ret tt) /\
    data_of w' i = PyInt.format_d p +:+ String newline "" /\
    open_on w' h mode_a_plus i 0 "" /\
    w_fs w' = w_fs w /\ w_cwd w' = w_cwd w /\ w_procs w' = w_procs w.
Proof.
  intros Hh Hp Ho. unfold create_write. mrun.
  assert (Hnl : PyInt.format_d p +:+ String newline "" <> "").
  { intros E. apply app_eq_nil in E as [_ E]. discriminate. }
  destruct (negb (chmod m =? 0)); run_ops Hh Hp Ho Hnl.
  all: destruct ((0 <=? uid m) || (0 <=? gid m)); run_ops Hh Hp Ho Hnl.
  all: eexists; split; [reflexivity|].
  all: split; [|split; [solve_open Ho| repeat split]].
  all: unfold data_of, inode_of; simpl; rewrite lookup_insert_eq; simpl.
  all: rewrite lookup_insert_eq; simpl; reflexivity.
Qed.


Lemma create_write_no_pid (w : World) (m : PidFile) (h i pos : nat) :
  fh m = Some h -> pid m = None -> open_on w h mode_a_plus i pos "" ->
  snd (create_write (w, m)) = Raise TypeError.
Proof.
  intros Hh Hp Ho. unfold create_write. mrun.
  assert (Hnl : "x" <> "") by discriminate.
  destruct (negb (chmod m =? 0)); run_ops Hh Hp Ho Hnl.
  all: destruct ((0 <=? uid m) || (0 <=? gid m)); run_ops Hh Hp Ho Hnl.
  all: reflexivity.
Qed.

(** *** The first parts of [create] *)

Lemma open_aplus_ret (f : string) (w w' : World) (h : nat) :
  open f mode_a_plus w = (w', Ret h) ->
  exists i pos,
    open_on w' h mode_a_plus i pos "" /\ node_at w' f = Some (File i) /\
    w_files w !! h = None /\
    (forall h', h' <> h -> w_files w' !! h' = w_files w !! h') /\
    w_cwd w' = w_cwd w /\ w_procs w' = w_procs w /\
    (forall q, q <> resolve w f -> w_fs w' !! q = w_fs w !! q).
Proof.
  unfold open. destruct (node_at w f) as [[r wr|i]|] eqn:Hn; try discriminate.
  - intros [= <- <-]. exists i, (String.length (data_of w i)).
    split; [apply open_on_set_file|]. split; [exact Hn|].
    split; [apply fresh_file|]. split; [|auto].
    intros h' Hne. simpl. apply lookup_insert_ne. congruence.
  - destruct (truthy f) eqn:Ht; [|discriminate].
    destruct (w_fs w !! posixpath.dirname (resolve w f)) as [[r wr|]|]; try discriminate.
    intros [= <- <-]. exists (fresh (dom (w_inodes w))), 0%nat.
    split; [apply open_on_set_file|]. split.
    { unfold node_at, resolve. rewrite Ht. simpl. apply lookup_insert_eq. }
    split; [apply fresh_file|]. split.
    { intros h' Hne. simpl. apply lookup_insert_ne. congruence. }
    repeat split. intros q Hq. simpl. apply lookup_insert_ne. congruence.
Qed.

Lemma flock_frame (h : nat) (w w' : World) (r : result unit) :
  fcntl_flock h w = (w', r) ->
  w_files w' = w_files w /\ w_fs w' = w_fs w /\ w_cwd w' = w_cwd w /\
  w_procs w' = w_procs w /\ w_inodes w' = w_inodes w /\
  (forall e, r = Raise e -> w' = w /\ is_IOError e = true).
Proof.
  unfold fcntl_flock. intros H.
  assert (E : (w' = w /\ exists e0, r = Raise (OSError e0)) \/
              (r = Ret tt /\ exists l, w' = set_locks l w)).
  { destruct (file_state_of w h) as [|f e|f].
    - injection H as <- <-. left. eauto.
    - injection H as <- <-. left. eauto.
    - destruct (w_locks w !! f_ino f) as [[h'|]|].
      + destruct (decide (h' = h)); injection H as <- <-.
        * right. split; [reflexivity|]. exists (fun l => l). destruct w; reflexivity.
        * left. eauto.
      + injection H as <- <-. left. eauto.
      + injection H as <- <-. right. eauto. }
  destruct E as [(-> & e0 & ->)|(-> & l & ->)]; repeat split; try discriminate.
  all: injection H0 as <-; reflexivity.
Qed.

Lemma create_open_ret (w : World) (m : PidFile) (s' : St) :
  create_open (w, m) = (s', Ret tt) ->
  exists f h, filename m = Some f /\
    open f mode_a_plus w = (fst s', Ret h) /\ snd s' = with_fh (Some h) m.
Proof.
  unfold create_open. mrun. destruct (filename m) as [f|]; mrun; [|discriminate].
  destruct (open f mode_a_plus w) as [w' [h|e]] eqn:Ho; mrun; [|discriminate].
  intros [= <-]. exists f, h. simpl. auto.
Qed.

Lemma create_lock_ret (w : World) (m : PidFile) (s' : St) (h : nat) (i pos : nat) :
  fh m = Some h -> open_on w h mode_a_plus i pos "" ->
  create_lock (w, m) = (s', Ret tt) ->
  snd s' = m /\
  w_files (fst s') = w_files w /\ w_fs (fst s') = w_fs w /\
  w_cwd (fst s') = w_cwd w /\ w_procs (fst s') = w_procs w /\
  w_inodes (fst s') = w_inodes w.
Proof.
  intros Hh Ho. unfold create_lock. mrun. destruct (lock_pidfile m); mrun.
  - rewrite Hh. mrun. rewrite (file_fileno_run _ _ _ _ _ Ho). mrun.
    destruct (fcntl_flock h w) as [w' [[]|e]] eqn:Hl; mrun.
    + intros [= <-]. destruct (flock_frame _ _ _ _ Hl) as (?&?&?&?&?&_).
      simpl. repeat split; assumption.
    + destruct (flock_frame _ _ _ _ Hl) as (_&_&_&_&_&Hr).
      destruct (Hr e eq_refl) as [-> ->]. mrun. rewrite close_run, Hh. mrun.
      destruct (close_outcome _); mrun; discriminate.
  - intros [= <-]. simpl. repeat split.
Qed.

(** *** What [_setup] leaves alone *)

#[export] Instance same_config_preorder : PreOrder same_config.
Proof.
  split.
  - intros s. split; reflexivity.
  - intros s1 s2 s3 [H1 H2] [H3 H4]. split; congruence.
Qed.

Lemma same_config_on_self : on_self same_config.
Proof. intros w w' m m' H. exact H. Qed.

Lemma same_config_logged (w : World) (m : PidFile) : same_config (w, m) (w, logged m).
Proof. unfold same_config, logged. simpl. destruct (_logger m); auto. Qed.

Lemma respects_same_config_setup : respects same_config _setup.
Proof.
  pose proof same_config_on_self as Hos.
  unfold _setup, _make_filename, _register_term_signal.
  repeat first
    [ apply respects_logger_debug, same_config_logged
    | apply respects_set_self; intros ? ?; split; reflexivity
    | respects_step ].
Qed.

Lemma setup_config (w w1 : World) (m m1 : PidFile) (r : result unit) :
  _setup (w, m) = ((w1, m1), r) ->
  lock_pidfile m1 = lock_pidfile m /\ fh m1 = fh m.
Proof. intros H. exact (respects_same_config_setup _ _ _ H). Qed.

Lemma inner_check_ret_inv (w : World) (m : PidFile) (h : nat) (md : open_mode)
    (i pos : nat) (s' : St) :
  open_on w h md i pos "" -> inner_check h (w, m) = (s', Ret tt) ->
  s' = (after_read w h md i, m).
Proof.
  intros Ho. rewrite (inner_check_run _ _ _ _ _ _ Ho). cbv zeta.
  destruct (truthy _); cbn [negb]; [|intros [= <-]; reflexivity].
  destruct (PyInt.int _) as [p|]; [|discriminate].
  unfold probe_outcome. destruct (snd (os_kill_0 p w)) as [[]|e]; [discriminate|].
  destruct (is_IOError e); [|discriminate].
  destruct (bool_decide _); [intros [= <-]; reflexivity|discriminate].
Qed.

(** The outcome of [inner_check] on a file that records a live process. *)
Lemma inner_check_live (w : World) (m : PidFile) (h : nat) (md : open_mode)
    (i pos : nat) (p : Z) :
  open_on w h md i pos "" ->
  data_of w i = PyInt.format_d p +:+ String newline "" ->
  snd (os_kill_0 p w) = Ret tt ->
  inner_check h (w, m) =
    ((after_close (after_read w h md i) h md i
        (text_bytes 16 (data_of w i)), logged m),
     Raise (PidFileAlreadyRunningError
              (inr ("Program already running with pid: " +:+ PyInt.format_d p)))).
Proof.
  intros Ho Hd Hk. rewrite (inner_check_run _ _ _ _ _ _ Ho). cbv zeta.
  destruct (format_d_read_all p (os_kill_0_ret_range _ _ Hk)) as (Hs & Ht & Hi).
  replace (pid_str_of (universal_newlines (data_of w i))) with (PyInt.format_d p)
    by (rewrite Hd, universal_newlines_format_d; symmetry; exact Hs).
  rewrite Ht, Hi, Hk. reflexivity.
Qed.

(** [inner_check] on a file that names no live process.  The condition is
    on the bytes of the file; the text read from them is blank, or holds
    the same number. *)
Lemma inner_check_free (w : World) (m : PidFile) (h : nat) (md : open_mode)
    (i pos : nat) :
  open_on w h md i pos "" -> names_no_process w (data_of w i) ->
  inner_check h (w, m) = ((after_read w h md i, m), Ret tt).
Proof.
  intros Ho Hc. rewrite (inner_check_run _ _ _ _ _ _ Ho). cbv zeta.
  destruct Hc as [E|(q & Hq & Hk)].
  - rewrite (pid_str_text_blank _ E). reflexivity.
  - destruct (pid_str_text_int _ _ Hq) as [E|E]; rewrite E; [reflexivity|].
    rewrite (int_Some_truthy _ _ Hq), Hq, Hk. reflexivity.
Qed.

Lemma setup_pid (w w1 : World) (m m1 : PidFile) (f : string) :
  _setup (w, m) = ((w1, m1), Ret tt) -> filename m1 = Some f ->
  (filename m = None -> pid m1 = Some (w_pid w)) /\
  (filename m <> None -> pid m1 = pid m /\ filename m = Some f).
Proof.
  intros H Hf1. destruct (_is_setup m) eqn:Hs.
  { rewrite (setup_done _ _ Hs) in H. injection H as <- <-.
    split; [congruence|auto]. }
  destruct (filename m) as [q|] eqn:Hf.
  - split; [discriminate|]. intros _.
    unfold _setup in H.
    apply bind_ret_inv in H as (m0 & s0 & [= <- <-] & H). simpl in H.
    rewrite Hs in H. simpl in H.
    apply bind_ret_inv in H as ([] & s0 & H0 & H).
    rewrite logger_debug_run in H0. injection H0 as <-.
    apply bind_ret_inv in H as (m0 & s0 & [= <- <-] & H). simpl in H.
    destruct (logged_fields m) as (_ & Hlf & _ & Hlp & _).
    rewrite Hlf, Hf in H. simpl in H. injection H as <- <-.
    simpl in *. rewrite Hlp. split; congruence.
  - split; [|congruence]. intros _.
    destruct (setup_first _ _ _ H Hs Hf) as (f' & w' & _ & E).
    injection E as _ ->. reflexivity.
Qed.

Lemma logged_with_fh (x : option nat) (m : PidFile) :
  logged (with_fh x (logged m)) = with_fh x (logged m).
Proof. unfold logged. destruct (_logger m) eqn:E; simpl; rewrite ?E; reflexivity. Qed.

Lemma create_after_setup (w w1 : World) (m m1 : PidFile) :
  _setup (w, m) = ((w1, m1), Ret tt) ->
  create (w, m) = (create_open >>> create_lock >>> check >>> create_write) (w1, logged m1).
Proof.
  intros H. rewrite create_parts. rewrite (bind_run_ret _ _ _ _ _ H).
  rewrite (bind_run_ret _ _ _ _ _ (logger_debug_run w1 m1)). reflexivity.
Qed.

Lemma create_open_run (w w2 : World) (m : PidFile) (f : string) (h : nat) :
  filename m = Some f -> open f mode_a_plus w = (w2, Ret h) ->
  create_open (w, m) = ((w2, with_fh (Some h) m), Ret tt).
Proof. intros Hf Ho. unfold create_open. mrun. rewrite Hf. mrun. rewrite Ho. reflexivity. Qed.

(** * The claims *)

(** C1.  Round trip of [create] and [check].  When [create] returns, the
    manager has a resolved path, a process ID and a file object; the
    process ID is the current one when this call resolved the path, and
    the one captured before otherwise; the whole content of the file at
    the resolved path is the decimal process ID followed by one newline.
    If that process is alive (the probe of it succeeds), a following
    [check], by the same manager or by another one that holds no file
    object and is resolved to the same path, raises the already-running
    error whose message names that process ID, and leaves the file and
    its content in place. *)
Theorem C1_create_roundtrip (w w' : World) (m m' : PidFile) :
  create (w, m) = ((w', m'), Ret tt) ->
  exists (f : string) (p : Z) (h : nat),
    filename m' = Some f /\ pid m' = Some p /\ fh m' = Some h /\
    (filename m = None -> p = w_pid w) /\
    (filename m <> None -> pid m = Some p) /\
    file_content w' f = Some (PyInt.format_d p +:+ String newline "") /\
    (snd (os_kill_0 p w') = Ret tt ->
     (exists w'',
        check (w', m')
          = ((w'', m'),
             Raise (PidFileAlreadyRunningError
                      (inr ("Program already running with pid: "
                            +:+ PyInt.format_d p)))) /\
        file_content w'' f = file_content w' f) /\
     (forall m2, _is_setup m2 = true -> fh m2 = None -> filename m2 = Some f ->
        exists w'',
          check (w', m2)
            = ((w'', logged m2),
               Raise (PidFileAlreadyRunningError
                        (inr ("Program already running with pid: "
                              +:+ PyInt.format_d p)))) /\
          file_content w'' f = file_content w' f)).
Proof.
  intros H. rewrite create_parts in H.
  apply bind_ret_inv in H as ([] & [w1 m1] & Hsetup & H).
  apply bind_ret_inv in H as ([] & s1 & Hlog & H).
  rewrite logger_debug_run in Hlog. injection Hlog as <-.
  apply bind_ret_inv in H as ([] & [w2 m2] & Hopen & H).
  destruct (create_open_ret _ _ _ Hopen) as (f & h & Hf & Ho2 & Hm2).
  simpl in Ho2, Hm2. subst m2.
  destruct (logged_fields m1) as (_ & Hlf & Hls & Hlp & _).
  rewrite Hlf in Hf.
  destruct (open_aplus_ret _ _ _ _ Ho2) as (i & pos & Ho & Hn & _ & _ & Hcwd2 & Hp2 & _).
  set (m2 := with_fh (Some h) (logged m1)) in *.
  assert (Hfh : fh m2 = Some h) by reflexivity.
  assert (Hsu : _is_setup m2 = true).
  { pose proof (setup_ret_is_setup _ _ _ Hsetup) as E. simpl in E.
    unfold m2. simpl. congruence. }
  assert (Hl2 : logged m2 = m2) by apply logged_with_fh.
  apply bind_ret_inv in H as ([] & [w3 m3] & Hlock & H).
  destruct (create_lock_ret _ _ _ _ _ _ Hfh Ho Hlock) as (E3 & Hfi3 & Hfs3 & Hc3 & Hp3 & Hi3).
  simpl in E3, Hfi3, Hfs3, Hc3, Hp3, Hi3. subst m3.
  assert (Ho3 : open_on w3 h mode_a_plus i pos "").
  { unfold open_on. rewrite Hfi3. exact Ho. }
  apply bind_ret_inv in H as ([] & [w4 m4] & Hcheck & H).
  rewrite (check_held _ _ _ Hsu Hfh), Hl2 in Hcheck.
  apply (inner_check_ret_inv _ _ _ _ _ _ _ Ho3) in Hcheck. injection Hcheck as -> ->.
  assert (Ho4 : open_on (after_read w3 h mode_a_plus i) h mode_a_plus i
                  (text_bytes 16 (data_of w3 i)) "")
    by apply open_on_set_file.
  destruct (pid m1) as [p|] eqn:Hp.
  2:{ pose proof (create_write_no_pid _ m2 _ _ _ Hfh Hlp Ho4) as E.
      rewrite H in E. discriminate E. }
  destruct (create_write_run _ m2 _ _ _ p Hfh Hlp Ho4)
    as (w5 & Hrun & Hdata & Ho5 & Hfs5 & Hc5 & Hp5).
  rewrite Hrun in H. injection H as <- <-.
  destruct (setup_pid _ _ _ _ f Hsetup Hf) as (Hpid1 & Hpid2).
  assert (Hn5 : node_at w5 f = Some (File i)).
  { rewrite (node_at_same w2 w5 f); [exact Hn | |]; simpl in *; congruence. }
  assert (Hcontent : file_content w5 f = Some (PyInt.format_d p +:+ String newline "")).
  { unfold file_content. rewrite Hn5, Hdata. reflexivity. }
  exists f, p, h.
  split; [exact (eq_trans Hlf Hf)|]. split; [exact Hlp|]. split; [reflexivity|].
  split; [intros E; specialize (Hpid1 E); congruence|].
  split; [intros E; destruct (Hpid2 E); congruence|].
  split; [exact Hcontent|].
  intros Hk. split.
  - eexists. split.
    + rewrite (check_held _ _ _ Hsu Hfh), Hl2.
      rewrite (inner_check_live _ _ _ _ _ _ p Ho5 Hdata Hk), Hl2. reflexivity.
    + destruct (after_close_facts (after_read w5 h mode_a_plus i) h mode_a_plus i
                  (text_bytes 16 (data_of w5 i))) as (Ea & Eb & Ec & _).
      apply file_content_same; assumption.
  - intros m6 Hs6 Hh6 Hf6.
    set (h6 := fresh (dom (w_files w5))).
    set (w6 := set_file h6 (fobj mode_r i 0 "") w5).
    set (wc := after_close (after_read w6 h6 mode_r i) h6 mode_r i
                 (text_bytes 16 (data_of w6 i))).
    destruct (after_close_facts (after_read w6 h6 mode_r i) h6 mode_r i
                (text_bytes 16 (data_of w6 i))) as (Ea & Eb & Ec & _ & _ & Est).
    fold wc in Ea, Eb, Ec, Est.
    exists wc. split.
    + rewrite (check_fresh_run _ _ _ _ Hs6 Hh6 Hf6 Hn5). cbv zeta. fold h6. fold w6.
      rewrite (inner_check_live w6 _ h6 mode_r i 0 p);
        [| apply open_on_set_file | exact Hdata
         | rewrite (os_kill_0_same p w5 w6 eq_refl); exact Hk].
      fold wc. cbn [fst snd]. rewrite (file_close_closed _ _ Est), logged_idem.
      reflexivity.
    + apply file_content_same; assumption.
Qed.

Lemma C1_create_roundtrip_witness :
  create (demo_world, demo_manager) = ((created_world, created_manager), Ret tt) /\
  exists (f : string) (p : Z),
    filename created_manager = Some f /\ pid created_manager = Some p /\
    p = w_pid demo_world /\
    file_content created_world f = Some (PyInt.format_d p +:+ String newline "").
Proof.
  assert (H : create (demo_world, demo_manager)
              = ((created_world, created_manager), Ret tt))
    by (vm_compute; reflexivity).
  split; [exact H|].
  destruct (C1_create_roundtrip _ _ _ _ H) as (f & p & h & Hf & Hp & _ & Hc & _ & Hd & _).
  exists f, p. repeat split; try assumption. apply Hc. reflexivity.
Defined.

(** C2.  Unreadable content.  The PID file is read as text: for a file of
    ASCII bytes, the text is the bytes with every line end (carriage
    return, line feed, or the two in a row) read as one newline.  When
    what [inner_check] takes from the first 16 characters of that text,
    up to the first newline and stripped, is not empty and is no integer,
    [check] raises the unreadable-pidfile error, which carries the
    [ValueError] of the conversion, and no regular file is left at the
    resolved path: for a file that [check] opens itself the entry is
    removed and every other path stays; for a file object the manager
    holds, the object is closed as well. *)
Theorem C2_unreadable_pidfile (w w1 : World) (m m1 : PidFile) (f : string) :
  _setup (w, m) = ((w1, m1), Ret tt) -> filename m1 = Some f ->
  (forall c, fh m = None -> file_content w1 f = Some c -> isascii c = true ->
     pid_str_of (universal_newlines c) <> "" ->
     PyInt.int (pid_str_of (universal_newlines c)) = None ->
     exists w2,
       check (w, m)
         = ((w2, logged m1),
            Raise (PidFileUnreadableError
                     (ValueError_invalid_literal
                        (pid_str_of (universal_newlines c))))) /\
       isfile w2 f = false /\
       w_fs w2 = delete (resolve w1 f) (w_fs w1)) /\
  (forall h md i pos, fh m = Some h -> open_on w1 h md i pos "" ->
     isascii (data_of w1 i) = true ->
     pid_str_of (universal_newlines (data_of w1 i)) <> "" ->
     PyInt.int (pid_str_of (universal_newlines (data_of w1 i))) = None ->
     exists w2,
       check (w, m)
         = ((w2, logged m1),
            Raise (PidFileUnreadableError
                     (ValueError_invalid_literal
                        (pid_str_of (universal_newlines (data_of w1 i)))))) /\
       isfile w2 f = false /\
       file_state_of w2 h = Closed).
Proof.
  intros Hsetup Hf.
  destruct (check_after_setup _ _ _ _ Hsetup) as (Hs & ->).
  destruct (logged_fields m1) as (_ & Hlf & _).
  destruct (setup_config _ _ _ _ _ Hsetup) as (_ & Hcf).
  split.
  - intros c Hh Hc _ Hne Hint. rewrite <- Hcf in Hh.
    destruct (file_content_node _ _ _ Hc) as (i & Hn & Hd & Hi).
    set (h := fresh (dom (w_files w1))).
    set (w1' := set_file h (fobj mode_r i 0 "") w1).
    set (n := text_bytes 16 (data_of w1 i)).
    set (wc := after_close (after_read w1' h mode_r i) h mode_r i n).
    destruct (after_close_facts (after_read w1' h mode_r i) h mode_r i n)
      as (Hfs & Hcwd & Hino & _ & Hfiles & Hst).
    fold wc in Hfs, Hcwd, Hino, Hfiles, Hst.
    assert (Hiw : isfile wc f = true).
    { rewrite (isfile_same w1 wc f Hfs Hcwd). exact Hi. }
    exists (cleaned (Some f) true wc).
    destruct (cleaned_facts (Some f) true wc) as (_ & _ & _ & _ & Hcst & _ & Hrm).
    split; [|split].
    + rewrite (check_fresh_run _ _ _ _ Hs Hh Hf Hn). cbv zeta. fold h. fold w1'.
      rewrite (inner_check_run _ _ _ mode_r i 0) by apply open_on_set_file.
      cbv zeta. change (data_of w1' i) with (data_of w1 i). fold n. fold wc.
      rewrite Hd, Hint, (proj2 (truthy_true _) Hne). cbn [negb fst snd].
      rewrite Hlf, Hf, logged_idem.
      rewrite file_close_closed by (rewrite Hcst; exact Hst). reflexivity.
    + apply Hrm; reflexivity.
    + rewrite (cleaned_isfile _ _ Hiw). simpl. unfold resolve. rewrite Hfs, Hcwd.
      reflexivity.
  - intros h md i pos Hh Ho _ Hne Hint. rewrite <- Hcf in Hh.
    set (n := text_bytes 16 (data_of w1 i)).
    set (wc := after_close (after_read w1 h md i) h md i n).
    destruct (after_close_facts (after_read w1 h md i) h md i n)
      as (_ & _ & _ & _ & _ & Hst).
    fold wc in Hst.
    exists (cleaned (Some f) true wc).
    destruct (cleaned_facts (Some f) true wc) as (_ & _ & _ & _ & Hcst & _ & Hrm).
    split; [|split].
    + rewrite (check_held _ _ _ Hs Hh), (inner_check_run _ _ _ _ _ _ Ho). cbv zeta.
      fold n. fold wc. rewrite Hint, (proj2 (truthy_true _) Hne). cbn [negb].
      rewrite Hlf, Hf, logged_idem. reflexivity.
    + apply Hrm; reflexivity.
    + rewrite Hcst. exact Hst.
Qed.

Lemma C2_unreadable_pidfile_witness :
  _setup (garbage_world, demo_manager)
    = ((fst garbage_setup, snd garbage_setup), Ret tt) /\
  filename (snd garbage_setup) = Some demo_path /\
  exists w2,
    check (garbage_world, demo_manager)
      = ((w2, logged (snd garbage_setup)),
         Raise (PidFileUnreadableError (ValueError_invalid_literal "not-a-pid"))) /\
    isfile w2 demo_path = false.
Proof.
  assert (H : _setup (garbage_world, demo_manager)
              = ((fst garbage_setup, snd garbage_setup), Ret tt))
    by (vm_compute; reflexivity).
  assert (Hf : filename (snd garbage_setup) = Some demo_path)
    by (vm_compute; reflexivity).
  split; [exact H|]. split; [exact Hf|].
  destruct (C2_unreadable_pidfile _ _ _ _ _ H Hf) as (Hfresh & _).
  destruct (Hfresh ("not-a-pid" +:+ String newline "")) as (w2 & Hc & Hi & _);
    try (vm_compute; reflexivity).
  { vm_compute. discriminate. }
  exists w2. split; [exact Hc|exact Hi].
Defined.

(** C3.  Lock contention.  For a manager with advisory locking enabled,
    when setup completes, the file at the resolved path is opened, and the
    exclusive non-blocking lock on it cannot be acquired, [create] closes
    the file object it opened, which stays in the manager's slot, deletes
    nothing (the file is still at the resolved path, with the same
    content), and raises the already-locked error, which carries the
    error of [flock]. *)
Theorem C3_already_locked (w w1 w2 : World) (m m1 : PidFile) (f : string)
    (h : nat) (e : errno) :
  lock_pidfile m = true ->
  _setup (w, m) = ((w1, m1), Ret tt) ->
  filename m1 = Some f ->
  open f mode_a_plus w1 = (w2, Ret h) ->
  snd (fcntl_flock h w2) = Raise (OSError e) ->
  exists w3 fo,
    create (w, m)
      = ((w3, with_fh (Some h) (logged m1)),
         Raise (PidFileAlreadyLockedError (OSError e))) /\
    w_files w3 !! h = Some fo /\ f_closed fo = true /\
    w_fs w3 = w_fs w2 /\ isfile w3 f = true /\
    file_content w3 f = file_content w2 f.
Proof.
  intros Hlock Hsetup Hf Hopen Hflock.
  destruct (setup_config _ _ _ _ _ Hsetup) as (Hcl & _). rewrite <- Hcl in Hlock.
  destruct (fcntl_flock h w2) as [w2' r] eqn:Hfl. simpl in Hflock. subst r.
  destruct (flock_frame _ _ _ _ Hfl) as (_ & _ & _ & _ & _ & Hsame).
  destruct (Hsame _ eq_refl) as (-> & _). rename Hfl into Hflock.
  destruct (logged_fields m1) as (_ & Hlf & _ & _ & Hll & _).
  destruct (open_aplus_ret _ _ _ _ Hopen) as (i & pos & Ho & Hn & _).
  destruct (after_close_facts w2 h mode_a_plus i pos)
    as (Hfs & Hcwd & Hino & _ & Hfiles & _).
  exists (after_close w2 h mode_a_plus i pos), (closed_obj (fobj mode_a_plus i pos "")).
  split; [|split; [|split; [|split; [|split]]]].
  - rewrite (create_after_setup _ _ _ _ Hsetup).
    rewrite (bind_run_ret _ _ _ _ _
               (create_open_run _ _ _ _ _ (eq_trans Hlf Hf) Hopen)).
    rewrite bind_unfold. unfold create_lock. mrun. cbn [lock_pidfile with_fh]. rewrite Hll, Hlock. mrun.
    cbn [fh with_fh]. mrun.
    rewrite (file_fileno_run _ _ _ _ _ Ho). mrun. rewrite Hflock. mrun. cbn [is_IOError]. mrun.
    rewrite close_run. cbn [fh with_fh]. rewrite (file_close_run _ _ _ _ _ Ho).
    cbn [fst snd close_outcome]. rewrite cleaned_false, logged_with_fh. reflexivity.
  - rewrite Hfiles. apply lookup_insert_eq.
  - reflexivity.
  - exact Hfs.
  - rewrite (isfile_same w2 _ f Hfs Hcwd). unfold isfile. rewrite Hn. reflexivity.
  - unfold file_content. rewrite (node_at_same w2 _ f Hfs Hcwd).
    unfold data_of, inode_of. rewrite Hino. reflexivity.
Qed.

Lemma C3_already_locked_witness :
  lock_pidfile demo_manager = true /\
  _setup (locked_world, demo_manager)
    = ((fst locked_setup, snd locked_setup), Ret tt) /\
  open demo_path mode_a_plus (fst locked_setup) = (locked_opened, Ret 0%nat) /\
  snd (fcntl_flock 0 locked_opened) = Raise (OSError EWOULDBLOCK) /\
  exists w3,
    create (locked_world, demo_manager)
      = ((w3, with_fh (Some 0%nat) (logged (snd locked_setup))),
         Raise (PidFileAlreadyLockedError (OSError EWOULDBLOCK))) /\
    isfile w3 demo_path = true.
Proof.
  assert (H1 : lock_pidfile demo_manager = true) by reflexivity.
  assert (H2 : _setup (locked_world, demo_manager)
               = ((fst locked_setup, snd locked_setup), Ret tt))
    by (vm_compute; reflexivity).
  assert (H3 : filename (snd locked_setup) = Some demo_path)
    by (vm_compute; reflexivity).
  assert (H4 : open demo_path mode_a_plus (fst locked_setup)
               = (locked_opened, Ret 0%nat)) by (vm_compute; reflexivity).
  assert (H5 : snd (fcntl_flock 0 locked_opened) = Raise (OSError EWOULDBLOCK))
    by (vm_compute; reflexivity).
  repeat (split; [assumption|]).
  destruct (C3_already_locked _ _ _ _ _ _ _ _ H1 H2 H3 H4 H5)
    as (w3 & fo & Hc & _ & _ & _ & Hi & _).
  exists w3. split; [exact Hc|exact Hi].
Defined.

(** C4, as the code has it.  When the liveness probe of the recorded PID
    reports [ESRCH], [check] returns without raising and deletes nothing.
    A file object that [check] opened itself is closed when its [with]
    block is left; a file object held by the manager is not closed: it
    stays open for the caller, [create]. *)
Theorem C4_stale_pid (w w1 : World) (m m1 : PidFile) (p : Z) :
  _setup (w, m) = ((w1, m1), Ret tt) ->
  os_kill_0 p w1 = (w1, Raise (OSError ESRCH)) ->
  (forall f c, fh m = None -> filename m1 = Some f ->
     file_content w1 f = Some c -> PyInt.int (pid_str_of c) = Some p ->
     exists w2 h fo,
       check (w, m) = ((w2, logged m1), Ret tt) /\
       w_fs w2 = w_fs w1 /\ file_content w2 f = Some c /\
       w_files w1 !! h = None /\ w_files w2 !! h = Some fo /\ f_closed fo = true /\
       (forall h', h' <> h -> w_files w2 !! h' = w_files w1 !! h')) /\
  (forall h md i pos, fh m = Some h -> open_on w1 h md i pos "" ->
     PyInt.int (pid_str_of (data_of w1 i)) = Some p ->
     exists w2 pos',
       check (w, m) = ((w2, logged m1), Ret tt) /\
       w_fs w2 = w_fs w1 /\ w_inodes w2 = w_inodes w1 /\
       open_on w2 h md i pos' "").
Proof.
  intros Hsetup Hkill.
  destruct (check_after_setup _ _ _ _ Hsetup) as (Hs & ->).
  destruct (setup_config _ _ _ _ _ Hsetup) as (_ & Hcf).
  split.
  - intros f c Hh Hf Hc Hint. rewrite <- Hcf in Hh.
    destruct (file_content_node _ _ _ Hc) as (i & Hn & Hd & Hi).
    set (h := fresh (dom (w_files w1))).
    set (w1' := set_file h (fobj mode_r i 0 "") w1).
    set (n := text_bytes 16 (data_of w1 i)).
    exists (after_close (after_read w1' h mode_r i) h mode_r i n), h,
           (closed_obj (fobj mode_r i n "")).
    destruct (after_close_facts (after_read w1' h mode_r i) h mode_r i n)
      as (Hfs & Hcwd & Hino & _ & Hfiles & _).
    split.
    + rewrite (check_fresh_run _ _ _ _ Hs Hh Hf Hn). cbv zeta. fold h. fold w1'.
      rewrite (inner_check_free _ _ _ mode_r i 0); [|apply open_on_set_file|].
      2:{ right. exists p. change (data_of w1' i) with (data_of w1 i).
          rewrite Hd. split; [exact Hint|].
          rewrite (os_kill_0_same p w1 w1' eq_refl), Hkill. reflexivity. }
      cbn [fst snd].
      rewrite (file_close_run _ _ mode_r i (text_bytes 16 c))
        by (subst c; apply open_on_set_file).
      cbn [fst snd]. unfold n. rewrite Hd. reflexivity.
    + split; [exact Hfs|]. split.
      { unfold file_content. rewrite (node_at_same w1 _ f Hfs Hcwd), Hn.
        unfold data_of, inode_of. rewrite Hino. f_equal. exact Hd. }
      split; [apply fresh_file|]. split; [rewrite Hfiles; apply lookup_insert_eq|].
      split; [reflexivity|].
      intros h' Hne. rewrite Hfiles. simpl. rewrite !lookup_insert_ne by congruence.
      reflexivity.
  - intros h md i pos Hh Ho Hint. rewrite <- Hcf in Hh.
    exists (after_read w1 h md i), (text_bytes 16 (data_of w1 i)).
    split.
    + rewrite (check_held _ _ _ Hs Hh), (inner_check_free _ _ _ _ _ _ Ho);
        [reflexivity|].
      right. exists p. split; [exact Hint|]. rewrite Hkill. reflexivity.
    + repeat split. apply open_on_set_file.
Qed.

Lemma C4_stale_pid_witness :
  _setup (stale_world, demo_manager) = ((fst stale_setup, snd stale_setup), Ret tt) /\
  os_kill_0 31337 (fst stale_setup) = (fst stale_setup, Raise (OSError ESRCH)) /\
  exists w2,
    check (stale_world, demo_manager) = ((w2, logged (snd stale_setup)), Ret tt) /\
    file_content w2 demo_path = Some ("31337" +:+ String newline "").
Proof.
  assert (H1 : _setup (stale_world, demo_manager)
               = ((fst stale_setup, snd stale_setup), Ret tt))
    by (vm_compute; reflexivity).
  assert (H2 : os_kill_0 31337 (fst stale_setup)
               = (fst stale_setup, Raise (OSError ESRCH)))
    by (vm_compute; reflexivity).
  split; [exact H1|]. split; [exact H2|].
  destruct (C4_stale_pid _ _ _ _ _ H1 H2) as (Hfresh & _).
  destruct (Hfresh demo_path ("31337" +:+ String newline ""))
    as (w2 & h & fo & Hc & _ & Hcontent & _); try (vm_compute; reflexivity).
  exists w2. split; [exact Hc|exact Hcontent].
Defined.

(** C4 as stated fails: where [create] calls [check] on the stale file,
    the probe reports [ESRCH], [check] returns, and the file object it
    inspected, the one the manager holds, is still open. *)
Lemma C4_counterexample :
  fh (snd held_state) = Some 0%nat /\
  PyInt.int (pid_str_of (data_of (fst held_state) 0)) = Some 31337 /\
  snd (os_kill_0 31337 (fst held_state)) = Raise (OSError ESRCH) /\
  snd (check held_state) = Ret tt /\
  exists fo,
    w_files (fst (fst (check held_state))) !! 0%nat = Some fo /\
    f_closed fo = false.
Proof.
  repeat split; try (vm_compute; reflexivity).
  eexists. split; vm_compute; reflexivity.
Qed.

(** C5, as the code has it.  When [close] is called with no file object
    and the manager holds none, nothing is closed and nothing is raised;
    the manager changes at most in its cached logger.  The [finally]
    clause still runs: the world is unchanged when [cleanup] is false, or
    no path is resolved, or the resolved path is not an existing regular
    file; otherwise that file, and nothing else, is removed. *)
Theorem C5_close_without_handle (w : World) (m : PidFile) (c : bool) :
  fh m = None ->
  exists w',
    close None c (w, m) = ((w', logged m), Ret tt) /\
    (c = false \/ filename m = None \/
     (exists f, filename m = Some f /\ isfile w f = false) -> w' = w) /\
    (forall f, c = true -> filename m = Some f -> isfile w f = true ->
       w' = set_fs (delete (resolve w f)) w /\ isfile w' f = false).
Proof.
  intros Hh. exists (cleaned (filename m) c w).
  rewrite close_run, Hh. split; [reflexivity|]. split.
  - unfold cleaned. intros [->|[->|(f & -> & Hf)]].
    + destruct (filename m); [|reflexivity]. rewrite andb_false_r. reflexivity.
    + reflexivity.
    + rewrite Hf, andb_false_r. reflexivity.
  - intros f -> Hf Hi. unfold cleaned. rewrite Hf, Hi, (isfile_truthy _ _ Hi).
    split; [reflexivity|apply isfile_removed].
Qed.

Lemma C5_close_without_handle_witness :
  fh checked_manager = None /\
  exists w',
    close None true (checked_world, checked_manager)
      = ((w', logged checked_manager), Ret tt) /\
    w' = set_fs (delete (resolve checked_world "/var/run/myservice.pid"))
           checked_world.
Proof.
  assert (Hh : fh checked_manager = None) by (vm_compute; reflexivity).
  split; [exact Hh|].
  destruct (C5_close_without_handle checked_world checked_manager true Hh)
    as (w' & Hc & _ & Hrm).
  exists w'. split; [exact Hc|].
  apply (Hrm "/var/run/myservice.pid"); vm_compute; reflexivity.
Defined.

(** C5 as stated fails: a manager that only checked holds no file object,
    and its [close] removes the file that lies at the resolved path. *)
Lemma C5_counterexample :
  fh checked_manager = None /\
  isfile checked_world "/var/run/myservice.pid" = true /\
  snd (close None true (checked_world, checked_manager)) = Ret tt /\
  isfile (fst (fst (close None true (checked_world, checked_manager))))
    "/var/run/myservice.pid" = false /\
  w_fs (fst (fst (close None true (checked_world, checked_manager))))
    <> w_fs checked_world.
Proof.
  repeat split; try (vm_compute; reflexivity).
  intros H. apply (f_equal (fun fs => fs !! "/var/run/myservice.pid")) in H.
  vm_compute in H. discriminate H.
Qed.

(** C6.  Filename derivation.  After the first setup of a manager, with the
    name hint [custom] the base name of the resolved path is [custom.pid]
    when the suffix is enforced and exactly [custom] when it is not; with
    no name hint it is the base name of the invoking program followed by
    [.pid]; and whenever the suffix is enforced the resolved path ends
    with [.pid]. *)
Theorem C6_filename_derivation (w w' : World) (m m' : PidFile) :
  _setup (w, m) = ((w', m'), Ret tt) ->
  _is_setup m = false -> filename m = None ->
  exists f,
    filename m' = Some f /\
    (pidname m = Some "custom" -> enforce_dotpid_postfix m = true ->
     posixpath.basename f = "custom.pid") /\
    (pidname m = Some "custom" -> enforce_dotpid_postfix m = false ->
     posixpath.basename f = "custom") /\
    (pidname m = None ->
     posixpath.basename f = posixpath.basename (w_argv0 w) +:+ ".pid") /\
    (enforce_dotpid_postfix m = true -> endswith f ".pid" = true).
Proof.
  intros H Hs Hf.
  destruct (setup_first _ _ _ H Hs Hf) as (f & w1 & Hmf & E).
  injection E as -> ->. exists f. split; [reflexivity|].
  destruct (make_filename_ret _ _ _ _ Hmf) as (D & _ & _ & _ & _ & _ & _ & ->).
  destruct (at_make_filename_hints w m) as (Hn & _ & He & _).
  unfold spec_base_name. rewrite Hn, He. clear Hmf Hn He.
  repeat split.
  - intros -> ->. apply (abspath_join_dotpid _ _ "custom.pid"). reflexivity.
  - intros -> ->. rewrite basename_abspath; rewrite basename_join; [reflexivity|].
    repeat split; discriminate.
  - intros ->. rewrite endswith_app, andb_false_r.
    destruct (abspath_join_dotpid (w_cwd w) D
                (posixpath.basename (w_argv0 w) +:+ ".pid")) as [-> _].
    { apply endswith_app. }
    rewrite basename_dotpid, basename_nosep by apply contains_basename.
    reflexivity.
  - intros ->. simpl andb.
    apply abspath_join_dotpid.
    set (base := match pidname m with Some hint => hint | None => _ end).
    destruct (endswith base ".pid") eqn:E; simpl; [exact E | apply endswith_app].
Qed.

Lemma C6_filename_derivation_witness :
  _setup (demo_world, custom_manager)
    = ((fst custom_setup, snd custom_setup), Ret tt) /\
  _is_setup custom_manager = false /\ filename custom_manager = None /\
  exists f, filename (snd custom_setup) = Some f /\
            posixpath.basename f = "custom.pid" /\ endswith f ".pid" = true.
Proof.
  assert (H : _setup (demo_world, custom_manager)
              = ((fst custom_setup, snd custom_setup), Ret tt))
    by (vm_compute; reflexivity).
  split; [exact H|]. split; [reflexivity|]. split; [reflexivity|].
  destruct (C6_filename_derivation _ _ _ _ H eq_refl eq_refl)
    as (f & Hf & Hc & _ & _ & He).
  exists f. split; [exact Hf|]. split; [apply Hc; reflexivity|apply He; reflexivity].
Defined.

(** C7.  Directory resolution.  The first setup resolves the path as the
    base name joined to a directory [D], which exists as a directory
    afterwards; [D] is the directory hint when one is supplied; otherwise
    [/var/run/] when that is a directory and the temporary directory is
    not forced, and the platform's temporary directory in every other
    case. *)
Theorem C7_directory_resolution (w w' : World) (m m' : PidFile) :
  _setup (w, m) = ((w', m'), Ret tt) ->
  _is_setup m = false -> filename m = None ->
  exists D,
    filename m' =
      Some (posixpath.abspath (w_cwd w)
              (posixpath.join D (spec_base_name (w_argv0 w) m))) /\
    isdir w' D = true /\
    (forall d, piddir m = Some d -> D = d) /\
    (piddir m = None -> isdir w "/var/run/" = true -> force_tmpdir m = false ->
     D = "/var/run/") /\
    (piddir m = None -> isdir w "/var/run/" = false \/ force_tmpdir m = true ->
     D = w_tempdir w).
Proof.
  intros H Hs Hf.
  destruct (setup_first _ _ _ H Hs Hf) as (f & w1 & Hmf & E).
  injection E as -> ->.
  destruct (make_filename_ret _ _ _ _ Hmf) as (D & HD & _ & _ & Hd & _ & _ & ->).
  destruct (at_make_filename_hints w m) as (Hn & Hp & He & Ht).
  rewrite Hp, Ht in HD. simpl in Hd.
  exists D. repeat split.
  - simpl. unfold spec_base_name. rewrite Hn, He. reflexivity.
  - destruct (bool_decide _); exact Hd.
  - intros d Hd'. rewrite Hd' in HD. exact HD.
  - intros Hd' Hv Hft. rewrite Hd' in HD. unfold DEFAULT_PID_DIR in HD.
    rewrite Hv, Hft in HD. exact HD.
  - intros Hd' Hv. rewrite Hd' in HD. unfold DEFAULT_PID_DIR in HD.
    destruct Hv as [Hv|Hv]; rewrite Hv in HD; [exact HD|].
    rewrite andb_false_r in HD. exact HD.
Qed.

Lemma C7_directory_resolution_witness :
  _setup (demo_world, demo_manager) = ((fst demo_setup, snd demo_setup), Ret tt) /\
  _is_setup demo_manager = false /\ filename demo_manager = None /\
  filename (snd demo_setup)
    = Some (posixpath.abspath (w_cwd demo_world)
              (posixpath.join "/var/run/"
                 (spec_base_name (w_argv0 demo_world) demo_manager))) /\
  isdir (fst demo_setup) "/var/run/" = true.
Proof.
  assert (H : _setup (demo_world, demo_manager)
              = ((fst demo_setup, snd demo_setup), Ret tt))
    by (vm_compute; reflexivity).
  split; [exact H|]. split; [reflexivity|]. split; [reflexivity|].
  destruct (C7_directory_resolution _ _ _ _ H eq_refl eq_refl)
    as (D & Hf & Hd & _ & Hv & _).
  assert (E : D = "/var/run/") by (apply Hv; vm_compute; reflexivity).
  subst D. split; [exact Hf|exact Hd].
Defined.

(** C8.  Setup is idempotent.  Once a setup has completed, the manager is
    marked set up; from then on [_setup] changes neither the world nor the
    manager, in whatever world it runs and whatever was assigned to the
    name, directory and flag slots in between; and [check], [create] and
    [close] leave the resolved path and the captured process ID as they
    are. *)
Theorem C8_setup_idempotent (w w1 : World) (m m1 : PidFile) :
  _setup (w, m) = ((w1, m1), Ret tt) ->
  _is_setup m1 = true /\
  (forall (w2 : World) (name dir : option string) (enforce force_tmp : bool),
     _setup (w2, set_hints name dir enforce force_tmp m1)
       = ((w2, set_hints name dir enforce force_tmp m1), Ret tt) /\
     filename (set_hints name dir enforce force_tmp m1) = filename m1 /\
     pid (set_hints name dir enforce force_tmp m1) = pid m1) /\
  (forall (w2 : World) (s3 : St) (r : result unit) (a : option nat) (c : bool),
     check (w2, m1) = (s3, r) \/ create (w2, m1) = (s3, r)
     \/ close a c (w2, m1) = (s3, r) ->
     _is_setup (snd s3) = true /\
     filename (snd s3) = filename m1 /\ pid (snd s3) = pid m1).
Proof.
  intros H. pose proof (setup_ret_is_setup _ _ _ H) as Hs. simpl in Hs.
  split; [exact Hs|]. split.
  - intros w2 name dir enforce force_tmp.
    split; [apply setup_done; exact Hs | split; reflexivity].
  - intros w2 s3 r a c [Hc|[Hc|Hc]].
    + exact (respects_setup_kept_check _ _ _ Hc Hs).
    + exact (respects_setup_kept_create _ _ _ Hc Hs).
    + refine (respects_close setup_kept setup_kept_on_self setup_kept_logged
                a c _ _ _ Hc Hs).
Qed.

Lemma C8_setup_idempotent_witness :
  _setup (demo_world, demo_manager) = ((fst demo_setup, snd demo_setup), Ret tt) /\
  _is_setup (snd demo_setup) = true /\
  _setup (stale_world, set_hints (Some "other") (Some "/tmp") false true (snd demo_setup))
    = ((stale_world, set_hints (Some "other") (Some "/tmp") false true (snd demo_setup)),
       Ret tt).
Proof.
  assert (H : _setup (demo_world, demo_manager)
              = ((fst demo_setup, snd demo_setup), Ret tt))
    by (vm_compute; reflexivity).
  split; [exact H|].
  destruct (C8_setup_idempotent _ _ _ _ H) as (Hs & Hagain & _).
  split; [exact Hs|]. apply Hagain.
Defined.

(** C9.  The termination-signal handler.  The handler does nothing but
    raise [SystemExit(1)], which ends the process with status 1.
    [_register_term_signal] installs it when the SIGTERM disposition is
    the default one and changes nothing otherwise, so the world changes
    if and only if the disposition was the default.  A completed setup
    leaves an ignored, unknown or custom disposition as it is, and the
    first setup of a manager replaces the default one by the handler. *)
Theorem C9_term_signal (w : World) (m : PidFile) :
  (forall (args : list Z) (w0 : World),
     sigterm_noop_handler_call args w0 = (w0, Raise (SystemExit 1))) /\
  exit_status (SystemExit 1) = 1 /\
  (w_sigterm w = SIG_DFL ->
   _register_term_signal (w, m)
     = ((set_sigterm (handler_callable sigterm_noop_handler) w, m), Ret tt)) /\
  (w_sigterm w <> SIG_DFL -> _register_term_signal (w, m) = ((w, m), Ret tt)) /\
  (fst (fst (_register_term_signal (w, m))) <> w <-> w_sigterm w = SIG_DFL) /\
  (forall (w' : World) (m' : PidFile),
     _setup (w, m) = ((w', m'), Ret tt) ->
     (w_sigterm w <> SIG_DFL -> w_sigterm w' = w_sigterm w) /\
     (_is_setup m = false -> filename m = None -> w_sigterm w = SIG_DFL ->
      w_sigterm w' = handler_callable sigterm_noop_handler)).
Proof.
  split; [reflexivity|]. split; [reflexivity|].
  rewrite register_term_signal_run.
  split; [|split; [|split]].
  - intros ->. reflexivity.
  - intros Hne. rewrite bool_decide_eq_false_2 by exact Hne. reflexivity.
  - simpl. destruct (bool_decide_reflect (w_sigterm w = SIG_DFL)) as [E|E].
    + split; [auto|]. intros _ Hw. apply (f_equal w_sigterm) in Hw.
      simpl in Hw. congruence.
    + split; [congruence|contradiction].
  - intros w' m' H.
    destruct (_is_setup m) eqn:Hs.
    { rewrite (setup_done _ _ Hs) in H. injection H as <- <-.
      split; [reflexivity|discriminate]. }
    destruct (filename m) eqn:Hf.
    { assert (w' = w) as ->; [|split; [reflexivity|discriminate]].
      unfold _setup in H.
      apply bind_ret_inv in H as (m0 & s0 & [= <- <-] & H). simpl in H.
      rewrite Hs in H. simpl in H.
      apply bind_ret_inv in H as ([] & s0 & H0 & H).
      rewrite logger_debug_run in H0. injection H0 as <-.
      apply bind_ret_inv in H as (m0 & s0 & [= <- <-] & H). simpl in H.
      replace (filename (logged m)) with (Some s) in H
        by (unfold logged; destruct (_logger m); simpl; congruence).
      simpl in H. injection H as <- _. reflexivity. }
    destruct (setup_first _ _ _ H Hs Hf) as (f & w1 & Hmf & E).
    injection E as -> _.
    destruct (make_filename_ret _ _ _ _ Hmf) as (D & _ & _ & Hg & _). simpl in Hg.
    destruct (bool_decide_reflect (w_sigterm w1 = SIG_DFL)) as [E|E]; simpl.
    + split; [congruence|reflexivity].
    + split; [congruence|]. intros _ _ Hd. congruence.
Qed.

Lemma C9_term_signal_witness :
  w_sigterm demo_world = SIG_DFL /\
  _register_term_signal (demo_world, demo_manager)
    = ((set_sigterm (handler_callable sigterm_noop_handler) demo_world,
        demo_manager), Ret tt).
Proof.
  split; [reflexivity|].
  destruct (C9_term_signal demo_world demo_manager) as (_ & _ & Hd & _).
  apply Hd. reflexivity.
Defined.

(** C10.  [close] assigns none of the slots of the manager but the cached
    logger: the file-object slot and the resolved path are as before,
    whether [close] returns or raises.  When the object closed is the
    manager's own, it is closed afterwards, and a later [check] of the
    set-up manager opens no file: it fails on the closed object with the
    unreadable-pidfile error (and removes what lies at the resolved path
    on the way). *)
Theorem C10_close_keeps_fields (w w' : World) (m m' : PidFile)
    (a : option nat) (c : bool) (r : result unit) :
  close a c (w, m) = ((w', m'), r) ->
  (fh m' = fh m /\ filename m' = filename m /\
   with_logger None m' = with_logger None m) /\
  (forall h, fh m = Some h -> a = None \/ a = Some h ->
     file_state_of w' h = Closed /\
     (forall f, w_files w !! h = Some f ->
        exists f', w_files w' !! h = Some f' /\ f_closed f' = true) /\
     (_is_setup m = true ->
      exists w'',
        check (w', m')
          = ((w'', m'), Raise (PidFileUnreadableError ValueError_closed_file)) /\
        w_files w'' = w_files w' /\
        (forall f, filename m = Some f -> isfile w'' f = false))).
Proof.
  intros H. assert (Hm : m' = logged m).
  { rewrite close_run in H. destruct (match a with Some _ => _ | None => _ end);
      injection H as _ <- _; reflexivity. }
  subst m'. destruct (logged_fields m) as (Hfh & Hfn & Hsu & _).
  split; [rewrite Hfh, Hfn, logged_erase; auto|].
  intros h Hh Ha. rewrite close_run in H.
  replace (match a with Some h0 => Some h0 | None => fh m end) with (Some h) in H
    by (destruct Ha as [->| ->]; [congruence|reflexivity]).
  injection H as <- _.
  destruct (file_close_facts h w) as (Hcl & _ & _ & _ & Hex & _).
  destruct (cleaned_facts (filename m) c (fst (file_close h w)))
    as (Hfi & _ & _ & _ & Hst & _).
  assert (Hclosed : file_state_of (cleaned (filename m) c (fst (file_close h w))) h
                    = Closed) by (rewrite Hst; exact Hcl).
  split; [exact Hclosed|]. split.
  - intros f Hf. rewrite Hfi. apply (Hex f Hf).
  - intros Hs. eexists. split.
    + rewrite (check_closed _ _ h); [rewrite logged_idem, Hfn; reflexivity| | |];
        congruence.
    + destruct (cleaned_facts (filename m) true
                  (cleaned (filename m) c (fst (file_close h w))))
        as (Hfi' & _ & _ & _ & _ & _ & Hrm).
      split; [exact Hfi'|]. intros f Hf. apply Hrm; auto.
Qed.

Lemma C10_close_keeps_fields_witness :
  close None true (created_world, created_manager)
    = ((fst (fst (close None true (created_world, created_manager))),
        snd (fst (close None true (created_world, created_manager)))), Ret tt) /\
  fh (snd (fst (close None true (created_world, created_manager))))
    = fh created_manager /\
  filename (snd (fst (close None true (created_world, created_manager))))
    = filename created_manager.
Proof.
  assert (H : close None true (created_world, created_manager)
              = ((fst (fst (close None true (created_world, created_manager))),
                  snd (fst (close None true (created_world, created_manager)))),
                 Ret tt)) by (vm_compute; reflexivity).
  split; [exact H|].
  destruct (C10_close_keeps_fields _ _ _ _ _ _ _ H) as ((Hfh & Hfn & _) & _).
  split; [exact Hfh|exact Hfn].
Defined.

Example basename_ex : posixpath.basename "/usr/bin/myservice" = "myservice".
Proof. reflexivity. Qed.

Example abspath_ex :
  posixpath.abspath "/home/u" (posixpath.join "/var/run/" "custom.pid")
  = "/var/run/custom.pid".
Proof. reflexivity. Qed.

Example abspath_rel_ex :
  posixpath.abspath "/home/u" (posixpath.join "run/../x" "a.pid") = "/home/u/x/a.pid".
Proof. reflexivity. Qed.

Example format_d_ex : PyInt.format_d 12345 = "12345".
Proof. reflexivity. Qed.

Example int_ex : PyInt.int " 12_345 " = Some 12345.
Proof. reflexivity. Qed.

Example int_bad_ex : PyInt.int "12a" = None.
Proof. reflexivity. Qed.

(** * The methods on [demo_world] *)

(** [create] writes the process ID and a newline, takes the lock and
    registers [close] with [atexit]. *)
Example create_demo :
  snd (create (demo_world, demo_manager)) = Ret tt /\
  file_content created_world demo_path = Some ("4242" +:+ String newline "") /\
  w_locks created_world !! 0%nat = Some (LockedBy 0) /\
  w_atexit created_world = [1%nat] /\
  w_sigterm created_world = handler_callable sigterm_noop_handler.
Proof. repeat split; vm_compute; reflexivity. Qed.

(** A second manager of the same program cannot take the lock, and the
    file of the first stays as it is. *)
Example create_twice :
  snd (create (created_world, other_manager))
    = Raise (PidFileAlreadyLockedError (OSError EWOULDBLOCK)) /\
  file_content (fst (fst (create (created_world, other_manager)))) demo_path
    = Some ("4242" +:+ String newline "").
Proof. split; vm_compute; reflexivity. Qed.

(** Leaving the scope removes the file. *)
Example enter_exit :
  snd ((__enter__ >>> __exit__) (demo_world, demo_manager)) = Ret tt /\
  isfile (fst (fst ((__enter__ >>> __exit__) (demo_world, demo_manager)))) demo_path
    = false.
Proof. split; vm_compute; reflexivity. Qed.

(** Without the lock, a second manager finds the first process alive. *)
Example create_unlocked_running :
  snd (create (created_world,
               __init__ 4 None None true false 420 (-1) (-1) false))
    = Raise (PidFileAlreadyRunningError
               (inr "Program already running with pid: 4242")).
Proof. vm_compute. reflexivity. Qed.

(** * Further properties of the methods *)

(** ** Auxiliary facts *)

Lemma create_write_facts (w : World) (m : PidFile) (h i pos : nat) (p : Z) :
  fh m = Some h -> pid m = Some p -> open_on w h mode_a_plus i pos "" ->
  exists w',
    create_write (w, m) = ((w', m), Ret tt) /\
    data_of w' i = PyInt.format_d p +:+ String newline "" /\
    open_on w' h mode_a_plus i 0 "" /\
    w_fs w' = w_fs w /\ w_cwd w' = w_cwd w /\ w_procs w' = w_procs w /\
    w_locks w' = w_locks w /\ w_sigterm w' = w_sigterm w /\
    w_atexit w' = w_atexit w ++ [self_id m] /\
    i_mode (inode_of w' i) = i_mode (create_meta m (inode_of w i)) /\
    i_uid (inode_of w' i) = i_uid (create_meta m (inode_of w i)) /\
    i_gid (inode_of w' i) = i_gid (create_meta m (inode_of w i)) /\
    (forall j, j <> i -> w_inodes w' !! j = w_inodes w !! j) /\
    (forall h', h' <> h -> w_files w' !! h' = w_files w !! h').
Proof.
  intros Hh Hp Ho. unfold create_write, create_meta. mrun.
  assert (Hnl : PyInt.format_d p +:+ String newline "" <> "").
  { intros E. apply app_eq_nil in E as [_ E]. discriminate. }
  destruct (negb (chmod m =? 0)); run_ops Hh Hp Ho Hnl.
  all: destruct ((0 <=? uid m) || (0 <=? gid m)); run_ops Hh Hp Ho Hnl.
  all: eexists; split; [reflexivity|].
  all: split; [|split; [solve_open Ho|]].
  all: repeat split.
  all: try (intros ? ?).
  all: repeat (progress (unfold data_of, inode_of, set_data, set_meta; simpl;
                         rewrite ?lookup_insert_eq)).
  all: rewrite ?lookup_insert_ne by congruence; try reflexivity.
Qed.

Lemma open_aplus_facts (f : string) (w w' : World) (h : nat) :
  open f mode_a_plus w = (w', Ret h) ->
  exists i pos,
    open_on w' h mode_a_plus i pos "" /\ node_at w' f = Some (File i) /\
    h = fresh (dom (w_files w)) /\
    (forall h', h' <> h -> w_files w' !! h' = w_files w !! h') /\
    w_cwd w' = w_cwd w /\ w_procs w' = w_procs w /\ w_locks w' = w_locks w /\
    w_sigterm w' = w_sigterm w /\ w_atexit w' = w_atexit w /\
    (forall q, q <> resolve w f -> w_fs w' !! q = w_fs w !! q) /\
    ((node_at w f = Some (File i) /\ w_fs w' = w_fs w /\ w_inodes w' = w_inodes w) \/
     (node_at w f = None /\ i = fresh (dom (w_inodes w)) /\
      inode_of w' i = new_inode w /\
      (forall j, j <> i -> w_inodes w' !! j = w_inodes w !! j))).
Proof.
  unfold open. destruct (node_at w f) as [[r wr|i]|] eqn:Hn; try discriminate.
  - intros [= <- <-]. exists i, (String.length (data_of w i)).
    split; [apply open_on_set_file|]. split; [exact Hn|].
    split; [reflexivity|]. split.
    { intros h' Hne. simpl. apply lookup_insert_ne. congruence. }
    repeat split. left. auto.
  - destruct (truthy f) eqn:Ht; [|discriminate].
    destruct (w_fs w !! posixpath.dirname (resolve w f)) as [[r wr|]|]; try discriminate.
    intros [= <- <-]. exists (fresh (dom (w_inodes w))), 0%nat.
    split; [apply open_on_set_file|]. split.
    { unfold node_at, resolve. rewrite Ht. simpl. apply lookup_insert_eq. }
    split; [reflexivity|]. split.
    { intros h' Hne. simpl. apply lookup_insert_ne. congruence. }
    repeat split.
    { intros q Hq. simpl. apply lookup_insert_ne. congruence. }
    right. repeat split.
    + unfold inode_of. simpl. rewrite lookup_insert_eq. reflexivity.
    + intros j Hj. simpl. apply lookup_insert_ne. congruence.
Qed.

(** [open(path, "a+")] where no file lies yet, in a directory that is
    there. *)
Lemma open_aplus_new (f : string) (w : World) (r wr : bool) :
  truthy f = true -> node_at w f = None ->
  w_fs w !! posixpath.dirname (resolve w f) = Some (Dir r wr) ->
  exists w', open f mode_a_plus w = (w', Ret (fresh (dom (w_files w)))).
Proof.
  intros Ht Hn Hd. unfold open. rewrite Hn, Ht, Hd. eexists. reflexivity.
Qed.

Lemma open_aplus_old (f : string) (w : World) (i : nat) :
  node_at w f = Some (File i) ->
  open f mode_a_plus w =
    (set_file (fresh (dom (w_files w)))
       (fobj mode_a_plus i (String.length (data_of w i)) "") w,
     Ret (fresh (dom (w_files w)))).
Proof. intros Hn. unfold open. rewrite Hn. reflexivity. Qed.

Lemma flock_ret (h : nat) (w w' : World) (md : open_mode) (i pos : nat) (buf : string) :
  open_on w h md i pos buf -> fcntl_flock h w = (w', Ret tt) ->
  w_locks w' !! i = Some (LockedBy h) /\
  (forall j, j <> i -> w_locks w' !! j = w_locks w !! j) /\
  w_sigterm w' = w_sigterm w /\ w_atexit w' = w_atexit w.
Proof.
  intros Ho. unfold fcntl_flock. rewrite (state_open_on _ _ _ _ _ _ Ho).
  cbn [fobj f_ino]. destruct (w_locks w !! i) as [[h'|]|] eqn:E.
  - destruct (decide (h' = h)) as [->|]; [|discriminate].
    intros [= <-]. auto.
  - discriminate.
  - intros [= <-]. simpl. rewrite lookup_insert_eq. repeat split.
    intros j Hj. apply lookup_insert_ne. congruence.
Qed.

(** [flock] on an open object succeeds when nobody else holds the lock. *)
Lemma flock_free (h : nat) (w : World) (md : open_mode) (i pos : nat) (buf : string) :
  open_on w h md i pos buf ->
  w_locks w !! i = None \/ w_locks w !! i = Some (LockedBy h) ->
  exists w', fcntl_flock h w = (w', Ret tt).
Proof.
  intros Ho Hl. unfold fcntl_flock. rewrite (state_open_on _ _ _ _ _ _ Ho).
  cbn [fobj f_ino]. destruct Hl as [->| ->]; [eauto|].
  rewrite decide_True by reflexivity. eauto.
Qed.

(** [flock] on an open object fails when another object holds the lock. *)
Lemma flock_held (h h0 : nat) (w : World) (md : open_mode) (i pos : nat) (buf : string) :
  open_on w h md i pos buf -> h0 <> h ->
  w_locks w !! i = Some (LockedBy h0) \/ w_locks w !! i = Some LockedElsewhere ->
  fcntl_flock h w = (w, Raise (OSError EWOULDBLOCK)).
Proof.
  intros Ho Hne Hl. unfold fcntl_flock. rewrite (state_open_on _ _ _ _ _ _ Ho).
  cbn [fobj f_ino]. destruct Hl as [->| ->]; [|reflexivity].
  rewrite decide_False by exact Hne. reflexivity.
Qed.

(** The locking step of [create], when it returns. *)
Lemma create_lock_facts (w : World) (m : PidFile) (s' : St) (h : nat) (i pos : nat) :
  fh m = Some h -> open_on w h mode_a_plus i pos "" ->
  create_lock (w, m) = (s', Ret tt) ->
  snd s' = m /\
  w_files (fst s') = w_files w /\ w_fs (fst s') = w_fs w /\
  w_cwd (fst s') = w_cwd w /\ w_procs (fst s') = w_procs w /\
  w_inodes (fst s') = w_inodes w /\
  w_sigterm (fst s') = w_sigterm w /\ w_atexit (fst s') = w_atexit w /\
  (lock_pidfile m = true -> w_locks (fst s') !! i = Some (LockedBy h)) /\
  (lock_pidfile m = false -> w_locks (fst s') = w_locks w) /\
  (forall j, j <> i -> w_locks (fst s') !! j = w_locks w !! j).
Proof.
  intros Hh Ho H.
  destruct (create_lock_ret _ _ _ _ _ _ Hh Ho H) as (Hm & Hfi & Hfs & Hc & Hp & Hi).
  repeat (split; [assumption|]).
  revert H. unfold create_lock. mrun. destruct (lock_pidfile m); mrun.
  - rewrite Hh. mrun. rewrite (file_fileno_run _ _ _ _ _ Ho). mrun.
    destruct (fcntl_flock h w) as [w' [[]|e]] eqn:Hl; mrun.
    + intros [= <-]. destruct (flock_ret _ _ _ _ _ _ _ Ho Hl) as (?&?&?&?).
      simpl. repeat split; auto. discriminate.
    + destruct (flock_frame _ _ _ _ Hl) as (_&_&_&_&_&Hr).
      destruct (Hr e eq_refl) as [-> ->]. mrun. rewrite close_run, Hh. mrun.
      destruct (close_outcome _); mrun; discriminate.
  - intros [= <-]. simpl. repeat split; auto. discriminate.
Qed.

Lemma after_read_facts (w : World) (h : nat) (md : open_mode) (i : nat) :
  w_fs (after_read w h md i) = w_fs w /\ w_cwd (after_read w h md i) = w_cwd w /\
  w_inodes (after_read w h md i) = w_inodes w /\
  w_procs (after_read w h md i) = w_procs w /\
  w_locks (after_read w h md i) = w_locks w /\
  w_sigterm (after_read w h md i) = w_sigterm w /\
  w_atexit (after_read w h md i) = w_atexit w /\
  (forall h', h' <> h -> w_files (after_read w h md i) !! h' = w_files w !! h').
Proof.
  unfold after_read. simpl. repeat split.
  intros h' Hne. rewrite !lookup_insert_ne by congruence. reflexivity.
Qed.

(** The state in which a returning [create] leaves the world: [w1] is the
    world after setup, [w2] the world once the file is open. *)
Lemma create_ret (w w' : World) (m m' : PidFile) :
  create (w, m) = ((w', m'), Ret tt) ->
  exists w1 m1 w2 f p h i pos,
    _setup (w, m) = ((w1, m1), Ret tt) /\ _is_setup m1 = true /\
    filename m1 = Some f /\ pid m1 = Some p /\
    open f mode_a_plus w1 = (w2, Ret h) /\
    open_on w2 h mode_a_plus i pos "" /\ node_at w2 f = Some (File i) /\
    m' = with_fh (Some h) (logged m1) /\
    node_at w' f = Some (File i) /\
    data_of w' i = PyInt.format_d p +:+ String newline "" /\
    open_on w' h mode_a_plus i 0 "" /\
    w_fs w' = w_fs w2 /\ w_cwd w' = w_cwd w2 /\ w_procs w' = w_procs w2 /\
    w_sigterm w' = w_sigterm w2 /\
    w_atexit w' = w_atexit w2 ++ [self_id m1] /\
    (lock_pidfile m1 = true -> w_locks w' !! i = Some (LockedBy h)) /\
    (lock_pidfile m1 = false -> w_locks w' = w_locks w2) /\
    (forall j, j <> i -> w_locks w' !! j = w_locks w2 !! j) /\
    i_mode (inode_of w' i) = i_mode (create_meta m1 (inode_of w2 i)) /\
    i_uid (inode_of w' i) = i_uid (create_meta m1 (inode_of w2 i)) /\
    i_gid (inode_of w' i) = i_gid (create_meta m1 (inode_of w2 i)) /\
    (forall j, j <> i -> w_inodes w' !! j = w_inodes w2 !! j) /\
    (forall h', h' <> h -> w_files w' !! h' = w_files w2 !! h') /\
    w_locks w2 = w_locks w1 /\
    ((node_at w1 f = Some (File i) /\ w_fs w2 = w_fs w1 /\ w_inodes w2 = w_inodes w1) \/
     (node_at w1 f = None /\ i = fresh (dom (w_inodes w1)) /\
      inode_of w2 i = new_inode w1 /\
      (forall j, j <> i -> w_inodes w2 !! j = w_inodes w1 !! j))).
Proof.
  intros H. rewrite create_parts in H.
  apply bind_ret_inv in H as ([] & [w1 m1] & Hsetup & H).
  apply bind_ret_inv in H as ([] & s1 & Hlog & H).
  rewrite logger_debug_run in Hlog. injection Hlog as <-.
  apply bind_ret_inv in H as ([] & [w2 m2] & Hopen & H).
  destruct (create_open_ret _ _ _ Hopen) as (f & h & Hf & Ho2 & Hm2).
  simpl in Ho2, Hm2. subst m2.
  destruct (logged_fields m1) as (_ & Hlf & Hls & Hlp & Hll & Hlc & Hlu & Hlg & Hid).
  rewrite Hlf in Hf.
  destruct (open_aplus_facts _ _ _ _ Ho2)
    as (i & pos & Ho & Hn & _ & _ & Hcwd2 & Hp2 & Hlocks2 & _ & _ & _ & Hcase).
  set (m2 := with_fh (Some h) (logged m1)) in *.
  assert (Hfh : fh m2 = Some h) by reflexivity.
  assert (Hs1 : _is_setup m1 = true).
  { pose proof (setup_ret_is_setup _ _ _ Hsetup) as E. exact E. }
  assert (Hsu : _is_setup m2 = true) by (unfold m2; simpl; congruence).
  assert (Hl2 : logged m2 = m2) by apply logged_with_fh.
  apply bind_ret_inv in H as ([] & [w3 m3] & Hlock & H).
  destruct (create_lock_facts _ _ _ _ _ _ Hfh Ho Hlock)
    as (E3 & Hfi3 & Hfs3 & Hc3 & Hp3 & Hi3 & Hsg3 & Hat3 & Hlk1 & Hlk2 & Hlk3).
  simpl in E3, Hfi3, Hfs3, Hc3, Hp3, Hi3, Hsg3, Hat3, Hlk1, Hlk2, Hlk3. subst m3.
  assert (Ho3 : open_on w3 h mode_a_plus i pos "").
  { unfold open_on. rewrite Hfi3. exact Ho. }
  apply bind_ret_inv in H as ([] & [w4 m4] & Hcheck & H).
  rewrite (check_held _ _ _ Hsu Hfh), Hl2 in Hcheck.
  apply (inner_check_ret_inv _ _ _ _ _ _ _ Ho3) in Hcheck. injection Hcheck as -> ->.
  assert (Ho4 : open_on (after_read w3 h mode_a_plus i) h mode_a_plus i
                  (text_bytes 16 (data_of w3 i)) "")
    by apply open_on_set_file.
  destruct (after_read_facts w3 h mode_a_plus i)
    as (Hfs4 & Hc4 & Hi4 & Hp4 & Hlk4 & Hsg4 & Hat4 & Hfi4).
  destruct (pid m1) as [p|] eqn:Hp.
  2:{ pose proof (create_write_no_pid _ m2 _ _ _ Hfh Hlp Ho4) as E.
      rewrite H in E. discriminate E. }
  destruct (create_write_facts _ m2 _ _ _ p Hfh Hlp Ho4)
    as (w5 & Hrun & Hdata & Ho5 & Hfs5 & Hc5 & Hp5 & Hlk5 & Hsg5 & Hat5 & Hmo & Hui & Hgi
        & Hino5 & Hfi5).
  rewrite Hrun in H. injection H as <- <-.
  assert (Hn5 : node_at w5 f = Some (File i)).
  { rewrite (node_at_same w2 w5 f); [exact Hn | |]; congruence. }
  assert (Hinode : inode_of (after_read w3 h mode_a_plus i) i = inode_of w2 i).
  { unfold inode_of. rewrite Hi4, Hi3. reflexivity. }
  assert (Hmeta : create_meta m2 = create_meta m1).
  { unfold create_meta, m2. simpl. rewrite Hlc, Hlu, Hlg. reflexivity. }
  rewrite Hinode, Hmeta in Hmo, Hui, Hgi.
  exists w1, m1, w2, f, p, h, i, pos.
  split; [exact Hsetup|]. split; [exact Hs1|]. split; [exact Hf|].
  split; [exact Hp|]. split; [exact Ho2|]. split; [exact Ho|].
  split; [exact Hn|]. split; [reflexivity|]. split; [exact Hn5|].
  split; [exact Hdata|]. split; [exact Ho5|].
  split; [congruence|]. split; [congruence|]. split; [congruence|].
  split; [congruence|].
  split; [rewrite Hat5, Hat4, Hat3; unfold m2; simpl; rewrite Hid; reflexivity|].
  split; [intros E; rewrite Hlk5, Hlk4; apply Hlk1; unfold m2; simpl; congruence|].
  split; [intros E; rewrite Hlk5, Hlk4; apply Hlk2; unfold m2; simpl; congruence|].
  split; [intros j Hj; rewrite Hlk5, Hlk4; apply Hlk3, Hj|].
  split; [exact Hmo|]. split; [exact Hui|]. split; [exact Hgi|].
  split; [intros j Hj; rewrite (Hino5 j Hj), Hi4, Hi3; reflexivity|].
  split; [intros h' Hne; rewrite (Hfi5 h' Hne), (Hfi4 h' Hne), Hfi3; reflexivity|].
  split; [exact Hlocks2|exact Hcase].
Qed.

Lemma unlock_released (h i : nat) (w : World) :
  w_locks (unlock h i w) !! i <> Some (LockedBy h) /\
  (w_locks w !! i = Some (LockedBy h) -> w_locks (unlock h i w) !! i = None) /\
  (forall j, j <> i -> w_locks (unlock h i w) !! j = w_locks w !! j) /\
  (w_locks w !! i <> Some (LockedBy h) -> unlock h i w = w) /\
  w_sigterm (unlock h i w) = w_sigterm w /\ w_atexit (unlock h i w) = w_atexit w.
Proof.
  unfold unlock. destruct (w_locks w !! i) as [[h'|]|] eqn:E.
  - destruct (decide (h' = h)) as [->|Hne]; simpl.
    + rewrite lookup_delete_eq. repeat split; try congruence.
      intros j Hj. apply lookup_delete_ne. congruence.
    + rewrite E. repeat split; congruence.
  - rewrite E. repeat split; congruence.
  - rewrite E. repeat split; congruence.
Qed.

Lemma after_close_locks (w : World) (h : nat) (md : open_mode) (i pos : nat) :
  w_locks (after_close w h md i pos) !! i <> Some (LockedBy h) /\
  (w_locks w !! i = Some (LockedBy h) -> w_locks (after_close w h md i pos) !! i = None) /\
  (forall j, j <> i -> w_locks (after_close w h md i pos) !! j = w_locks w !! j) /\
  (w_locks w !! i <> Some (LockedBy h) ->
   w_locks (after_close w h md i pos) = w_locks w) /\
  w_sigterm (after_close w h md i pos) = w_sigterm w /\
  w_atexit (after_close w h md i pos) = w_atexit w.
Proof.
  unfold after_close.
  destruct (unlock_released h i (set_file h (closed_obj (fobj md i pos "")) w))
    as (H1 & H2 & H3 & H4 & H5 & H6).
  repeat split; try assumption.
  intros Hne. rewrite H4 by exact Hne. reflexivity.
Qed.

Lemma isfile_node (w : World) (f : string) (i : nat) :
  node_at w f = Some (File i) -> isfile w f = true.
Proof. unfold isfile. intros ->. reflexivity. Qed.

(** [close] after a returning [create]. *)
Lemma close_after_create (w w' : World) (m m' : PidFile) :
  create (w, m) = ((w', m'), Ret tt) ->
  exists w'' f h i fo,
    close None true (w', m') = ((w'', m'), Ret tt) /\
    filename m' = Some f /\ fh m' = Some h /\ node_at w' f = Some (File i) /\
    isfile w'' f = false /\
    w_fs w'' = delete (resolve w' f) (w_fs w') /\
    w_files w'' !! h = Some fo /\ f_closed fo = true /\
    w_locks w'' !! i <> Some (LockedBy h) /\
    (lock_pidfile m' = true -> w_locks w'' !! i = None) /\
    w_cwd w'' = w_cwd w'.
Proof.
  intros H.
  destruct (create_ret _ _ _ _ H)
    as (w1 & m1 & w2 & f & p & h & i & pos & _ & _ & Hf & _ & _ & _ & _ & -> & Hn & _ & Ho
        & _ & _ & _ & _ & _ & Hlk & _).
  destruct (logged_fields m1) as (_ & Hlf & _ & _ & Hll & _).
  set (wc := after_close w' h mode_a_plus i 0).
  destruct (after_close_facts w' h mode_a_plus i 0) as (Hfs & Hcwd & _ & _ & Hfiles & _).
  destruct (after_close_locks w' h mode_a_plus i 0) as (Hl1 & Hl2 & _).
  fold wc in Hfs, Hcwd, Hfiles, Hl1, Hl2.
  assert (Hi : isfile wc f = true).
  { rewrite (isfile_same w' wc f Hfs Hcwd). exact (isfile_node _ _ _ Hn). }
  exists (cleaned (Some f) true wc), f, h, i, (closed_obj (fobj mode_a_plus i 0 "")).
  destruct (cleaned_facts (Some f) true wc) as (Hcf & _ & _ & _ & _ & _ & Hrm).
  split.
  { rewrite close_run. cbn [fh with_fh]. rewrite (file_close_run _ _ _ _ _ Ho).
    cbn [fst snd close_outcome filename with_fh]. rewrite Hlf, Hf, logged_with_fh.
    reflexivity. }
  split; [simpl; congruence|]. split; [reflexivity|]. split; [exact Hn|].
  split; [apply Hrm; reflexivity|].
  split.
  { rewrite (cleaned_isfile _ _ Hi). simpl. unfold resolve. rewrite Hfs, Hcwd.
    reflexivity. }
  split; [rewrite Hcf, Hfiles; apply lookup_insert_eq|]. split; [reflexivity|].
  rewrite (cleaned_isfile _ _ Hi). simpl. split; [exact Hl1|].
  split; [|exact Hcwd].
  intros Hlock. apply Hl2, Hlk. cbn [lock_pidfile with_fh] in Hlock. rewrite <- Hll. exact Hlock.
Qed.

(** The locking step of [create] goes through when locking is off, or
    nobody else holds the lock. *)
Lemma create_lock_run (w : World) (m : PidFile) (h i pos : nat) :
  fh m = Some h -> open_on w h mode_a_plus i pos "" ->
  lock_pidfile m = false \/ w_locks w !! i = None
  \/ w_locks w !! i = Some (LockedBy h) ->
  exists w', create_lock (w, m) = ((w', m), Ret tt).
Proof.
  intros Hh Ho Hl. unfold create_lock. mrun.
  destruct (lock_pidfile m) eqn:E; mrun; [|eauto].
  destruct Hl as [Hl|Hl]; [discriminate|].
  rewrite Hh. mrun. rewrite (file_fileno_run _ _ _ _ _ Ho). mrun.
  destruct (flock_free _ _ _ _ _ _ Ho Hl) as (w' & ->). eauto.
Qed.

(** The locking step of [create] when another file object, or another
    process, holds the lock. *)
Lemma create_lock_held (w : World) (m : PidFile) (h h0 i pos : nat) :
  fh m = Some h -> open_on w h mode_a_plus i pos "" ->
  lock_pidfile m = true -> h0 <> h ->
  w_locks w !! i = Some (LockedBy h0) \/ w_locks w !! i = Some LockedElsewhere ->
  create_lock (w, m) =
    ((after_close w h mode_a_plus i pos, logged m),
     Raise (PidFileAlreadyLockedError (OSError EWOULDBLOCK))).
Proof.
  intros Hh Ho Hlk Hne Hl. unfold create_lock. mrun. rewrite Hlk. mrun.
  rewrite Hh. mrun. rewrite (file_fileno_run _ _ _ _ _ Ho). mrun.
  rewrite (flock_held _ _ _ _ _ _ _ Ho Hne Hl). mrun. cbn [is_IOError]. mrun.
  rewrite close_run, Hh, (file_close_run _ _ _ _ _ Ho).
  cbn [fst snd close_outcome]. rewrite cleaned_false. reflexivity.
Qed.

Lemma create_setup_done (w : World) (m : PidFile) :
  _is_setup m = true ->
  create (w, m) = (create_open >>> create_lock >>> check >>> create_write) (w, logged m).
Proof. intros Hs. apply create_after_setup, setup_done, Hs. Qed.

Lemma open_on_fresh (w : World) (h : nat) (md : open_mode) (i pos : nat) (buf : string) :
  open_on w h md i pos buf -> h <> fresh (dom (w_files w)).
Proof.
  intros Ho E. pose proof (fresh_file w) as Hf. rewrite <- E in Hf.
  unfold open_on in Ho. congruence.
Qed.

(** [create] from the point where the file is open, when the lock can be
    taken and the file names no live process. *)
Lemma create_opened_run (w2 : World) (m : PidFile) (h i pos : nat) (p : Z) :
  pid m = Some p -> open_on w2 h mode_a_plus i pos "" ->
  _is_setup m = true ->
  lock_pidfile m = false \/ w_locks w2 !! i = None ->
  names_no_process w2 (data_of w2 i) ->
  exists w',
    (create_lock >>> check >>> create_write) (w2, with_fh (Some h) (logged m))
      = ((w', with_fh (Some h) (logged m)), Ret tt) /\
    data_of w' i = PyInt.format_d p +:+ String newline "" /\
    w_fs w' = w_fs w2 /\ w_cwd w' = w_cwd w2 /\
    w_atexit w' = w_atexit w2 ++ [self_id m] /\
    (lock_pidfile m = true -> w_locks w' !! i = Some (LockedBy h)).
Proof.
  intros Hp Ho Hs Hl Hc.
  destruct (logged_fields m) as (_ & _ & Hls & Hlp & Hll & _ & _ & _ & Hid).
  set (m2 := with_fh (Some h) (logged m)).
  assert (Hfh : fh m2 = Some h) by reflexivity.
  assert (Hsu : _is_setup m2 = true) by (unfold m2; simpl; congruence).
  assert (Hl2 : logged m2 = m2) by apply logged_with_fh.
  assert (Hp2 : pid m2 = Some p) by (unfold m2; simpl; congruence).
  destruct (create_lock_run w2 m2 h i pos Hfh Ho) as (w3 & Hlock).
  { destruct Hl as [Hl|Hl]; [left; unfold m2; simpl; congruence|auto]. }
  destruct (create_lock_facts _ _ _ _ _ _ Hfh Ho Hlock)
    as (_ & Hfi3 & Hfs3 & Hc3 & Hp3 & Hi3 & _ & Hat3 & Hlk1 & _).
  simpl in Hfi3, Hfs3, Hc3, Hp3, Hi3, Hat3, Hlk1.
  assert (Ho3 : open_on w3 h mode_a_plus i pos "").
  { unfold open_on. rewrite Hfi3. exact Ho. }
  assert (Hc3' : names_no_process w3 (data_of w3 i)).
  { unfold data_of, inode_of. rewrite Hi3.
    destruct Hc as [E|(q & Hq & Hk)]; [left; exact E|right].
    exists q. split; [exact Hq|]. rewrite (os_kill_0_same q w2 w3 Hp3). exact Hk. }
  destruct (after_read_facts w3 h mode_a_plus i)
    as (Hfs4 & Hc4 & _ & _ & Hlk4 & _ & Hat4 & _).
  destruct (create_write_facts (after_read w3 h mode_a_plus i) m2 h i
              (text_bytes 16 (data_of w3 i)) p Hfh Hp2
              (open_on_set_file _ _ _ _ _ _))
    as (w5 & Hrun & Hdata & _ & Hfs5 & Hc5 & _ & Hlk5 & _ & Hat5 & _).
  exists w5. split.
  { rewrite (bind_run_ret _ _ _ _ _ Hlock).
    rewrite bind_unfold, (check_held _ _ _ Hsu Hfh), Hl2.
    rewrite (inner_check_free _ _ _ _ _ _ Ho3 Hc3'). exact Hrun. }
  split; [exact Hdata|]. split; [congruence|]. split; [congruence|].
  split; [rewrite Hat5, Hat4, Hat3; unfold m2; simpl; rewrite Hid; reflexivity|].
  intros E. rewrite Hlk5, Hlk4. apply Hlk1. unfold m2. simpl. congruence.
Qed.

(** [create] where nothing lies at the resolved path. *)
Lemma create_fresh_run (w : World) (m : PidFile) (f : string) (p : Z) (r wr : bool) :
  _is_setup m = true -> filename m = Some f -> pid m = Some p ->
  truthy f = true -> node_at w f = None ->
  w_fs w !! posixpath.dirname (resolve w f) = Some (Dir r wr) ->
  lock_pidfile m = false \/ no_stray_locks w ->
  exists w' h i,
    create (w, m) = ((w', with_fh (Some h) (logged m)), Ret tt) /\
    node_at w' f = Some (File i) /\
    file_content w' f = Some (PyInt.format_d p +:+ String newline "") /\
    (forall q, q <> resolve w f -> w_fs w' !! q = w_fs w !! q) /\
    w_atexit w' = w_atexit w ++ [self_id m] /\
    (lock_pidfile m = true -> w_locks w' !! i = Some (LockedBy h)).
Proof.
  intros Hs Hf Hp Ht Hn Hd Hwf.
  destruct (logged_fields m) as (_ & Hlf & _).
  destruct (open_aplus_new f w r wr Ht Hn Hd) as (w2 & Hopen).
  set (h := fresh (dom (w_files w))) in *.
  destruct (open_aplus_facts _ _ _ _ Hopen)
    as (i & pos & Ho & Hn2 & _ & _ & Hcwd & Hprocs & Hlocks & _ & Hat & Hfs
        & [(Hold & _)|(_ & Hi & Hnew & _)]); [congruence|].
  assert (Hdata : data_of w2 i = "") by (unfold data_of; rewrite Hnew; reflexivity).
  destruct (create_opened_run w2 m h i pos p Hp Ho Hs)
    as (w' & Hrun & Hd' & Hfs' & Hc' & Hat' & Hlk').
  { destruct Hwf as [Hwf|Hwf]; [left; exact Hwf|right].
    rewrite Hlocks. apply Hwf. subst i. apply not_elem_of_dom, is_fresh. }
  { left. rewrite Hdata. reflexivity. }
  assert (Hn' : node_at w' f = Some (File i)).
  { rewrite (node_at_same w2 w' f Hfs' Hc'). exact Hn2. }
  exists w', h, i. split.
  { rewrite (create_setup_done _ _ Hs).
    rewrite (bind_run_ret _ _ _ _ _
               (create_open_run _ _ _ _ _ (eq_trans Hlf Hf) Hopen)).
    exact Hrun. }
  split; [exact Hn'|].
  split; [unfold file_content; rewrite Hn', Hd'; reflexivity|].
  split; [intros q Hq; rewrite Hfs'; apply Hfs, Hq|].
  split; [rewrite Hat', Hat; reflexivity|exact Hlk'].
Qed.

Lemma inspected_facts (w : World) (i : nat) :
  w_fs (inspected w i) = w_fs w /\ w_cwd (inspected w i) = w_cwd w /\
  w_inodes (inspected w i) = w_inodes w /\ w_procs (inspected w i) = w_procs w /\
  w_locks (inspected w i) !! i <> Some (LockedBy (fresh (dom (w_files w)))) /\
  (forall j, j <> i -> w_locks (inspected w i) !! j = w_locks w !! j) /\
  w_sigterm (inspected w i) = w_sigterm w /\ w_atexit (inspected w i) = w_atexit w /\
  file_state_of (inspected w i) (fresh (dom (w_files w))) = Closed /\
  (forall h, h <> fresh (dom (w_files w)) ->
     w_files (inspected w i) !! h = w_files w !! h).
Proof.
  unfold inspected. cbv zeta.
  set (h := fresh (dom (w_files w))).
  set (w0 := set_file h (fobj mode_r i 0 "") w).
  set (k := text_bytes 16 (data_of w i)).
  destruct (after_read_facts w0 h mode_r i) as (A1 & A2 & A3 & A4 & A5 & A6 & A7 & A8).
  destruct (after_close_facts (after_read w0 h mode_r i) h mode_r i k)
    as (B1 & B2 & B3 & B4 & B5 & B6).
  destruct (after_close_locks (after_read w0 h mode_r i) h mode_r i k)
    as (C1 & _ & C3 & _ & C5 & C6).
  split; [rewrite B1, A1; reflexivity|]. split; [rewrite B2, A2; reflexivity|].
  split; [rewrite B3, A3; reflexivity|]. split; [rewrite B4, A4; reflexivity|].
  split; [exact C1|].
  split; [intros j Hj; rewrite (C3 j Hj), A5; reflexivity|].
  split; [rewrite C5, A6; reflexivity|]. split; [rewrite C6, A7; reflexivity|].
  split; [exact B6|].
  intros h' Hne. rewrite B5, lookup_insert_ne, (A8 h' Hne) by congruence.
  unfold w0. simpl. apply lookup_insert_ne. congruence.
Qed.

(** [check] by a manager that is set up and holds no file object, where a
    file lies at the resolved path: the outcome by the content of the
    file and the outcome of the probe. *)
Lemma check_fresh_cases (w : World) (m : PidFile) (f : string) (i : nat) :
  _is_setup m = true -> fh m = None -> filename m = Some f ->
  node_at w f = Some (File i) ->
  check (w, m) =
    let pid_str := pid_str_of (universal_newlines (data_of w i)) in
    if negb (truthy pid_str) then ((inspected w i, logged m), Ret tt)
    else match PyInt.int pid_str with
         | None =>
             ((cleaned (Some f) true (inspected w i), logged m),
              Raise (PidFileUnreadableError (ValueError_invalid_literal pid_str)))
         | Some p =>
             ((inspected w i, logged m),
              match snd (os_kill_0 p w) with
              | Ret _ =>
                  Raise (PidFileAlreadyRunningError
                           (inr ("Program already running with pid: "
                                 +:+ PyInt.format_d p)))
              | Raise e =>
                  if is_IOError e then
                    if bool_decide (exn_errno e = Some ESRCH) then Ret tt
                    else Raise (PidFileAlreadyRunningError (inl e))
                  else Raise e
              end)
         end.
Proof.
  intros Hs Hh Hf Hn.
  destruct (logged_fields m) as (_ & Hlf & _).
  rewrite (check_fresh_run _ _ _ _ Hs Hh Hf Hn). cbv zeta.
  set (h := fresh (dom (w_files w))).
  set (w0 := set_file h (fobj mode_r i 0 "") w).
  rewrite (inner_check_run w0 _ h mode_r i 0) by apply open_on_set_file.
  cbv zeta. change (data_of w0 i) with (data_of w i).
  set (k := text_bytes 16 (data_of w i)).
  set (w2 := after_read w0 h mode_r i).
  assert (Ho2 : open_on w2 h mode_r i k "") by apply open_on_set_file.
  assert (Hst : file_state_of (after_close w2 h mode_r i k) h = Closed)
    by apply after_close_facts.
  change (after_close w2 h mode_r i k) with (inspected w i) in *.
  destruct (truthy (pid_str_of (universal_newlines (data_of w i)))); cbn [negb].
  2:{ cbn [fst snd]. rewrite (file_close_run _ _ _ _ _ Ho2). reflexivity. }
  destruct (PyInt.int (pid_str_of (universal_newlines (data_of w i)))) as [p|].
  - rewrite (os_kill_0_same p w w0 eq_refl). unfold probe_outcome.
    destruct (snd (os_kill_0 p w)) as [[]|e].
    + cbn [fst snd]. rewrite (file_close_closed _ _ Hst), logged_idem. reflexivity.
    + destruct (is_IOError e).
      * destruct (bool_decide (exn_errno e = Some ESRCH)); cbn [fst snd].
        -- rewrite (file_close_run _ _ _ _ _ Ho2). reflexivity.
        -- rewrite (file_close_closed _ _ Hst), logged_idem. reflexivity.
      * cbv beta iota. cbn [fst snd]. rewrite (file_close_run _ _ _ _ _ Ho2). reflexivity.
  - cbn [fst snd]. rewrite Hlf, Hf, logged_idem.
    rewrite file_close_closed; [reflexivity|].
    destruct (cleaned_facts (Some f) true (inspected w i)) as (_ & _ & _ & _ & -> & _).
    exact Hst.
Qed.

Lemma same_tree_refl (w : World) : same_tree w w.
Proof. split; reflexivity. Qed.

Lemma same_tree_trans (w1 w2 w3 : World) :
  same_tree w1 w2 -> same_tree w2 w3 -> same_tree w1 w3.
Proof. intros [H1 H2] [H3 H4]. split; congruence. Qed.

Lemma flushed_tree (h : nat) (f : file_obj) (w : World) :
  same_tree w (fst (flushed h f w)).
Proof. unfold flushed. destruct (truthy (f_wbuf f)); split; reflexivity. Qed.

Lemma file_seek_tree (h n : nat) (w : World) :
  same_tree w (fst (file_seek h n w)) /\
  (forall e, snd (file_seek h n w) = Raise e -> is_IOError e || is_ValueError e = true).
Proof.
  unfold file_seek. destruct (file_state_of w h) as [|f e|f]; simpl.
  - split; [apply same_tree_refl|]. intros e [= <-]. reflexivity.
  - split; [apply same_tree_refl|]. intros e' [= <-]. reflexivity.
  - pose proof (flushed_tree h f w) as Hf. destruct (flushed h f w) as [w1 f1].
    split; [exact Hf|]. discriminate.
Qed.

Lemma file_read_tree (h n : nat) (w : World) :
  same_tree w (fst (file_read h n w)) /\
  (forall e, snd (file_read h n w) = Raise e -> is_IOError e || is_ValueError e = true).
Proof.
  unfold file_read. destruct (file_state_of w h) as [|f e|f]; simpl.
  - split; [apply same_tree_refl|]. intros e [= <-]. reflexivity.
  - split; [apply same_tree_refl|]. intros e' [= <-]. reflexivity.
  - pose proof (flushed_tree h f w) as Hf. destruct (flushed h f w) as [w1 f1].
    split; [exact Hf|]. discriminate.
Qed.

Lemma file_close_tree (h : nat) (w : World) :
  same_tree w (fst (file_close h w)) /\
  (forall e, snd (file_close h w) = Raise e -> exists e0, e = OSError e0).
Proof.
  destruct (file_close_facts h w) as (_ & Hfs & Hcwd & _).
  split; [split; assumption|].
  unfold file_close. destruct (file_state_of w h) as [|f e|f]; simpl.
  - discriminate.
  - intros e' [= <-]. eauto.
  - destruct (flushed h f w). discriminate.
Qed.

(** The directory tree after [close]: as before, or less the file at the
    resolved path when [cleanup] is set.  What [close] raises is an
    [OSError]. *)
Lemma close_tree (a : option nat) (c : bool) (w : World) (m : PidFile) :
  w_cwd (fst (fst (close a c (w, m)))) = w_cwd w /\
  (w_fs (fst (fst (close a c (w, m)))) = w_fs w \/
   exists f, c = true /\ filename m = Some f /\ isfile w f = true /\
             w_fs (fst (fst (close a c (w, m)))) = delete (resolve w f) (w_fs w)) /\
  (forall e, snd (close a c (w, m)) = Raise e -> exists e0, e = OSError e0).
Proof.
  assert (Hcl : forall w0, same_tree w w0 ->
            w_cwd (cleaned (filename m) c w0) = w_cwd w /\
            (w_fs (cleaned (filename m) c w0) = w_fs w \/
             exists f, c = true /\ filename m = Some f /\ isfile w f = true /\
                       w_fs (cleaned (filename m) c w0) = delete (resolve w f) (w_fs w))).
  { intros w0 [Hfs Hcwd]. unfold cleaned. destruct (filename m) as [f|]; [|auto].
    rewrite (isfile_same w w0 f Hfs Hcwd).
    destruct (truthy f && isfile w f && c) eqn:E; [|auto].
    apply andb_true_iff in E as [E ->]. apply andb_true_iff in E as [_ Hi].
    split; [exact Hcwd|]. right. exists f. repeat split; auto.
    simpl. unfold resolve. rewrite Hfs, Hcwd. reflexivity. }
  rewrite close_run.
  destruct (match a with Some h => Some h | None => fh m end) as [h|]; cbn [fst snd].
  - destruct (file_close_tree h w) as (Ht & Hr).
    destruct (Hcl _ Ht) as (H1 & H2). split; [exact H1|]. split; [exact H2|].
    intros e. destruct (snd (file_close h w)) as [[]|e'] eqn:E; [discriminate|].
    destruct (Hr e' eq_refl) as (e0 & ->). cbn [close_outcome is_IOError exn_errno andb].
    destruct (bool_decide _); [discriminate|]. intros [= <-]. eauto.
  - destruct (Hcl _ (same_tree_refl w)) as (H1 & H2).
    split; [exact H1|]. split; [exact H2|]. discriminate.
Qed.

Lemma handler_unreadable_tree {A} (w w1 : World) (m : PidFile) (h : nat) (exc : exn) :
  same_tree w w1 ->
  exists (s' : St) (e : exn),
    bind (close (Some h) true) (fun _ => raise (A:=A) (PidFileUnreadableError exc))
      (w1, m) = (s', Raise e) /\
    tree_kept_or_unreadable w m s' (Raise e).
Proof.
  intros [Hfs Hcwd]. rewrite bind_unfold.
  destruct (close_tree (Some h) true w1 m) as (Hc & Ht & Hr).
  assert (Hdel : forall f, isfile w1 f = true ->
            delete (resolve w1 f) (w_fs w1) = delete (resolve w f) (w_fs w)).
  { intros f _. unfold resolve. rewrite Hfs, Hcwd. reflexivity. }
  destruct (close (Some h) true (w1, m)) as [[w2 m2] [[]|e]] eqn:E;
    cbn [fst snd] in *.
  - eexists _, _. split; [reflexivity|]. split; [simpl; congruence|].
    destruct Ht as [Ht|(f & _ & Hf & Hi & Ht)]; [left; simpl; congruence|].
    right. exists f, (PidFileUnreadableError exc).
    split; [exact Hf|]. split; [rewrite <- (isfile_same w w1 f Hfs Hcwd); exact Hi|].
    split; [simpl; rewrite Ht; apply Hdel, Hi|].
    split; [reflexivity|intros x; discriminate].
  - eexists _, _. split; [reflexivity|]. split; [simpl; congruence|].
    destruct (Hr e eq_refl) as (e0 & ->).
    destruct Ht as [Ht|(f & _ & Hf & Hi & Ht)]; [left; simpl; congruence|].
    right. exists f, (OSError e0).
    split; [exact Hf|]. split; [rewrite <- (isfile_same w w1 f Hfs Hcwd); exact Hi|].
    split; [simpl; rewrite Ht; apply Hdel, Hi|].
    split; [reflexivity|intros x; discriminate].
Qed.

Lemma handler_running_tree {A} (w w1 : World) (m : PidFile) (h : nat) (x : exn + string) :
  same_tree w w1 ->
  exists (s' : St) (e : exn),
    bind (close (Some h) false) (fun _ => raise (A:=A) (PidFileAlreadyRunningError x))
      (w1, m) = (s', Raise e) /\
    same_tree w (fst s').
Proof.
  intros [Hfs Hcwd]. rewrite bind_unfold.
  destruct (close_tree (Some h) false w1 m) as (Hc & Ht & _).
  assert (Hfs' : w_fs (fst (fst (close (Some h) false (w1, m)))) = w_fs w1).
  { destruct Ht as [Ht|(f & Hd & _)]; [exact Ht|discriminate]. }
  destruct (close (Some h) false (w1, m)) as [[w2 m2] [[]|e]];
    cbn [fst snd] in *; eexists _, _; (split; [reflexivity|]); split; simpl; congruence.
Qed.

Lemma inner_check_tree (w : World) (m : PidFile) (h : nat) (s' : St)
    (r : result unit) :
  inner_check h (w, m) = (s', r) -> tree_kept_or_unreadable w m s' r.
Proof.
  assert (Hkept : forall s0 r0, same_tree w (fst s0) ->
            tree_kept_or_unreadable w m s0 r0).
  { intros s0 r0 [H1 H2]. split; [exact H2|left; exact H1]. }
  unfold inner_check. rewrite bind_unfold, try_except_unfold, bind_unfold, os_unfold.
  destruct (file_seek_tree h 0 w) as (Ht1 & Hr1).
  destruct (file_seek h 0 w) as [w1 [[]|e]]; cbn [fst snd] in *.
  2:{ rewrite (Hr1 e eq_refl).
      destruct (handler_unreadable_tree (A:=option Z) w w1 m h e Ht1)
        as (s2 & e2 & -> & H2).
      intros [= <- <-]. exact H2. }
  rewrite bind_unfold, os_unfold.
  destruct (file_read_tree h 16 w1) as (Ht2 & Hr2).
  pose proof (same_tree_trans _ _ _ Ht1 Ht2) as Ht.
  destruct (file_read h 16 w1) as [w2 [s|e]]; cbn [fst snd] in *.
  2:{ rewrite (Hr2 e eq_refl).
      destruct (handler_unreadable_tree (A:=option Z) w w2 m h e Ht)
        as (s2 & e2 & -> & H2).
      intros [= <- <-]. exact H2. }
  destruct (negb (truthy (strip (before newline s)))).
  { unfold ret. intros [= <- <-]. apply Hkept, Ht. }
  destruct (PyInt.int (strip (before newline s))) as [p|].
  2:{ unfold raise at 1. cbn [is_IOError is_ValueError orb].
      destruct (handler_unreadable_tree (A:=option Z) w w2 m h
                  (ValueError_invalid_literal (strip (before newline s))) Ht)
        as (s2 & e2 & -> & H2).
      intros [= <- <-]. exact H2. }
  unfold ret at 1. rewrite bind_unfold, try_except_unfold, bind_unfold, os_unfold.
  pose proof (os_kill_0_world p w2) as Hk.
  destruct (os_kill_0 p w2) as [wk [[]|e]]; cbn [fst snd] in Hk; subst wk.
  - unfold ret at 1.
    destruct (handler_running_tree (A:=unit) w w2 m h
                (inr ("Program already running with pid: " +:+ PyInt.format_d p)) Ht)
      as (s2 & e2 & -> & H2).
    intros [= <- <-]. apply Hkept, H2.
  - destruct (is_IOError e).
    + destruct (bool_decide (exn_errno e = Some ESRCH)).
      * unfold ret. intros [= <- <-]. apply Hkept, Ht.
      * destruct (handler_running_tree (A:=bool) w w2 m h (inl e) Ht)
          as (s2 & e2 & -> & H2).
        intros [= <- <-]. apply Hkept, H2.
    + intros [= <- <-]. apply Hkept, Ht.
Qed.

(** The first [check] of a manager that holds no file object, where a
    file with the content [c] lies at the resolved path. *)
Lemma check_inspects (w w1 : World) (m m1 : PidFile) (f c : string) :
  _setup (w, m) = ((w1, m1), Ret tt) -> fh m = None -> filename m1 = Some f ->
  file_content w1 f = Some c ->
  exists i,
    node_at w1 f = Some (File i) /\ data_of w1 i = c /\
    check (w, m) = check (w1, m1) /\
    _is_setup m1 = true /\ fh m1 = None /\
    w_fs (inspected w1 i) = w_fs w1 /\
    file_content (inspected w1 i) f = Some c /\
    (forall h, w_files w1 !! h = None -> file_state_of (inspected w1 i) h = Closed).
Proof.
  intros Hsetup Hh Hf Hc.
  destruct (check_after_setup _ _ _ _ Hsetup) as (Hs & Hck).
  destruct (setup_config _ _ _ _ _ Hsetup) as (_ & Hcf).
  destruct (file_content_node _ _ _ Hc) as (i & Hn & Hd & Hi).
  destruct (inspected_facts w1 i) as (Hfs & Hcwd & Hino & _ & _ & _ & _ & _ & Hst & Hoth).
  exists i. repeat (split; [first [assumption|congruence]|]).
  split; [rewrite <- Hc; apply file_content_same; assumption|].
  intros h Hnone. destruct (decide (h = fresh (dom (w_files w1)))) as [->|Hne].
  - exact Hst.
  - unfold file_state_of. rewrite (Hoth h Hne), Hnone. reflexivity.
Qed.

Lemma closed_state (w : World) (h : nat) (fo : file_obj) :
  file_state_of w h = Closed -> w_files w !! h = Some fo -> f_closed fo = true.
Proof.
  unfold file_state_of. intros H Hf. rewrite Hf in H.
  destruct (f_closed fo); [reflexivity|]. destruct (f_fault fo); discriminate.
Qed.

Lemma cleaned_idem (f : option string) (c : bool) (w : World) :
  cleaned f c (cleaned f c w) = cleaned f c w.
Proof.
  destruct c; [|rewrite !cleaned_false; reflexivity].
  destruct f as [p|]; [|reflexivity].
  destruct (cleaned_facts (Some p) true w) as (_ & _ & _ & _ & _ & _ & Hrm).
  unfold cleaned at 1. rewrite (Hrm p eq_refl eq_refl), andb_false_r. reflexivity.
Qed.

(** *** Failing setup *)

Lemma makedirs_raise (p : string) (w w' : World) (e : exn) :
  os_makedirs p w = (w', Raise e) -> exists e0, e = OSError e0.
Proof.
  unfold os_makedirs. destruct (truthy p); [|intros [= _ <-]; eauto].
  assert (Hfold : forall l acc e1,
            fold_left mkdir_missing l acc = Raise e1 ->
            (exists e0, e1 = OSError e0) \/ acc = Raise e1).
  { induction l as [|d l IH]; intros acc e1; simpl; [auto|].
    intros H. destruct (IH _ _ H) as [Hl|Hl]; [auto|].
    destruct acc as [fs|e2]; simpl in Hl; [|auto].
    destruct (fs !! d) as [[|]|]; try discriminate. injection Hl as <-. eauto. }
  destruct (fold_left _ _ _) as [fs|e1] eqn:E.
  - destruct (fs !! _); [|discriminate]. intros [= _ <-]. eauto.
  - intros [= _ <-]. destruct (Hfold _ _ _ E) as [Hl|Hl]; [exact Hl|discriminate].
Qed.

Lemma make_filename_raise (w : World) (m : PidFile) (s' : St) (e : exn) :
  _make_filename (w, m) = (s', Raise e) ->
  snd s' = m /\ w_sigterm (fst s') = w_sigterm w /\ is_IOError e = true.
Proof.
  unfold _make_filename. mrun.
  set (D := match piddir m with None => _ | Some d => d end).
  destruct (negb (isdir w D)).
  - mrun. destruct (os_makedirs D w) as [w1 [[]|e1]] eqn:E.
    + destruct (makedirs_cwd _ _ _ _ E) as (_ & Hsig). mrun.
      destruct (negb (access_R_OK w1 D)); [intros [= <- <-]; auto|].
      destruct (negb (access_W_OK w1 D)); [intros [= <- <-]; auto|discriminate].
    + destruct (makedirs_cwd _ _ _ _ E) as (_ & Hsig).
      destruct (makedirs_raise _ _ _ _ E) as (e0 & ->).
      intros [= <- <-]. auto.
  - mrun.
    destruct (negb (access_R_OK w D)); [intros [= <- <-]; auto|].
    destruct (negb (access_W_OK w D)); [intros [= <- <-]; auto|discriminate].
Qed.

Lemma before_take_digits (D : string) : forall (rest : string) (n : nat),
  is_digits D = true -> (String.length D <= n)%nat ->
  before newline (take n (D +:+ String newline rest)) = D.
Proof.
  induction D as [|a D IH]; intros rest n HD Hn.
  - rewrite app_nil_l. destruct n; [reflexivity|]. cbn [take before].
    rewrite Ascii.eqb_refl. reflexivity.
  - cbn [is_digits] in HD. apply andb_true_iff in HD as [Ha HD].
    apply bool_decide_eq_true in Ha. destruct (digit_plain a Ha) as (_ & Hnl & _).
    destruct n as [|n]; [simpl in Hn; lia|]. rewrite app_cons. cbn [take before].
    rewrite Hnl, IH by (simpl in Hn; auto; lia). reflexivity.
Qed.

Lemma format_d_fuel (n : Z) :
  0 <= n -> 0 <= n < 10 ^ Z.of_nat (S (Z.to_nat (Z.log2 n))).
Proof.
  intros Hn. split; [lia|]. destruct (Z.eq_dec n 0) as [->|Hnz].
  - apply Z.pow_pos_nonneg; lia.
  - destruct (Z.log2_spec n) as [_ Hlt]; [lia|].
    eapply Z.lt_le_trans; [exact Hlt|].
    pose proof (Z.log2_nonneg n).
    replace (Z.of_nat (S (Z.to_nat (Z.log2 n)))) with (Z.succ (Z.log2 n)) by lia.
    apply Z.pow_le_mono_l. lia.
Qed.

(** *** Paths that are absolute *)

Lemma startswith_sep (s : string) :
  startswith s "/" = true <-> exists t, s = String sep t.
Proof.
  unfold startswith. destruct s as [|a s]; cbn [String.prefix].
  - split; [discriminate|intros [t H]; discriminate].
  - destruct (ascii_dec "/" a) as [<-|Hne].
    + split; [eauto|]. intros _. destruct s; reflexivity.
    + split; [discriminate|]. intros [t [= ->]]. contradiction Hne. reflexivity.
Qed.

Lemma normpath_isabs (p : string) :
  posixpath.isabs p = true -> posixpath.isabs (posixpath.normpath p) = true.
Proof.
  unfold posixpath.isabs. intros Hp. unfold posixpath.normpath.
  destruct (String.eqb p "") eqn:E; [apply String.eqb_eq in E; subst; discriminate|].
  rewrite Hp.
  set (k := if _ && _ then 2%nat else 1%nat).
  assert (Hk : exists k', k = S k') by (unfold k; destruct (_ && _); eauto).
  destruct Hk as (k' & ->). cbn [repeat]. rewrite app_cons.
  cbn [truthy String.eqb negb]. apply startswith_sep. eauto.
Qed.

Lemma join_isabs (a b : string) :
  posixpath.isabs a = true -> posixpath.isabs (posixpath.join a b) = true.
Proof.
  unfold posixpath.isabs, posixpath.join. intros Ha.
  destruct (startswith b "/") eqn:Hb; [exact Hb|].
  apply startswith_sep in Ha as (t & ->). apply startswith_sep.
  destruct (_ || _); rewrite app_cons; eauto.
Qed.

Lemma abspath_isabs (cwd p : string) :
  posixpath.isabs cwd = true -> posixpath.isabs (posixpath.abspath cwd p) = true.
Proof.
  intros Hc. unfold posixpath.abspath. destruct (posixpath.isabs p) eqn:Hp.
  - apply normpath_isabs, Hp.
  - apply normpath_isabs, join_isabs, Hc.
Qed.

Lemma startswith_app (s t : string) :
  startswith s "/" = true -> startswith (s +:+ t) "/" = true.
Proof.
  intros H. apply startswith_sep in H as (x & ->). apply startswith_sep.
  rewrite app_cons. eauto.
Qed.

#[export] Instance same_atexit_preorder : PreOrder same_atexit.
Proof.
  split.
  - intros s. split; reflexivity.
  - intros s1 s2 s3 [H1 H2] [H3 H4]. split; congruence.
Qed.

Lemma flushed_atexit (h : nat) (f : file_obj) (w : World) :
  w_atexit (fst (flushed h f w)) = w_atexit w.
Proof. unfold flushed. destruct (truthy _); reflexivity. Qed.

Lemma keeps_atexit_makedirs (p : string) : keeps_atexit (os_makedirs p).
Proof.
  intros w. unfold os_makedirs. destruct (truthy p); [|reflexivity].
  destruct (fold_left _ _ _); [|reflexivity]. destruct (_ !! _); reflexivity.
Qed.

Lemma keeps_atexit_remove (p : string) : keeps_atexit (os_remove p).
Proof. intros w. unfold os_remove. destruct (node_at w p) as [[]|]; reflexivity. Qed.

Lemma keeps_atexit_open (p : string) (md : open_mode) : keeps_atexit (open p md).
Proof.
  intros w. unfold open. destruct (node_at w p) as [[]|]; try reflexivity.
  destruct md; [reflexivity|]. destruct (truthy p); [|reflexivity].
  destruct (w_fs w !! _) as [[]|]; reflexivity.
Qed.

Lemma keeps_atexit_close (h : nat) : keeps_atexit (file_close h).
Proof.
  intros w. unfold file_close. destruct (file_state_of w h) as [|f e|f].
  - reflexivity.
  - cbn [fst]. destruct (unlock_released h (f_ino f) (set_file h (closed_obj f) w))
      as (_ & _ & _ & _ & _ & ->). reflexivity.
  - pose proof (flushed_atexit h f w) as Hf. destruct (flushed h f w) as [w1 f1].
    cbn [fst] in *.
    destruct (unlock_released h (f_ino f) (set_file h (closed_obj f1) w1))
      as (_ & _ & _ & _ & _ & ->). exact Hf.
Qed.

Lemma keeps_atexit_seek (h n : nat) : keeps_atexit (file_seek h n).
Proof.
  intros w. unfold file_seek. destruct (file_state_of w h) as [|f e|f]; try reflexivity.
  pose proof (flushed_atexit h f w) as Hf. destruct (flushed h f w) as [w1 f1]. exact Hf.
Qed.

Lemma keeps_atexit_read (h n : nat) : keeps_atexit (file_read h n).
Proof.
  intros w. unfold file_read. destruct (file_state_of w h) as [|f e|f]; try reflexivity.
  pose proof (flushed_atexit h f w) as Hf. destruct (flushed h f w) as [w1 f1]. exact Hf.
Qed.

Lemma keeps_atexit_truncate (h : nat) : keeps_atexit (file_truncate h).
Proof.
  intros w. unfold file_truncate.
  destruct (file_state_of w h) as [|f e|f]; try reflexivity.
  destruct (f_mode f); [reflexivity|].
  pose proof (flushed_atexit h f w) as Hf. destruct (flushed h f w) as [w1 f1]. exact Hf.
Qed.

Lemma keeps_atexit_write (h : nat) (s : string) : keeps_atexit (file_write h s).
Proof.
  intros w. unfold file_write.
  destruct (file_state_of w h) as [|f e|f]; try reflexivity; destruct (f_mode f);
    reflexivity.
Qed.

Lemma keeps_atexit_flush (h : nat) : keeps_atexit (file_flush h).
Proof.
  intros w. unfold file_flush. destruct (file_state_of w h) as [|f e|f].
  - reflexivity.
  - destruct (truthy _); reflexivity.
  - apply flushed_atexit.
Qed.

Lemma keeps_atexit_fileno (h : nat) : keeps_atexit (file_fileno h).
Proof. intros w. unfold file_fileno. destruct (file_state_of w h); reflexivity. Qed.

Lemma keeps_atexit_flock (h : nat) : keeps_atexit (fcntl_flock h).
Proof.
  intros w. unfold fcntl_flock. destruct (file_state_of w h) as [|f e|f]; try reflexivity.
  destruct (w_locks w !! f_ino f) as [[h'|]|]; try reflexivity.
  destruct (decide (h' = h)); reflexivity.
Qed.

Lemma keeps_atexit_fchmod (h : nat) (md : Z) : keeps_atexit (os_fchmod h md).
Proof. intros w. unfold os_fchmod. destruct (file_state_of w h); reflexivity. Qed.

Lemma keeps_atexit_fchown (h : nat) (u g : Z) : keeps_atexit (os_fchown h u g).
Proof. intros w. unfold os_fchown. destruct (file_state_of w h); reflexivity. Qed.

Lemma keeps_atexit_kill (p : Z) : keeps_atexit (os_kill_0 p).
Proof. intros w. rewrite os_kill_0_world. reflexivity. Qed.

Lemma keeps_atexit_getsignal : keeps_atexit signal_getsignal_SIGTERM.
Proof. intros w. reflexivity. Qed.

Lemma keeps_atexit_signal (f : callable) : keeps_atexit (signal_signal_SIGTERM f).
Proof. intros w. reflexivity. Qed.

Create HintDb atexit discriminated.
#[export] Hint Resolve keeps_atexit_makedirs keeps_atexit_remove keeps_atexit_open
  keeps_atexit_close keeps_atexit_seek keeps_atexit_read keeps_atexit_truncate
  keeps_atexit_write keeps_atexit_flush keeps_atexit_fileno keeps_atexit_flock
  keeps_atexit_fchmod keeps_atexit_fchown keeps_atexit_kill keeps_atexit_getsignal
  keeps_atexit_signal : atexit.

Lemma respects_os_atexit {A} (c : M World A) :
  keeps_atexit c -> respects same_atexit (os c).
Proof.
  intros Hc [w m] s' r. rewrite os_unfold. specialize (Hc w).
  destruct (c w) as [w' r']. intros [= <- _]. split; [exact Hc|reflexivity].
Qed.

Lemma same_atexit_logged (w : World) (m : PidFile) : same_atexit (w, m) (w, logged m).
Proof. split; [reflexivity|]. apply logged_fields. Qed.

(** One step of a proof that a method leaves the registry alone. *)
Ltac atexit_step :=
  lazymatch goal with
  | |- respects _ logger_debug => apply respects_logger_debug, same_atexit_logged
  | |- respects _ (os _) => apply respects_os_atexit; auto with atexit
  | |- respects _ (set_self _) =>
      apply respects_set_self; intros ? ?; split; reflexivity
  | |- _ => respects_step
  end.

Lemma respects_atexit_close (a : option nat) (c : bool) :
  respects same_atexit (close a c).
Proof. unfold close. repeat atexit_step. Qed.

Lemma respects_atexit_inner_check (h : nat) : respects same_atexit (inner_check h).
Proof.
  unfold inner_check. repeat first [ apply respects_atexit_close | atexit_step ].
Qed.

Lemma respects_atexit_setup : respects same_atexit _setup.
Proof.
  unfold _setup, _make_filename, _register_term_signal. repeat atexit_step.
Qed.

Lemma respects_atexit_check : respects same_atexit check.
Proof.
  unfold check, with_open.
  repeat first [ apply respects_atexit_setup | apply respects_atexit_inner_check
               | atexit_step ].
Qed.

Lemma registers_bind {A} (c : M St A) (k : A -> M St unit) :
  respects same_atexit c -> (forall a, registers_close (k a)) ->
  registers_close (bind c k).
Proof.
  intros Hc Hk s s' r. rewrite bind_unfold.
  destruct (c s) as [s1 [a|e]] eqn:E.
  - intros H. destruct (Hc _ _ _ E) as [H1 H2]. specialize (Hk a _ _ _ H).
    rewrite H1, H2 in Hk. exact Hk.
  - intros [= <- <-]. apply (Hc _ _ _ E).
Qed.

Lemma registers_last :
  registers_close (let* m := self in os (atexit_register_close (self_id m))).
Proof. intros [w m] s' r. mrun. intros [= <- <-]. reflexivity. Qed.

Lemma registers_create : registers_close create.
Proof.
  unfold create, self_fh.
  repeat first
    [ apply registers_last
    | apply registers_bind;
      [ repeat first [ apply respects_atexit_setup | apply respects_atexit_check
                     | apply respects_atexit_close | atexit_step ]
      | intros ? ] ].
Qed.

Lemma open_raise (f : string) (md : open_mode) (w w' : World) (e : exn) :
  open f md w = (w', Raise e) -> w' = w /\ exists e0, e = OSError e0.
Proof.
  unfold open. destruct (node_at w f) as [[rd wr|i]|].
  - intros [= <- <-]. eauto.
  - destruct (alloc_file _ _ _ _). discriminate.
  - destruct md; [intros [= <- <-]; eauto|].
    destruct (truthy f); [|intros [= <- <-]; eauto].
    destruct (w_fs w !! _) as [[|]|]; intros [= <- <-]; eauto.
Qed.

#[export] Instance same_files_preorder : PreOrder same_files.
Proof.
  split.
  - intros s. repeat split.
  - intros s1 s2 s3 (H1 & H2 & H3) (H4 & H5 & H6). repeat split; congruence.
Qed.

Lemma respects_files_makedirs (p : string) : respects same_files (os (os_makedirs p)).
Proof.
  intros [w m] s' r. rewrite os_unfold. unfold os_makedirs.
  destruct (truthy p); [|intros [= <- _]; repeat split].
  destruct (fold_left _ _ _); [|intros [= <- _]; repeat split].
  destruct (_ !! _); intros [= <- _]; repeat split.
Qed.

Lemma respects_files_setup : respects same_files _setup.
Proof.
  unfold _setup, _make_filename, _register_term_signal.
  repeat first
    [ apply respects_files_makedirs
    | apply respects_logger_debug; intros ? ?; repeat split
    | apply respects_set_self; intros ? ?; repeat split
    | match goal with
      | |- respects _ (os signal_getsignal_SIGTERM) =>
          intros [? ?] ? ? [= <- _]; repeat split
      | |- respects _ (os (signal_signal_SIGTERM _)) =>
          intros [? ?] ? ? [= <- _]; repeat split
      end
    | respects_step ].
Qed.

Lemma cleaned_locks (f : option string) (c : bool) (w : World) :
  w_locks (cleaned f c w) = w_locks w.
Proof.
  unfold cleaned. destruct f; [|reflexivity]. destruct (_ && _); reflexivity.
Qed.

(** [create] and then [close] leave no lock on an inode that does not
    exist, if there was none. *)
Lemma create_close_no_stray_locks (w w' : World) (m m' : PidFile) (c : bool) :
  create (w, m) = ((w', m'), Ret tt) -> no_stray_locks w ->
  no_stray_locks (fst (fst (close None c (w', m')))).
Proof.
  intros H Hwf.
  destruct (create_ret _ _ _ _ H)
    as (w1 & m1 & w2 & f & p & h & i & pos & Hsetup & _ & Hf & _ & Hopen & _ & _ & -> & Hn
        & Hd & Ho & _ & _ & _ & _ & _ & _ & _ & Hlk & _ & _ & _ & Hino & _ & Hl2 & Hcase).
  destruct (respects_files_setup _ _ _ Hsetup) as (Hi1 & Hl1 & _).
  simpl in Hi1, Hl1.
  rewrite close_run. cbn [fh with_fh]. rewrite (file_close_run _ _ _ _ _ Ho).
  cbn [fst].
  destruct (cleaned_facts (filename (with_fh (Some h) (logged m1))) c
              (after_close w' h mode_a_plus i 0)) as (_ & _ & Hci & _).
  destruct (after_close_facts w' h mode_a_plus i 0) as (_ & _ & Hai & _).
  destruct (after_close_locks w' h mode_a_plus i 0) as (_ & _ & Hal & _).
  assert (Hlisted : w_inodes w' !! i <> None).
  { intros E. unfold data_of, inode_of in Hd. rewrite E in Hd. simpl in Hd.
    symmetry in Hd. apply app_eq_nil in Hd as [_ Hd]. discriminate. }
  intros j Hj. rewrite Hci, Hai in Hj.
  assert (Hji : j <> i) by congruence.
  rewrite cleaned_locks, (Hal j Hji), (Hlk j Hji), Hl2, Hl1. apply Hwf.
  rewrite (Hino j Hji) in Hj. rewrite <- Hi1.
  destruct Hcase as [(_ & _ & E)|(_ & _ & _ & E)].
  - rewrite <- E. exact Hj.
  - rewrite <- (E j Hji). exact Hj.
Qed.

Lemma no_locks_no_stray (w : World) : w_locks w = ∅ -> no_stray_locks w.
Proof. intros E j _. rewrite E. apply lookup_empty. Qed.

(** ** The properties *)

(** X1.  A setup that fails.  [_setup] can only fail while it resolves
    the path, with an [OSError] or [IOError] and never a [PidFileError];
    the manager is then not marked as set up and has no resolved path (so
    the next call tries again), although the process ID is already
    stored; and the SIGTERM disposition is untouched. *)
Theorem X1_setup_failure (w w' : World) (m m' : PidFile) (e : exn) :
  _setup (w, m) = ((w', m'), Raise e) ->
  _is_setup m = false /\ filename m = None /\
  _is_setup m' = false /\ filename m' = None /\ pid m' = Some (w_pid w) /\
  is_IOError e = true /\ is_PidFileError e = false /\
  w_sigterm w' = w_sigterm w.
Proof.
  intros H. destruct (_is_setup m) eqn:Hs.
  { rewrite (setup_done _ _ Hs) in H. discriminate. }
  destruct (logged_fields m) as (_ & Hlf & Hls & _).
  revert H. unfold _setup. mrun. rewrite Hs. cbn [negb]. mrun.
  rewrite logger_debug_run. mrun. rewrite Hlf.
  destruct (filename m) as [f|] eqn:Hf; mrun; [discriminate|].
  destruct (_make_filename (w, with_pid (Some (w_pid w)) (logged m)))
    as [[w1 m1] [f|e1]] eqn:E; mrun.
  - rewrite register_term_signal_run. discriminate.
  - destruct (make_filename_raise _ _ _ _ E) as (Hm & Hsig & Hio).
    simpl in Hm, Hsig. subst m1. intros [= <- <- <-].
    split; [reflexivity|]. split; [reflexivity|].
    split; [cbn [_is_setup with_pid]; rewrite Hls; exact Hs|].
    split; [cbn [filename with_pid]; exact Hlf|].
    split; [reflexivity|]. split; [exact Hio|].
    split; [destruct e1; try discriminate; reflexivity|exact Hsig].
Qed.

Lemma X1_setup_failure_witness :
  _setup (denied_world, demo_manager)
    = ((fst denied_state, snd denied_state),
       Raise (IOError_msg "Pid file directory '/var/run/' cannot be read")) /\
  _is_setup (snd denied_state) = false /\ filename (snd denied_state) = None /\
  pid (snd denied_state) = Some 4242 /\
  w_sigterm (fst denied_state) = w_sigterm denied_world.
Proof.
  assert (H : _setup (denied_world, demo_manager)
              = ((fst denied_state, snd denied_state),
                 Raise (IOError_msg "Pid file directory '/var/run/' cannot be read")))
    by (vm_compute; reflexivity).
  split; [exact H|].
  destruct (X1_setup_failure _ _ _ _ _ H) as (_ & _ & H1 & H2 & H3 & _ & _ & H4).
  auto.
Defined.

(** X2.  A directory without access.  At the first setup, when the
    directory of the PID file exists and [os.access] denies reading it,
    [_setup] raises the [IOError] that says so; when reading is granted
    and writing denied, the one that says that; the world is unchanged
    and the manager is not set up. *)
Theorem X2_setup_directory_denied (w : World) (m : PidFile) (D : string) :
  _is_setup m = false -> filename m = None ->
  D = match piddir m with
      | None => if isdir w DEFAULT_PID_DIR && negb (force_tmpdir m)
                then DEFAULT_PID_DIR else w_tempdir w
      | Some d => d
      end ->
  isdir w D = true ->
  (access_R_OK w D = false ->
   _setup (w, m)
     = ((w, at_make_filename w m),
        Raise (IOError_msg ("Pid file directory '" +:+ D +:+ "' cannot be read")))) /\
  (access_R_OK w D = true -> access_W_OK w D = false ->
   _setup (w, m)
     = ((w, at_make_filename w m),
        Raise (IOError_msg
                 ("Pid file directory '" +:+ D +:+ "' cannot be written to")))).
Proof.
  intros Hs Hf HD Hd.
  destruct (logged_fields m) as (_ & Hlf & _).
  destruct (at_make_filename_hints w m) as (_ & Hp & _ & Ht).
  assert (Hrun : forall e,
            _make_filename (w, at_make_filename w m) = ((w, at_make_filename w m), Raise e) ->
            _setup (w, m) = ((w, at_make_filename w m), Raise e)).
  { intros e E. unfold _setup. mrun. rewrite Hs. cbn [negb]. mrun.
    rewrite logger_debug_run. mrun. rewrite Hlf, Hf. mrun.
    change (with_pid (Some (w_pid w)) (logged m)) with (at_make_filename w m).
    rewrite E. reflexivity. }
  split.
  - intros Hr. apply Hrun. unfold _make_filename. mrun. rewrite Hp, Ht, <- HD, Hd.
    cbn [negb]. mrun. rewrite Hr. reflexivity.
  - intros Hr Hw. apply Hrun. unfold _make_filename. mrun. rewrite Hp, Ht, <- HD, Hd.
    cbn [negb]. mrun. rewrite Hr, Hw. reflexivity.
Qed.

Lemma X2_setup_directory_denied_witness :
  _is_setup demo_manager = false /\ filename demo_manager = None /\
  isdir denied_world "/var/run/" = true /\ access_R_OK denied_world "/var/run/" = false /\
  _setup (denied_world, demo_manager)
    = ((denied_world, at_make_filename denied_world demo_manager),
       Raise (IOError_msg ("Pid file directory '" +:+ "/var/run/" +:+ "' cannot be read"))).
Proof.
  assert (H1 : _is_setup demo_manager = false) by reflexivity.
  assert (H2 : filename demo_manager = None) by reflexivity.
  assert (H3 : "/var/run/"%string
               = match piddir demo_manager with
                 | None => if isdir denied_world DEFAULT_PID_DIR
                                && negb (force_tmpdir demo_manager)
                           then DEFAULT_PID_DIR else w_tempdir denied_world
                 | Some d => d
                 end) by (vm_compute; reflexivity).
  assert (H4 : isdir denied_world "/var/run/" = true) by (vm_compute; reflexivity).
  assert (H5 : access_R_OK denied_world "/var/run/" = false) by (vm_compute; reflexivity).
  repeat (split; [assumption|]).
  exact (proj1 (X2_setup_directory_denied denied_world demo_manager "/var/run/"
                  H1 H2 H3 H4) H5).
Defined.

(** X3.  The resolved path is absolute.  With an absolute working
    directory, as [os.getcwd()] gives it, the path that the first setup
    resolves is absolute, whatever the hints are; so what it names does
    not depend on the working directory: [abspath] of it is [normpath] of
    it from every directory. *)
Theorem X3_resolved_path_absolute (w w' : World) (m m' : PidFile) :
  _setup (w, m) = ((w', m'), Ret tt) ->
  _is_setup m = false -> filename m = None ->
  posixpath.isabs (w_cwd w) = true ->
  exists f,
    filename m' = Some f /\ posixpath.isabs f = true /\
    (forall cwd, posixpath.abspath cwd f = posixpath.normpath f).
Proof.
  intros H Hs Hf Hc.
  destruct (setup_first _ _ _ H Hs Hf) as (f & w1 & Hmf & E).
  injection E as -> ->. exists f. split; [reflexivity|].
  destruct (make_filename_ret _ _ _ _ Hmf) as (D & _ & _ & _ & _ & _ & _ & ->).
  assert (Ha : posixpath.isabs
                 (posixpath.abspath (w_cwd w)
                    (posixpath.join D (spec_base_name (w_argv0 w) (at_make_filename w m))))
               = true) by (apply abspath_isabs, Hc).
  split; [exact Ha|]. intros cwd. unfold posixpath.abspath at 1. rewrite Ha.
  reflexivity.
Qed.

Lemma X3_resolved_path_absolute_witness :
  _setup (demo_world, demo_manager) = ((fst demo_setup, snd demo_setup), Ret tt) /\
  posixpath.isabs (w_cwd demo_world) = true /\
  exists f, filename (snd demo_setup) = Some f /\ posixpath.isabs f = true.
Proof.
  assert (H : _setup (demo_world, demo_manager)
              = ((fst demo_setup, snd demo_setup), Ret tt))
    by (vm_compute; reflexivity).
  assert (H1 : posixpath.isabs (w_cwd demo_world) = true) by reflexivity.
  split; [exact H|]. split; [exact H1|].
  destruct (X3_resolved_path_absolute _ _ _ _ H eq_refl eq_refl H1) as (f & Hf & Ha & _).
  exists f. auto.
Defined.

(** X4.  An absolute name hint.  When the name hint starts with a slash,
    [os.path.join] drops the directory: the path that the first setup
    resolves is the normalised name hint, with [.pid] appended first if
    the suffix is enforced and missing, whatever the directory hint and
    the default directory are (the directory is still created and checked
    for access). *)
Theorem X4_absolute_name_hint (w w' : World) (m m' : PidFile) (n : string) :
  _setup (w, m) = ((w', m'), Ret tt) ->
  _is_setup m = false -> filename m = None ->
  pidname m = Some n -> startswith n "/" = true ->
  filename m' =
    Some (posixpath.normpath
            (if enforce_dotpid_postfix m && negb (endswith n ".pid")
             then n +:+ ".pid" else n)).
Proof.
  intros H Hs Hf Hn Ha.
  destruct (setup_first _ _ _ H Hs Hf) as (f & w1 & Hmf & E).
  injection E as -> ->. cbn [filename with_is_setup with_filename]. f_equal.
  destruct (make_filename_ret _ _ _ _ Hmf) as (D & _ & _ & _ & _ & _ & _ & ->).
  destruct (at_make_filename_hints w m) as (Hn' & _ & He & _).
  unfold spec_base_name. rewrite Hn', He, Hn.
  set (b := if _ && _ then _ else n).
  assert (Hb : startswith b "/" = true).
  { unfold b. destruct (_ && _); [apply startswith_app|]; exact Ha. }
  unfold posixpath.abspath, posixpath.join, posixpath.isabs. rewrite Hb, Hb.
  reflexivity.
Qed.

Lemma X4_absolute_name_hint_witness :
  _setup (demo_world, absolute_manager)
    = ((fst absolute_setup, snd absolute_setup), Ret tt) /\
  pidname absolute_manager = Some "/opt/app/daemon" /\
  filename (snd absolute_setup) = Some "/opt/app/daemon.pid".
Proof.
  assert (H : _setup (demo_world, absolute_manager)
              = ((fst absolute_setup, snd absolute_setup), Ret tt))
    by (vm_compute; reflexivity).
  split; [exact H|]. split; [reflexivity|].
  rewrite (X4_absolute_name_hint _ _ _ _ "/opt/app/daemon" H eq_refl eq_refl eq_refl
             eq_refl).
  vm_compute. reflexivity.
Defined.

(** X5.  A plain name hint.  When the name hint is a single path
    component (no slash, and not empty, [.] or [..]), the base name of
    the path that the first setup resolves is the hint itself if it ends
    with [.pid] or the suffix is not enforced, and the hint followed by
    [.pid] otherwise. *)
Theorem X5_plain_name_hint (w w' : World) (m m' : PidFile) (n : string) :
  _setup (w, m) = ((w', m'), Ret tt) ->
  _is_setup m = false -> filename m = None ->
  pidname m = Some n -> contains sep n = false -> plain_component n ->
  exists f,
    filename m' = Some f /\
    posixpath.basename f =
      (if enforce_dotpid_postfix m && negb (endswith n ".pid")
       then n +:+ ".pid" else n).
Proof.
  intros H Hs Hf Hn Hc Hp.
  destruct (setup_first _ _ _ H Hs Hf) as (f & w1 & Hmf & E).
  injection E as -> ->. exists f. split; [reflexivity|].
  destruct (make_filename_ret _ _ _ _ Hmf) as (D & _ & _ & _ & _ & _ & _ & ->).
  destruct (at_make_filename_hints w m) as (Hn' & _ & He & _).
  unfold spec_base_name. rewrite Hn', He, Hn.
  destruct (enforce_dotpid_postfix m && negb (endswith n ".pid")).
  - destruct (abspath_join_dotpid (w_cwd w) D (n +:+ ".pid")) as [-> _].
    { apply endswith_app. }
    rewrite basename_dotpid, basename_nosep by exact Hc. reflexivity.
  - rewrite basename_abspath; rewrite basename_join, basename_nosep by exact Hc;
      [reflexivity|exact Hp].
Qed.

Lemma X5_plain_name_hint_witness :
  _setup (demo_world, custom_manager)
    = ((fst custom_setup, snd custom_setup), Ret tt) /\
  pidname custom_manager = Some "custom" /\
  exists f, filename (snd custom_setup) = Some f /\
            posixpath.basename f = "custom.pid".
Proof.
  assert (H : _setup (demo_world, custom_manager)
              = ((fst custom_setup, snd custom_setup), Ret tt))
    by (vm_compute; reflexivity).
  split; [exact H|]. split; [reflexivity|].
  destruct (X5_plain_name_hint _ _ _ _ "custom" H eq_refl eq_refl eq_refl eq_refl)
    as (f & Hf & Hb).
  { repeat split; discriminate. }
  exists f. split; [exact Hf|]. rewrite Hb. reflexivity.
Defined.

(** X6.  No PID file.  When no regular file lies at the resolved path
    (nothing, or a directory), the first [check] of a manager that holds
    no file object returns without an error and without opening
    anything: the world is the one that setup left. *)
Theorem X6_check_no_file (w w1 : World) (m m1 : PidFile) (f : string) :
  _setup (w, m) = ((w1, m1), Ret tt) -> fh m = None -> filename m1 = Some f ->
  isfile w1 f = false ->
  check (w, m) = ((w1, logged m1), Ret tt).
Proof.
  intros Hsetup Hh Hf Hi.
  destruct (check_after_setup _ _ _ _ Hsetup) as (Hs & ->).
  destruct (setup_config _ _ _ _ _ Hsetup) as (_ & Hcf).
  unfold check. mrun. rewrite (setup_done _ _ Hs). mrun.
  rewrite logger_debug_run. mrun.
  destruct (logged_fields m1) as (-> & -> & _). rewrite Hcf, Hh, Hf. mrun.
  rewrite Hi, andb_false_r. reflexivity.
Qed.

Lemma X6_check_no_file_witness :
  _setup (demo_world, demo_manager) = ((fst demo_setup, snd demo_setup), Ret tt) /\
  isfile (fst demo_setup) demo_path = false /\
  check (demo_world, demo_manager) = ((fst demo_setup, logged (snd demo_setup)), Ret tt).
Proof.
  assert (H : _setup (demo_world, demo_manager)
              = ((fst demo_setup, snd demo_setup), Ret tt))
    by (vm_compute; reflexivity).
  assert (H1 : filename (snd demo_setup) = Some demo_path) by (vm_compute; reflexivity).
  assert (H2 : isfile (fst demo_setup) demo_path = false) by (vm_compute; reflexivity).
  split; [exact H|]. split; [exact H2|].
  exact (X6_check_no_file _ _ _ _ _ H eq_refl H1 H2).
Defined.

(** X7.  A blank PID file.  When the first 16 characters of the file at
    the resolved path hold nothing but white space before the first
    newline (an empty file, for one), [check] by a manager that holds no
    file object returns without an error: the directory tree and the
    content of the file are as they were after setup, and the file object
    that [check] opened is closed. *)
Theorem X7_check_blank_file (w w1 : World) (m m1 : PidFile) (f c : string) :
  _setup (w, m) = ((w1, m1), Ret tt) -> fh m = None -> filename m1 = Some f ->
  file_content w1 f = Some c -> pid_str_of c = "" ->
  exists w2,
    check (w, m) = ((w2, logged m1), Ret tt) /\
    w_fs w2 = w_fs w1 /\ file_content w2 f = Some c /\
    (forall h, w_files w1 !! h = None -> file_state_of w2 h = Closed).
Proof.
  intros Hsetup Hh Hf Hc He.
  destruct (check_inspects _ _ _ _ _ _ Hsetup Hh Hf Hc)
    as (i & Hn & Hd & -> & Hs & Hh1 & Hfs & Hcont & Hcl).
  exists (inspected w1 i). split; [|auto].
  rewrite (check_fresh_cases _ _ _ _ Hs Hh1 Hf Hn). cbv zeta.
  rewrite Hd, (pid_str_text_blank _ He). reflexivity.
Qed.

Lemma X7_check_blank_file_witness :
  _setup (blank_world, demo_manager) = ((fst blank_setup, snd blank_setup), Ret tt) /\
  file_content (fst blank_setup) demo_path = Some "   " /\ pid_str_of "   " = "" /\
  exists w2,
    check (blank_world, demo_manager) = ((w2, logged (snd blank_setup)), Ret tt) /\
    file_content w2 demo_path = Some "   ".
Proof.
  assert (H1 : _setup (blank_world, demo_manager)
               = ((fst blank_setup, snd blank_setup), Ret tt))
    by (vm_compute; reflexivity).
  assert (H2 : fh demo_manager = None) by reflexivity.
  assert (H3 : filename (snd blank_setup) = Some demo_path) by (vm_compute; reflexivity).
  assert (H4 : file_content (fst blank_setup) demo_path = Some "   ")
    by (vm_compute; reflexivity).
  assert (H5 : pid_str_of "   " = "") by (vm_compute; reflexivity).
  split; [exact H1|]. split; [exact H4|]. split; [exact H5|].
  destruct (X7_check_blank_file _ _ _ _ _ _ H1 H2 H3 H4 H5) as (w2 & Hc & _ & Hcont & _).
  exists w2. auto.
Defined.

(** X8.  A probe that fails.  When the file at the resolved path is ASCII
    text whose first line, as [check] reads it (within 16 characters, a
    carriage return ending the line as a line feed does), holds a process
    ID, and the probe of that process fails with an [OSError] other than
    [ESRCH] (as [EPERM], for the process of another user), [check] by a
    manager that holds no file object raises the already-running error,
    which carries that [OSError]; the directory tree and the content of
    the file are as they were after setup, and the file object that
    [check] opened is closed. *)
Theorem X8_check_probe_error (w w1 : World) (m m1 : PidFile) (f c : string)
    (p : Z) (e : errno) :
  _setup (w, m) = ((w1, m1), Ret tt) -> fh m = None -> filename m1 = Some f ->
  file_content w1 f = Some c -> isascii c = true ->
  PyInt.int (pid_str_of (universal_newlines c)) = Some p ->
  snd (os_kill_0 p w1) = Raise (OSError e) -> e <> ESRCH ->
  exists w2,
    check (w, m)
      = ((w2, logged m1), Raise (PidFileAlreadyRunningError (inl (OSError e)))) /\
    w_fs w2 = w_fs w1 /\ file_content w2 f = Some c /\
    (forall h, w_files w1 !! h = None -> file_state_of w2 h = Closed).
Proof.
  intros Hsetup Hh Hf Hc _ Hp Hk Hne.
  destruct (check_inspects _ _ _ _ _ _ Hsetup Hh Hf Hc)
    as (i & Hn & Hd & -> & Hs & Hh1 & Hfs & Hcont & Hcl).
  exists (inspected w1 i). split; [|auto].
  rewrite (check_fresh_cases _ _ _ _ Hs Hh1 Hf Hn). cbv zeta.
  rewrite Hd, (int_Some_truthy _ _ Hp), Hp, Hk. cbn [negb is_IOError exn_errno].
  rewrite bool_decide_eq_false_2 by congruence. reflexivity.
Qed.

Lemma X8_check_probe_error_witness :
  _setup (foreign_world, demo_manager)
    = ((fst foreign_setup, snd foreign_setup), Ret tt) /\
  snd (os_kill_0 1 (fst foreign_setup)) = Raise (OSError EPERM) /\
  exists w2,
    check (foreign_world, demo_manager)
      = ((w2, logged (snd foreign_setup)),
         Raise (PidFileAlreadyRunningError (inl (OSError EPERM)))) /\
    w_fs w2 = w_fs (fst foreign_setup).
Proof.
  assert (H1 : _setup (foreign_world, demo_manager)
               = ((fst foreign_setup, snd foreign_setup), Ret tt))
    by (vm_compute; reflexivity).
  assert (H2 : fh demo_manager = None) by reflexivity.
  assert (H3 : filename (snd foreign_setup) = Some demo_path)
    by (vm_compute; reflexivity).
  assert (H4 : file_content (fst foreign_setup) demo_path
               = Some ("1" +:+ String newline "")) by (vm_compute; reflexivity).
  assert (Ha : isascii ("1" +:+ String newline "") = true) by reflexivity.
  assert (H5 : PyInt.int (pid_str_of (universal_newlines ("1" +:+ String newline "")))
               = Some 1)
    by (vm_compute; reflexivity).
  assert (H6 : snd (os_kill_0 1 (fst foreign_setup)) = Raise (OSError EPERM))
    by (vm_compute; reflexivity).
  assert (H7 : EPERM <> ESRCH) by discriminate.
  split; [exact H1|]. split; [exact H6|].
  destruct (X8_check_probe_error _ _ _ _ _ _ _ _ H1 H2 H3 H4 Ha H5 H6 H7)
    as (w2 & Hc & Hfs & _).
  exists w2. auto.
Defined.

(** X9.  A process ID out of range.  When the file at the resolved path
    is ASCII text whose first line, as [check] reads it (within 16
    characters, a carriage return ending the line as a line feed does),
    holds an integer that does not fit a C [int], the probe raises
    [OverflowError], which is no [OSError]: [check] by a manager that
    holds no file object lets it through as it is, so what the caller
    sees is no [PidFileError]; the directory tree and the content of the
    file are as they were after setup, and the file object that [check]
    opened is closed. *)
Theorem X9_check_pid_out_of_range (w w1 : World) (m m1 : PidFile) (f c : string)
    (p : Z) :
  _setup (w, m) = ((w1, m1), Ret tt) -> fh m = None -> filename m1 = Some f ->
  file_content w1 f = Some c -> isascii c = true ->
  PyInt.int (pid_str_of (universal_newlines c)) = Some p ->
  p < - 2 ^ 31 \/ 2 ^ 31 <= p ->
  exists w2,
    check (w, m) = ((w2, logged m1), Raise OverflowError) /\
    is_PidFileError OverflowError = false /\
    w_fs w2 = w_fs w1 /\ file_content w2 f = Some c /\
    (forall h, w_files w1 !! h = None -> file_state_of w2 h = Closed).
Proof.
  intros Hsetup Hh Hf Hc _ Hp Hr.
  destruct (check_inspects _ _ _ _ _ _ Hsetup Hh Hf Hc)
    as (i & Hn & Hd & -> & Hs & Hh1 & Hfs & Hcont & Hcl).
  exists (inspected w1 i). split; [|auto].
  rewrite (check_fresh_cases _ _ _ _ Hs Hh1 Hf Hn). cbv zeta.
  rewrite Hd, (int_Some_truthy _ _ Hp), Hp. cbn [negb].
  assert (Hk : snd (os_kill_0 p w1) = Raise OverflowError).
  { unfold os_kill_0.
    destruct ((- 2 ^ 31 <=? p) && (p <? 2 ^ 31)) eqn:E; [|reflexivity].
    apply andb_true_iff in E as [E1 E2]. apply Z.leb_le in E1. apply Z.ltb_lt in E2.
    lia. }
  rewrite Hk. reflexivity.
Qed.

Lemma X9_check_pid_out_of_range_witness :
  _setup (huge_world, demo_manager) = ((fst huge_setup, snd huge_setup), Ret tt) /\
  PyInt.int (pid_str_of (universal_newlines ("99999999999" +:+ String newline "")))
    = Some 99999999999 /\
  exists w2,
    check (huge_world, demo_manager)
      = ((w2, logged (snd huge_setup)), Raise OverflowError) /\
    w_fs w2 = w_fs (fst huge_setup).
Proof.
  assert (H1 : _setup (huge_world, demo_manager)
               = ((fst huge_setup, snd huge_setup), Ret tt))
    by (vm_compute; reflexivity).
  assert (H2 : fh demo_manager = None) by reflexivity.
  assert (H3 : filename (snd huge_setup) = Some demo_path) by (vm_compute; reflexivity).
  assert (H4 : file_content (fst huge_setup) demo_path
               = Some ("99999999999" +:+ String newline "")) by (vm_compute; reflexivity).
  assert (Ha : isascii ("99999999999" +:+ String newline "") = true) by reflexivity.
  assert (H5 : PyInt.int (pid_str_of (universal_newlines
                                        ("99999999999" +:+ String newline "")))
               = Some 99999999999) by (vm_compute; reflexivity).
  assert (H6 : 99999999999 < - 2 ^ 31 \/ 2 ^ 31 <= 99999999999) by (right; lia).
  split; [exact H1|]. split; [exact H5|].
  destruct (X9_check_pid_out_of_range _ _ _ _ _ _ _ H1 H2 H3 H4 Ha H5 H6)
    as (w2 & Hc & _ & Hfs & _).
  exists w2. auto.
Defined.

(** X10.  [check] opens nothing for good.  Whatever a [check] by a
    manager that is set up and holds no file object does, returning or
    raising, every file object that is open afterwards was there before,
    unchanged: the one that [check] opened is closed. *)
Theorem X10_check_leaves_nothing_open (w : World) (m : PidFile) (s' : St)
    (r : result unit) :
  _is_setup m = true -> fh m = None -> check (w, m) = (s', r) ->
  forall h fo,
    w_files (fst s') !! h = Some fo -> f_closed fo = false ->
    w_files w !! h = Some fo.
Proof.
  intros Hs Hh H h fo Hfo Hopen.
  assert (Hsame : check (w, m) = ((w, logged m), Ret tt) -> w_files w !! h = Some fo).
  { intros E. rewrite E in H. injection H as <- _. exact Hfo. }
  destruct (filename m) as [f|] eqn:Hf.
  2:{ apply Hsame. unfold check. mrun. rewrite (setup_done _ _ Hs). mrun.
      rewrite logger_debug_run. mrun.
      destruct (logged_fields m) as (-> & -> & _). rewrite Hh, Hf. reflexivity. }
  destruct (node_at w f) as [[rd wr|i]|] eqn:Hn.
  1,3: apply Hsame; unfold check; mrun; rewrite (setup_done _ _ Hs); mrun;
       rewrite logger_debug_run; mrun;
       destruct (logged_fields m) as (-> & -> & _); rewrite Hh, Hf; mrun;
       unfold isfile; rewrite Hn, andb_false_r; reflexivity.
  destruct (inspected_facts w i) as (_ & _ & _ & _ & _ & _ & _ & _ & Hst & Hoth).
  assert (Hfiles : w_files (fst s') = w_files (inspected w i)).
  { rewrite (check_fresh_cases _ _ _ _ Hs Hh Hf Hn) in H. cbv zeta in H.
    destruct (negb (truthy _)); [injection H as <- _; reflexivity|].
    destruct (PyInt.int _); injection H as <- _; [reflexivity|].
    exact (proj1 (cleaned_facts (Some f) true (inspected w i))). }
  rewrite Hfiles in Hfo.
  destruct (decide (h = fresh (dom (w_files w)))) as [->|Hne].
  - rewrite (closed_state _ _ _ Hst Hfo) in Hopen. discriminate.
  - rewrite <- (Hoth h Hne). exact Hfo.
Qed.

Lemma X10_check_leaves_nothing_open_witness :
  _is_setup (snd stale_setup) = true /\ fh (snd stale_setup) = None /\
  exists fo,
    w_files (fst (fst (check (fst stale_setup, snd stale_setup)))) !! 0%nat = Some fo /\
    f_closed fo = true.
Proof.
  assert (H1 : _is_setup (snd stale_setup) = true) by (vm_compute; reflexivity).
  assert (H2 : fh (snd stale_setup) = None) by (vm_compute; reflexivity).
  split; [exact H1|]. split; [exact H2|].
  assert (H3 : check (fst stale_setup, snd stale_setup)
               = (fst (check (fst stale_setup, snd stale_setup)),
                  snd (check (fst stale_setup, snd stale_setup))))
    by apply surjective_pairing.
  assert (H4 : exists fo,
             w_files (fst (fst (check (fst stale_setup, snd stale_setup)))) !! 0%nat
             = Some fo).
  { eexists. vm_compute. reflexivity. }
  destruct H4 as (fo & Hfo). exists fo. split; [exact Hfo|].
  destruct (f_closed fo) eqn:E; [reflexivity|].
  pose proof (X10_check_leaves_nothing_open _ _ _ _ H1 H2 H3 0%nat fo Hfo E) as Hw.
  assert (Hnone : w_files (fst stale_setup) !! 0%nat = None) by (vm_compute; reflexivity).
  congruence.
Defined.

(** X11.  [check] deletes nothing but an unreadable PID file.  Whatever a
    [check] by a manager that is set up does, with or without a file
    object of its own and whatever the state of that object, it creates
    and changes no entry of the directory tree; the one thing it may do
    is to remove the file at the resolved path, and then it raises an
    error, which is not the already-running error.  So after a [check]
    that returns, or that reports a running process, the tree is as it
    was. *)
Theorem X11_check_keeps_tree (w : World) (m : PidFile) (f : string) (s' : St)
    (r : result unit) :
  _is_setup m = true -> filename m = Some f -> check (w, m) = (s', r) ->
  w_cwd (fst s') = w_cwd w /\
  (w_fs (fst s') = w_fs w \/
   (isfile w f = true /\ w_fs (fst s') = delete (resolve w f) (w_fs w) /\
    exists e, r = Raise e /\ forall x, e <> PidFileAlreadyRunningError x)).
Proof.
  intros Hs Hf H.
  assert (Hgoal : forall w0 s0 r0, same_tree w w0 ->
            tree_kept_or_unreadable w0 (logged m) s0 r0 ->
            w_cwd (fst s0) = w_cwd w /\
            (w_fs (fst s0) = w_fs w \/
             (isfile w f = true /\ w_fs (fst s0) = delete (resolve w f) (w_fs w) /\
              exists e, r0 = Raise e /\ forall x, e <> PidFileAlreadyRunningError x))).
  { intros w0 s0 r0 [Hfs Hcwd] (Hc & Ht). split; [congruence|].
    destruct Ht as [Ht|(f' & e & Hf' & Hi & Ht & -> & Hx)]; [left; congruence|].
    destruct (logged_fields m) as (_ & Hlf & _).
    assert (f' = f) as -> by congruence.
    right. rewrite <- (isfile_same w w0 f Hfs Hcwd). split; [exact Hi|].
    split; [|eauto]. rewrite Ht. unfold resolve. rewrite Hfs, Hcwd. reflexivity. }
  destruct (fh m) as [h|] eqn:Hh.
  - rewrite (check_held _ _ _ Hs Hh) in H.
    apply (Hgoal w); [apply same_tree_refl|]. apply (inner_check_tree _ _ _ _ _ H).
  - assert (Hsame : check (w, m) = ((w, logged m), Ret tt) ->
              w_cwd (fst s') = w_cwd w /\ w_fs (fst s') = w_fs w).
    { intros E. rewrite E in H. injection H as <- _. auto. }
    destruct (node_at w f) as [[rd wr|i]|] eqn:Hn.
    1,3: destruct Hsame as [H1 H2]; [|auto];
         unfold check; mrun; rewrite (setup_done _ _ Hs); mrun;
         rewrite logger_debug_run; mrun;
         destruct (logged_fields m) as (-> & -> & _); rewrite Hh, Hf; mrun;
         unfold isfile; rewrite Hn, andb_false_r; reflexivity.
    rewrite (check_fresh_run _ _ _ _ Hs Hh Hf Hn) in H. cbv zeta in H.
    set (h := fresh (dom (w_files w))) in *.
    set (w0 := set_file h (fobj mode_r i 0 "") w) in *.
    destruct (inner_check h (w0, logged m)) as [[w1 m1] r1] eqn:E.
    pose proof (inner_check_tree _ _ _ _ _ E) as Ht.
    destruct (file_close_tree h w1) as ([Hfs2 Hcwd2] & Hr2).
    cbn [fst snd] in H.
    assert (Hw0 : same_tree w w0) by (split; reflexivity).
    destruct (Hgoal w0 (fst (file_close h w1), m1)
                (match snd (file_close h w1) with
                 | Ret _ => r1
                 | Raise e => Raise e
                 end) Hw0) as (G1 & G2).
    { destruct Ht as (Hc & Ht). cbn [fst] in Hc, Ht.
      split; [cbn [fst]; rewrite Hcwd2; exact Hc|]. cbn [fst].
      destruct Ht as [Ht|(f' & e & Hf' & Hi & Ht & -> & Hx)].
      - left. rewrite Hfs2. exact Ht.
      - right. exists f'.
        destruct (snd (file_close h w1)) as [[]|e2] eqn:E2.
        + exists e. split; [exact Hf'|]. split; [exact Hi|].
          split; [rewrite Hfs2; exact Ht|]. split; [reflexivity|exact Hx].
        + destruct (Hr2 e2 eq_refl) as (e0 & ->). exists (OSError e0).
          split; [exact Hf'|]. split; [exact Hi|].
          split; [rewrite Hfs2; exact Ht|]. split; [reflexivity|].
          intros x; discriminate. }
    injection H as <- <-. split; [exact G1|exact G2].
Qed.

Lemma X11_check_keeps_tree_witness :
  _is_setup (snd garbage_setup) = true /\
  filename (snd garbage_setup) = Some demo_path /\
  (w_fs (fst (fst (check (fst garbage_setup, snd garbage_setup))))
     = w_fs (fst garbage_setup) \/
   (isfile (fst garbage_setup) demo_path = true /\
    w_fs (fst (fst (check (fst garbage_setup, snd garbage_setup))))
      = delete (resolve (fst garbage_setup) demo_path) (w_fs (fst garbage_setup)) /\
    exists e, snd (check (fst garbage_setup, snd garbage_setup)) = Raise e /\
              forall x, e <> PidFileAlreadyRunningError x)).
Proof.
  assert (H1 : _is_setup (snd garbage_setup) = true) by (vm_compute; reflexivity).
  assert (H2 : filename (snd garbage_setup) = Some demo_path)
    by (vm_compute; reflexivity).
  split; [exact H1|]. split; [exact H2|].
  exact (proj2 (X11_check_keeps_tree _ _ _ _ _ H1 H2 (surjective_pairing _))).
Defined.

(** X12.  The first instance.  For a manager that is set up and holds no
    file object: when nothing lies at the resolved path, the directory
    above it exists and is writable, no ownership change is asked for, and
    locking is off or no lock is left over for a file that does not exist,
    [create] returns;
    afterwards the file is there and holds the manager's process ID and a
    newline, every other path is as before, the lock is taken when locking
    is on, and [close] is registered once more with [atexit]. *)
Theorem X12_create_fresh (w : World) (m : PidFile) (f : string) (p : Z)
    (r : bool) :
  _is_setup m = true -> filename m = Some f -> pid m = Some p -> fh m = None ->
  truthy f = true -> node_at w f = None ->
  w_fs w !! posixpath.dirname (resolve w f) = Some (Dir r true) ->
  uid m < 0 -> gid m < 0 -> 0 <= chmod m < 4096 ->
  lock_pidfile m = false \/ no_stray_locks w ->
  exists w' h i,
    create (w, m) = ((w', with_fh (Some h) (logged m)), Ret tt) /\
    node_at w' f = Some (File i) /\
    file_content w' f = Some (PyInt.format_d p +:+ String newline "") /\
    (forall q, q <> resolve w f -> w_fs w' !! q = w_fs w !! q) /\
    w_atexit w' = w_atexit w ++ [self_id m] /\
    (lock_pidfile m = true -> w_locks w' !! i = Some (LockedBy h)).
Proof.
  intros Hs Hf Hp _ Ht Hn Hd _ _ _ Hwf.
  exact (create_fresh_run w m f p r true Hs Hf Hp Ht Hn Hd Hwf).
Qed.

Lemma X12_create_fresh_witness :
  _is_setup (snd demo_setup) = true /\ filename (snd demo_setup) = Some demo_path /\
  pid (snd demo_setup) = Some 4242 /\ fh (snd demo_setup) = None /\
  node_at (fst demo_setup) demo_path = None /\
  exists w' h,
    create (fst demo_setup, snd demo_setup)
      = ((w', with_fh (Some h) (logged (snd demo_setup))), Ret tt) /\
    file_content w' demo_path = Some (PyInt.format_d 4242 +:+ String newline "").
Proof.
  assert (H1 : _is_setup (snd demo_setup) = true) by (vm_compute; reflexivity).
  assert (H2 : filename (snd demo_setup) = Some demo_path) by (vm_compute; reflexivity).
  assert (H3 : pid (snd demo_setup) = Some 4242) by (vm_compute; reflexivity).
  assert (H4 : fh (snd demo_setup) = None) by (vm_compute; reflexivity).
  assert (H5 : truthy demo_path = true) by reflexivity.
  assert (H6 : node_at (fst demo_setup) demo_path = None) by (vm_compute; reflexivity).
  assert (H7 : w_fs (fst demo_setup)
                 !! posixpath.dirname (resolve (fst demo_setup) demo_path)
               = Some (Dir true true)) by (vm_compute; reflexivity).
  assert (H8 : uid (snd demo_setup) < 0) by (vm_compute; reflexivity).
  assert (H9 : gid (snd demo_setup) < 0) by (vm_compute; reflexivity).
  assert (H10 : 0 <= chmod (snd demo_setup) < 4096).
  { replace (chmod (snd demo_setup)) with 420 by (vm_compute; reflexivity). lia. }
  assert (H11 : no_stray_locks (fst demo_setup))
    by (apply no_locks_no_stray; vm_compute; reflexivity).
  repeat (split; [assumption|]).
  destruct (X12_create_fresh _ _ _ _ _ H1 H2 H3 H4 H5 H6 H7 H8 H9 H10 (or_intror H11))
    as (w' & h & i & Hc & _ & Hcont & _).
  exists w', h. auto.
Defined.

(** X13.  Taking over.  For a manager that is set up and holds no file
    object: when the file at the resolved path names no live process
    (nothing before its first newline, or the ID of a process that the
    probe reports gone), the lock is free or locking is off, the file
    belongs to the user and no ownership change is asked for, [create]
    returns; the directory tree is as before, and the content of the file
    is replaced by the manager's process ID and a newline. *)
Theorem X13_create_replaces_stale (w : World) (m : PidFile) (f : string)
    (i : nat) (p : Z) :
  _is_setup m = true -> filename m = Some f -> pid m = Some p -> fh m = None ->
  node_at w f = Some (File i) -> names_no_process w (data_of w i) ->
  lock_pidfile m = false \/ w_locks w !! i = None ->
  i_uid (inode_of w i) = w_euid w -> uid m < 0 -> gid m < 0 ->
  0 <= chmod m < 4096 ->
  exists w' h,
    create (w, m) = ((w', with_fh (Some h) (logged m)), Ret tt) /\
    w_fs w' = w_fs w /\
    file_content w' f = Some (PyInt.format_d p +:+ String newline "") /\
    w_atexit w' = w_atexit w ++ [self_id m] /\
    (lock_pidfile m = true -> w_locks w' !! i = Some (LockedBy h)).
Proof.
  intros Hs Hf Hp Hh Hn Hc Hl _ _ _ _.
  destruct (logged_fields m) as (_ & Hlf & _).
  set (h := fresh (dom (w_files w))).
  set (n := String.length (data_of w i)).
  set (w2 := set_file h (fobj mode_a_plus i n "") w).
  destruct (create_opened_run w2 m h i n p Hp (open_on_set_file _ _ _ _ _ _) Hs)
    as (w' & Hrun & Hd' & Hfs' & Hc' & Hat' & Hlk'); [exact Hl| |].
  { destruct Hc as [E|(q & Hq & Hk)]; [left; exact E|right].
    exists q. split; [exact Hq|]. rewrite (os_kill_0_same q w w2 eq_refl). exact Hk. }
  exists w', h. split.
  { rewrite (create_setup_done _ _ Hs).
    rewrite (bind_run_ret _ _ _ _ _
               (create_open_run _ _ _ _ _ (eq_trans Hlf Hf) (open_aplus_old _ _ _ Hn))).
    exact Hrun. }
  split; [exact Hfs'|].
  split.
  { unfold file_content. rewrite (node_at_same w2 w' f Hfs' Hc').
    change (node_at w2 f) with (node_at w f). rewrite Hn, Hd'. reflexivity. }
  split; [exact Hat'|exact Hlk'].
Qed.

Lemma X13_create_replaces_stale_witness :
  _is_setup (snd left_over_setup) = true /\
  node_at (fst left_over_setup) demo_path = Some (File 0) /\
  names_no_process (fst left_over_setup) (data_of (fst left_over_setup) 0) /\
  exists w' h,
    create (fst left_over_setup, snd left_over_setup)
      = ((w', with_fh (Some h) (logged (snd left_over_setup))), Ret tt) /\
    file_content w' demo_path = Some (PyInt.format_d 4242 +:+ String newline "").
Proof.
  assert (H1 : _is_setup (snd left_over_setup) = true) by (vm_compute; reflexivity).
  assert (H2 : filename (snd left_over_setup) = Some demo_path)
    by (vm_compute; reflexivity).
  assert (H3 : pid (snd left_over_setup) = Some 4242) by (vm_compute; reflexivity).
  assert (H4 : fh (snd left_over_setup) = None) by (vm_compute; reflexivity).
  assert (H5 : node_at (fst left_over_setup) demo_path = Some (File 0))
    by (vm_compute; reflexivity).
  assert (H6 : names_no_process (fst left_over_setup) (data_of (fst left_over_setup) 0)).
  { right. exists 31337. split; vm_compute; reflexivity. }
  assert (H7 : w_locks (fst left_over_setup) !! 0%nat = None)
    by (vm_compute; reflexivity).
  assert (H8 : i_uid (inode_of (fst left_over_setup) 0) = w_euid (fst left_over_setup))
    by (vm_compute; reflexivity).
  assert (H9 : uid (snd left_over_setup) < 0) by (vm_compute; reflexivity).
  assert (H10 : gid (snd left_over_setup) < 0) by (vm_compute; reflexivity).
  assert (H11 : 0 <= chmod (snd left_over_setup) < 4096).
  { replace (chmod (snd left_over_setup)) with 420 by (vm_compute; reflexivity). lia. }
  split; [exact H1|]. split; [exact H5|]. split; [exact H6|].
  destruct (X13_create_replaces_stale _ _ _ _ _ H1 H2 H3 H4 H5 H6 (or_intror H7)
              H8 H9 H10 H11)
    as (w' & h & Hc & _ & Hcont & _).
  exists w', h. auto.
Defined.

(** X14.  A live process is never overwritten.  For a manager that is set
    up and holds no file object: when the file at the resolved path holds
    a process ID followed by a newline, the probe of that process
    succeeds, and the lock is free or locking is off, [create] raises the
    already-running error that names the process ID; the file and its
    content are as before, the file object that [create] opened is closed
    and holds no lock, and nothing is registered with [atexit]. *)
Theorem X14_create_finds_running (w : World) (m : PidFile) (f : string)
    (i : nat) (p : Z) :
  _is_setup m = true -> filename m = Some f -> fh m = None ->
  node_at w f = Some (File i) ->
  data_of w i = PyInt.format_d p +:+ String newline "" ->
  lock_pidfile m = false \/ w_locks w !! i = None ->
  snd (os_kill_0 p w) = Ret tt ->
  exists w' h,
    create (w, m)
      = ((w', with_fh (Some h) (logged m)),
         Raise (PidFileAlreadyRunningError
                  (inr ("Program already running with pid: " +:+ PyInt.format_d p)))) /\
    w_fs w' = w_fs w /\
    file_content w' f = Some (PyInt.format_d p +:+ String newline "") /\
    file_state_of w' h = Closed /\
    w_locks w' !! i <> Some (LockedBy h) /\
    w_atexit w' = w_atexit w.
Proof.
  intros Hs Hf Hh Hn Hd Hl Hk.
  destruct (logged_fields m) as (_ & Hlf & Hls & _ & Hll & _).
  set (h := fresh (dom (w_files w))).
  set (n := String.length (data_of w i)).
  set (w2 := set_file h (fobj mode_a_plus i n "") w).
  set (m2 := with_fh (Some h) (logged m)).
  assert (Hfh : fh m2 = Some h) by reflexivity.
  assert (Hsu : _is_setup m2 = true) by (unfold m2; simpl; congruence).
  assert (Hl2 : logged m2 = m2) by apply logged_with_fh.
  assert (Ho : open_on w2 h mode_a_plus i n "") by apply open_on_set_file.
  destruct (create_lock_run w2 m2 h i n Hfh Ho) as (w3 & Hlock).
  { destruct Hl as [Hl|Hl]; [left; unfold m2; simpl; congruence|auto]. }
  destruct (create_lock_facts _ _ _ _ _ _ Hfh Ho Hlock)
    as (_ & Hfi3 & Hfs3 & Hc3 & Hp3 & Hi3 & _ & Hat3 & _).
  simpl in Hfi3, Hfs3, Hc3, Hp3, Hi3, Hat3.
  assert (Ho3 : open_on w3 h mode_a_plus i n "").
  { unfold open_on. rewrite Hfi3. exact Ho. }
  assert (Hd3 : data_of w3 i = PyInt.format_d p +:+ String newline "").
  { unfold data_of, inode_of. rewrite Hi3. exact Hd. }
  assert (Hk3 : snd (os_kill_0 p w3) = Ret tt).
  { rewrite (os_kill_0_same p w2 w3 Hp3), (os_kill_0_same p w w2 eq_refl). exact Hk. }
  set (k := text_bytes 16 (data_of w3 i)).
  set (wr := after_read w3 h mode_a_plus i).
  destruct (after_read_facts w3 h mode_a_plus i)
    as (Hfs4 & Hc4 & Hi4 & _ & _ & _ & Hat4 & _).
  destruct (after_close_facts wr h mode_a_plus i k) as (Hfs5 & Hc5 & Hi5 & _ & _ & Hst).
  destruct (after_close_locks wr h mode_a_plus i k) as (Hrel & _ & _ & _ & _ & Hat5).
  fold wr in Hfs4, Hc4, Hi4, Hat4.
  assert (Hfsw : w_fs (after_close wr h mode_a_plus i k) = w_fs w)
    by (rewrite Hfs5, Hfs4, Hfs3; reflexivity).
  assert (Hcw : w_cwd (after_close wr h mode_a_plus i k) = w_cwd w)
    by (rewrite Hc5, Hc4, Hc3; reflexivity).
  exists (after_close wr h mode_a_plus i k), h. split.
  { rewrite (create_setup_done _ _ Hs).
    rewrite (bind_run_ret _ _ _ _ _
               (create_open_run _ _ _ _ _ (eq_trans Hlf Hf) (open_aplus_old _ _ _ Hn))).
    fold h. fold n. fold w2. fold m2.
    rewrite (bind_run_ret _ _ _ _ _ Hlock).
    rewrite bind_unfold, (check_held _ _ _ Hsu Hfh), Hl2.
    rewrite (inner_check_live _ _ _ _ _ _ p Ho3 Hd3 Hk3), Hl2. reflexivity. }
  split; [exact Hfsw|]. split.
  { unfold file_content. rewrite (node_at_same w _ f Hfsw Hcw), Hn.
    unfold data_of, inode_of. rewrite Hi5, Hi4, Hi3. f_equal. exact Hd. }
  split; [exact Hst|]. split; [exact Hrel|].
  rewrite Hat5, Hat4, Hat3. reflexivity.
Qed.

Lemma X14_create_finds_running_witness :
  _is_setup unlocked_setup = true /\ filename unlocked_setup = Some demo_path /\
  fh unlocked_setup = None /\ node_at created_world demo_path = Some (File 0) /\
  data_of created_world 0 = PyInt.format_d 4242 +:+ String newline "" /\
  lock_pidfile unlocked_setup = false /\
  snd (os_kill_0 4242 created_world) = Ret tt /\
  exists w' h,
    create (created_world, unlocked_setup)
      = ((w', with_fh (Some h) (logged unlocked_setup)),
         Raise (PidFileAlreadyRunningError
                  (inr ("Program already running with pid: "
                        +:+ PyInt.format_d 4242)))) /\
    w_fs w' = w_fs created_world.
Proof.
  assert (H1 : _is_setup unlocked_setup = true) by (vm_compute; reflexivity).
  assert (H2 : filename unlocked_setup = Some demo_path) by (vm_compute; reflexivity).
  assert (H3 : fh unlocked_setup = None) by (vm_compute; reflexivity).
  assert (H4 : node_at created_world demo_path = Some (File 0))
    by (vm_compute; reflexivity).
  assert (H5 : data_of created_world 0 = PyInt.format_d 4242 +:+ String newline "")
    by (vm_compute; reflexivity).
  assert (H6 : lock_pidfile unlocked_setup = false) by (vm_compute; reflexivity).
  assert (H7 : snd (os_kill_0 4242 created_world) = Ret tt)
    by (vm_compute; reflexivity).
  repeat (split; [assumption|]).
  destruct (X14_create_finds_running _ _ _ _ _ H1 H2 H3 H4 H5 (or_introl H6) H7)
    as (w' & h & Hc & Hfs & _).
  exists w', h. auto.
Defined.

(** X15.  [create] on an unreadable PID file.  For a manager that is set
    up and holds no file object: when the file at the resolved path is
    ASCII text, what its first line holds as [check] reads it (within 16
    characters, a carriage return ending the line as a line feed does) is
    not empty and is no integer, and the lock is free or locking is off,
    [create] raises the unreadable-pidfile error with the [ValueError] of
    the conversion; on the way it has closed the file object it opened,
    released the lock and removed the file, and it registers nothing with
    [atexit]. *)
Theorem X15_create_unreadable (w : World) (m : PidFile) (f : string) (i : nat) :
  _is_setup m = true -> filename m = Some f -> fh m = None ->
  node_at w f = Some (File i) -> isascii (data_of w i) = true ->
  pid_str_of (universal_newlines (data_of w i)) <> "" ->
  PyInt.int (pid_str_of (universal_newlines (data_of w i))) = None ->
  lock_pidfile m = false \/ w_locks w !! i = None ->
  exists w' h,
    create (w, m)
      = ((w', with_fh (Some h) (logged m)),
         Raise (PidFileUnreadableError
                  (ValueError_invalid_literal
                     (pid_str_of (universal_newlines (data_of w i)))))) /\
    isfile w' f = false /\
    w_fs w' = delete (resolve w f) (w_fs w) /\
    file_state_of w' h = Closed /\
    w_locks w' !! i <> Some (LockedBy h) /\
    w_atexit w' = w_atexit w.
Proof.
  intros Hs Hf Hh Hn _ Hne Hint Hl.
  destruct (logged_fields m) as (_ & Hlf & Hls & _ & Hll & _).
  set (h := fresh (dom (w_files w))).
  set (n := String.length (data_of w i)).
  set (w2 := set_file h (fobj mode_a_plus i n "") w).
  set (m2 := with_fh (Some h) (logged m)).
  assert (Hfh : fh m2 = Some h) by reflexivity.
  assert (Hsu : _is_setup m2 = true) by (unfold m2; simpl; congruence).
  assert (Hl2 : logged m2 = m2) by apply logged_with_fh.
  assert (Hf2 : filename m2 = Some f) by (unfold m2; simpl; congruence).
  assert (Ho : open_on w2 h mode_a_plus i n "") by apply open_on_set_file.
  destruct (create_lock_run w2 m2 h i n Hfh Ho) as (w3 & Hlock).
  { destruct Hl as [Hl|Hl]; [left; unfold m2; simpl; congruence|auto]. }
  destruct (create_lock_facts _ _ _ _ _ _ Hfh Ho Hlock)
    as (_ & Hfi3 & Hfs3 & Hc3 & Hp3 & Hi3 & _ & Hat3 & _).
  simpl in Hfi3, Hfs3, Hc3, Hp3, Hi3, Hat3.
  assert (Ho3 : open_on w3 h mode_a_plus i n "").
  { unfold open_on. rewrite Hfi3. exact Ho. }
  assert (Hd3 : data_of w3 i = data_of w i).
  { unfold data_of, inode_of. rewrite Hi3. reflexivity. }
  set (k := text_bytes 16 (data_of w3 i)).
  set (wr := after_read w3 h mode_a_plus i).
  destruct (after_read_facts w3 h mode_a_plus i)
    as (Hfs4 & Hc4 & Hi4 & _ & _ & _ & Hat4 & _).
  fold wr in Hfs4, Hc4, Hi4, Hat4.
  set (wc := after_close wr h mode_a_plus i k).
  destruct (after_close_facts wr h mode_a_plus i k) as (Hfs5 & Hc5 & Hi5 & _ & _ & Hst).
  destruct (after_close_locks wr h mode_a_plus i k) as (Hrel & _ & _ & _ & _ & Hat5).
  fold wc in Hfs5, Hc5, Hi5, Hst, Hrel, Hat5.
  assert (Hfsw : w_fs wc = w_fs w) by (rewrite Hfs5, Hfs4, Hfs3; reflexivity).
  assert (Hcw : w_cwd wc = w_cwd w) by (rewrite Hc5, Hc4, Hc3; reflexivity).
  assert (Hiw : isfile wc f = true).
  { rewrite (isfile_same w wc f Hfsw Hcw). exact (isfile_node _ _ _ Hn). }
  destruct (cleaned_facts (Some f) true wc) as (_ & _ & _ & _ & Hcst & _ & Hrm).
  exists (cleaned (Some f) true wc), h. split.
  { rewrite (create_setup_done _ _ Hs).
    rewrite (bind_run_ret _ _ _ _ _
               (create_open_run _ _ _ _ _ (eq_trans Hlf Hf) (open_aplus_old _ _ _ Hn))).
    fold h. fold n. fold w2. fold m2.
    rewrite (bind_run_ret _ _ _ _ _ Hlock).
    rewrite bind_unfold, (check_held _ _ _ Hsu Hfh), Hl2.
    rewrite (inner_check_run _ _ _ _ _ _ Ho3). cbv zeta.
    fold k. fold wr. fold wc. rewrite Hd3, Hint, (proj2 (truthy_true _) Hne).
    cbn [negb]. rewrite Hf2, Hl2. reflexivity. }
  split; [apply Hrm; reflexivity|].
  rewrite (cleaned_isfile _ _ Hiw).
  split; [simpl; unfold resolve; rewrite Hfsw, Hcw; reflexivity|].
  split; [exact Hst|]. split; [exact Hrel|].
  simpl. rewrite Hat5, Hat4, Hat3. reflexivity.
Qed.

Lemma X15_create_unreadable_witness :
  _is_setup (snd garbage_setup) = true /\
  node_at (fst garbage_setup) demo_path = Some (File 0) /\
  isascii (data_of (fst garbage_setup) 0) = true /\
  PyInt.int (pid_str_of (universal_newlines (data_of (fst garbage_setup) 0))) = None /\
  exists w' h,
    create (fst garbage_setup, snd garbage_setup)
      = ((w', with_fh (Some h) (logged (snd garbage_setup))),
         Raise (PidFileUnreadableError
                  (ValueError_invalid_literal
                     (pid_str_of (universal_newlines
                                    (data_of (fst garbage_setup) 0)))))) /\
    isfile w' demo_path = false.
Proof.
  assert (H1 : _is_setup (snd garbage_setup) = true) by (vm_compute; reflexivity).
  assert (H2 : filename (snd garbage_setup) = Some demo_path)
    by (vm_compute; reflexivity).
  assert (H3 : fh (snd garbage_setup) = None) by (vm_compute; reflexivity).
  assert (H4 : node_at (fst garbage_setup) demo_path = Some (File 0))
    by (vm_compute; reflexivity).
  assert (Ha : isascii (data_of (fst garbage_setup) 0) = true)
    by (vm_compute; reflexivity).
  assert (H5 : pid_str_of (universal_newlines (data_of (fst garbage_setup) 0)) <> "")
    by (vm_compute; discriminate).
  assert (H6 : PyInt.int (pid_str_of (universal_newlines
                                        (data_of (fst garbage_setup) 0))) = None)
    by (vm_compute; reflexivity).
  assert (H7 : w_locks (fst garbage_setup) !! 0%nat = None) by (vm_compute; reflexivity).
  split; [exact H1|]. split; [exact H4|]. split; [exact Ha|]. split; [exact H6|].
  destruct (X15_create_unreadable _ _ _ _ H1 H2 H3 H4 Ha H5 H6 (or_intror H7))
    as (w' & h & Hc & Hi & _).
  exists w', h. auto.
Defined.

(** X16.  A file that cannot be opened.  When [open] of the resolved path
    fails (a directory lies there, or the directory above is missing),
    [create] of a manager that is set up raises that [OSError] as it is,
    which is no [PidFileError]; the world is unchanged, and the manager
    holds the file object it held before, none if it had none. *)
Theorem X16_create_open_fails (w w' : World) (m : PidFile) (f : string) (e : exn) :
  _is_setup m = true -> filename m = Some f ->
  open f mode_a_plus w = (w', Raise e) ->
  create (w, m) = ((w, logged m), Raise e) /\
  fh (logged m) = fh m /\ is_IOError e = true /\ is_PidFileError e = false.
Proof.
  intros Hs Hf Ho. destruct (open_raise _ _ _ _ _ Ho) as (-> & e0 & ->).
  destruct (logged_fields m) as (Hfh & Hlf & _).
  split; [|auto].
  rewrite (create_setup_done _ _ Hs). rewrite bind_unfold.
  unfold create_open. mrun. rewrite Hlf, Hf. mrun. rewrite Ho. reflexivity.
Qed.

Lemma X16_create_open_fails_witness :
  _is_setup (snd demo_setup) = true /\
  open demo_path mode_a_plus dir_world = (dir_world, Raise (OSError EISDIR)) /\
  create (dir_world, snd demo_setup)
    = ((dir_world, logged (snd demo_setup)), Raise (OSError EISDIR)).
Proof.
  assert (H1 : _is_setup (snd demo_setup) = true) by (vm_compute; reflexivity).
  assert (H2 : filename (snd demo_setup) = Some demo_path) by (vm_compute; reflexivity).
  assert (H3 : open demo_path mode_a_plus dir_world = (dir_world, Raise (OSError EISDIR)))
    by (vm_compute; reflexivity).
  split; [exact H1|]. split; [exact H3|].
  exact (proj1 (X16_create_open_fails _ _ _ _ _ H1 H2 H3)).
Defined.

(** X17.  What [create] does to the mode and the owner of the file.  When
    [create] of a manager that is set up returns, the file at the resolved
    path has the mode [chmod] unless [chmod] is 0, and the user and group
    given by [uid] and [gid] where these are not negative; a [chmod] of 0
    leaves the mode, and [uid] and [gid] both negative, or one of them -1,
    leave the owner, as they were when the file was opened: those of the
    file that lay there, or of a new file of the current user with the
    mode 0o666 less the umask. *)
Theorem X17_create_mode_owner (w w' : World) (m m' : PidFile) (f : string) :
  _is_setup m = true -> filename m = Some f ->
  create (w, m) = ((w', m'), Ret tt) ->
  exists i x,
    node_at w' f = Some (File i) /\
    ((node_at w f = Some (File i) /\ x = inode_of w i) \/
     (node_at w f = None /\ x = new_inode w)) /\
    (0 < chmod m < 4096 -> i_mode (inode_of w' i) = chmod m) /\
    (chmod m = 0 -> i_mode (inode_of w' i) = i_mode x) /\
    (0 <= uid m < 4294967295 -> i_uid (inode_of w' i) = uid m) /\
    (0 <= gid m < 4294967295 -> i_gid (inode_of w' i) = gid m) /\
    (uid m = -1 \/ (uid m < 0 /\ gid m < 0) -> i_uid (inode_of w' i) = i_uid x) /\
    (gid m = -1 \/ (uid m < 0 /\ gid m < 0) -> i_gid (inode_of w' i) = i_gid x).
Proof.
  intros Hs Hf H.
  destruct (create_ret _ _ _ _ H)
    as (w1 & m1 & w2 & f' & p & h & i & pos & Hsetup & _ & Hf' & _ & Hopen & _ & Hn2 & _ & Hn
        & _ & _ & _ & _ & _ & _ & _ & _ & _ & _ & Hmo & Hui & Hgi & _ & _ & _ & Hcase).
  rewrite (setup_done _ _ Hs) in Hsetup. injection Hsetup as <- <-.
  assert (f' = f) as -> by congruence.
  exists i, (inode_of w2 i). split; [exact Hn|]. split.
  { destruct Hcase as [(Ho & _ & Hi)|(Ho & _ & Hnew & _)].
    - left. split; [exact Ho|]. unfold inode_of. rewrite Hi. reflexivity.
    - right. split; [exact Ho|exact Hnew]. }
  rewrite Hmo, Hui, Hgi. unfold create_meta.
  repeat split.
  - intros Hc. rewrite (proj2 (Z.eqb_neq (chmod m) 0)) by lia. simpl.
    destruct (_ || _); reflexivity.
  - intros Hc. rewrite Hc. simpl. destruct (_ || _); reflexivity.
  - intros Hu. rewrite (proj2 (Z.leb_le 0 (uid m))) by lia. simpl.
    rewrite (proj2 (Z.eqb_neq (uid m) (-1))) by lia. reflexivity.
  - intros Hg. rewrite (proj2 (Z.leb_le 0 (gid m))), orb_true_r by lia. simpl.
    rewrite (proj2 (Z.eqb_neq (gid m) (-1))) by lia. reflexivity.
  - intros [Hu|[Hu Hg]].
    + rewrite Hu. simpl. destruct (0 <=? gid m); simpl; destruct (negb _); reflexivity.
    + rewrite (proj2 (Z.leb_gt 0 (uid m))), (proj2 (Z.leb_gt 0 (gid m))) by lia.
      simpl. destruct (negb _); reflexivity.
  - intros [Hg|[Hu Hg]].
    + rewrite Hg. simpl. destruct (0 <=? uid m); simpl; destruct (negb _); reflexivity.
    + rewrite (proj2 (Z.leb_gt 0 (uid m))), (proj2 (Z.leb_gt 0 (gid m))) by lia.
      simpl. destruct (negb _); reflexivity.
Qed.

Lemma X17_create_mode_owner_witness :
  _is_setup (snd demo_setup) = true /\ filename (snd demo_setup) = Some demo_path /\
  create (fst demo_setup, snd demo_setup)
    = ((fst recreated_state, snd recreated_state), Ret tt) /\
  exists i,
    node_at (fst recreated_state) demo_path = Some (File i) /\
    i_mode (inode_of (fst recreated_state) i) = 420 /\
    i_uid (inode_of (fst recreated_state) i) = 1000.
Proof.
  assert (H1 : _is_setup (snd demo_setup) = true) by (vm_compute; reflexivity).
  assert (H2 : filename (snd demo_setup) = Some demo_path) by (vm_compute; reflexivity).
  assert (H3 : create (fst demo_setup, snd demo_setup)
               = ((fst recreated_state, snd recreated_state), Ret tt))
    by (vm_compute; reflexivity).
  repeat (split; [assumption|]).
  destruct (X17_create_mode_owner _ _ _ _ _ H1 H2 H3)
    as (i & x & Hn & Hx & Hmode & _ & _ & _ & Hu & _).
  exists i. split; [exact Hn|]. split.
  - replace 420 with (chmod (snd demo_setup)) by (vm_compute; reflexivity).
    apply Hmode. replace (chmod (snd demo_setup)) with 420 by (vm_compute; reflexivity).
    lia.
  - rewrite Hu by (left; vm_compute; reflexivity).
    destruct Hx as [(Hx & _)|(_ & ->)].
    + assert (E : node_at (fst demo_setup) demo_path = None) by (vm_compute; reflexivity).
      congruence.
    + vm_compute. reflexivity.
Defined.

(** X18.  Mutual exclusion.  Once [create] of a locking manager has
    returned, [create] of any other locking manager that is set up for the
    same path and holds no file object raises the already-locked error with
    [EWOULDBLOCK]; it closes the file object it opened, deletes nothing,
    leaves the content of the file, the lock of the first manager and its
    file object as they are, and registers nothing with [atexit]. *)
Theorem X18_second_create_locked (w w' : World) (m m' m2 : PidFile) :
  create (w, m) = ((w', m'), Ret tt) -> lock_pidfile m = true ->
  _is_setup m2 = true -> filename m2 = filename m' -> fh m2 = None ->
  lock_pidfile m2 = true ->
  exists w'' h2 f,
    create (w', m2)
      = ((w'', with_fh (Some h2) (logged m2)),
         Raise (PidFileAlreadyLockedError (OSError EWOULDBLOCK))) /\
    filename m' = Some f /\
    w_fs w'' = w_fs w' /\ file_content w'' f = file_content w' f /\
    file_state_of w'' h2 = Closed /\
    w_locks w'' = w_locks w' /\ w_atexit w'' = w_atexit w' /\
    (forall h, fh m' = Some h -> w_files w'' !! h = w_files w' !! h).
Proof.
  intros H Hlock Hs2 Hf2 Hh2 Hl2.
  destruct (create_ret _ _ _ _ H)
    as (w1 & m1 & w2 & f & p & h & i & pos & Hsetup & _ & Hf & _ & _ & _ & _ & -> & Hn & _
        & Ho & _ & _ & _ & _ & _ & Hlk & _).
  destruct (setup_config _ _ _ _ _ Hsetup) as (Hcl & _).
  destruct (logged_fields m1) as (_ & Hlf1 & _).
  destruct (logged_fields m2) as (_ & Hlf2 & _ & _ & Hll2 & _).
  cbn [filename with_fh] in Hf2. rewrite Hlf1, Hf in Hf2.
  set (h2 := fresh (dom (w_files w'))).
  set (n := String.length (data_of w' i)).
  set (wo := set_file h2 (fobj mode_a_plus i n "") w').
  assert (Hne : h <> h2) by exact (open_on_fresh _ _ _ _ _ _ Ho).
  assert (Hlw : w_locks w' !! i = Some (LockedBy h)) by (apply Hlk; congruence).
  destruct (after_close_facts wo h2 mode_a_plus i n) as (Hfs & Hcwd & Hino & _ & Hfiles & Hst).
  destruct (after_close_locks wo h2 mode_a_plus i n) as (_ & _ & _ & Hsame & _ & Hat).
  exists (after_close wo h2 mode_a_plus i n), h2, f.
  split.
  { rewrite (create_setup_done _ _ Hs2).
    rewrite (bind_run_ret _ _ _ _ _
               (create_open_run _ _ _ _ _ (eq_trans Hlf2 Hf2) (open_aplus_old _ _ _ Hn))).
    fold h2. fold n. fold wo.
    rewrite (bind_run_raise _ _ _ _ _
               (create_lock_held wo (with_fh (Some h2) (logged m2)) h2 h i n
                  eq_refl (open_on_set_file _ _ _ _ _ _)
                  (eq_trans Hll2 Hl2) Hne (or_introl Hlw))).
    rewrite logged_with_fh. reflexivity. }
  split; [simpl; congruence|]. split; [exact Hfs|].
  split; [apply file_content_same; assumption|]. split; [exact Hst|].
  split.
  { apply Hsame. change (w_locks wo) with (w_locks w'). rewrite Hlw. congruence. }
  split; [exact Hat|].
  intros h0 [= <-]. rewrite Hfiles. simpl. rewrite !lookup_insert_ne by congruence.
  reflexivity.
Qed.

Lemma X18_second_create_locked_witness :
  create (demo_world, demo_manager) = ((created_world, created_manager), Ret tt) /\
  lock_pidfile demo_manager = true /\
  _is_setup other_setup = true /\ filename other_setup = filename created_manager /\
  fh other_setup = None /\ lock_pidfile other_setup = true /\
  exists w'' h2,
    create (created_world, other_setup)
      = ((w'', with_fh (Some h2) (logged other_setup)),
         Raise (PidFileAlreadyLockedError (OSError EWOULDBLOCK))) /\
    w_fs w'' = w_fs created_world /\ w_locks w'' = w_locks created_world.
Proof.
  assert (H : create (demo_world, demo_manager)
              = ((created_world, created_manager), Ret tt))
    by (vm_compute; reflexivity).
  assert (H1 : lock_pidfile demo_manager = true) by reflexivity.
  assert (H2 : _is_setup other_setup = true) by (vm_compute; reflexivity).
  assert (H3 : filename other_setup = filename created_manager)
    by (vm_compute; reflexivity).
  assert (H4 : fh other_setup = None) by (vm_compute; reflexivity).
  assert (H5 : lock_pidfile other_setup = true) by (vm_compute; reflexivity).
  repeat (split; [assumption|]).
  destruct (X18_second_create_locked _ _ _ _ _ H H1 H2 H3 H4 H5)
    as (w'' & h2 & f & Hc & _ & Hfs & _ & _ & Hl & _).
  exists w'', h2. auto.
Defined.

(** X19.  The [atexit] registry.  [create] registers the bound [close]
    of the manager exactly once when it returns, and registers nothing
    when it raises, whatever the error; [check], [close] and [_setup]
    never register or unregister anything. *)
Theorem X19_atexit_registration (w : World) (m : PidFile) (a : option nat)
    (c : bool) :
  match snd (create (w, m)) with
  | Ret _ => w_atexit (fst (fst (create (w, m)))) = w_atexit w ++ [self_id m]
  | Raise _ => w_atexit (fst (fst (create (w, m)))) = w_atexit w
  end /\
  w_atexit (fst (fst (check (w, m)))) = w_atexit w /\
  w_atexit (fst (fst (close a c (w, m)))) = w_atexit w /\
  w_atexit (fst (fst (_setup (w, m)))) = w_atexit w.
Proof.
  split; [|split; [|split]].
  - destruct (create (w, m)) as [s' r] eqn:E. exact (registers_create _ _ _ E).
  - destruct (check (w, m)) as [s' r] eqn:E. exact (proj1 (respects_atexit_check _ _ _ E)).
  - destruct (close a c (w, m)) as [s' r] eqn:E.
    exact (proj1 (respects_atexit_close a c _ _ _ E)).
  - destruct (_setup (w, m)) as [s' r] eqn:E.
    exact (proj1 (respects_atexit_setup _ _ _ E)).
Qed.

(** X20.  The text of a process ID.  What [create] writes for a process
    ID of at most 16 characters (15 digits after a minus sign), whatever
    follows its newline in the file, is what [inner_check] takes from the
    first 16 characters of the file, and [int] makes the same number of
    it; this holds of the bytes of the file and of the text that is read
    from them, whatever line ends follow. *)
Theorem X20_pid_text_roundtrip (p : Z) (rest : string) :
  - 10 ^ 15 < p < 10 ^ 16 ->
  pid_str_of (PyInt.format_d p +:+ String newline rest) = PyInt.format_d p /\
  PyInt.int (pid_str_of (PyInt.format_d p +:+ String newline rest)) = Some p /\
  pid_str_of (universal_newlines (PyInt.format_d p +:+ String newline rest))
    = PyInt.format_d p.
Proof.
  intros Hp.
  assert (H : forall r, pid_str_of (PyInt.format_d p +:+ String newline r)
                        = PyInt.format_d p
                        /\ PyInt.int (PyInt.format_d p) = Some p).
  2:{ destruct (H rest) as [H1 H2]. rewrite universal_newlines_format_d, H1.
      split; [reflexivity|]. split; [exact H2|]. exact (proj1 (H _)). }
  clear rest. intros rest.
  unfold PyInt.format_d, pid_str_of. destruct (p <? 0) eqn:Hneg.
  - apply Z.ltb_lt in Hneg.
    set (n := - p). assert (Hn : 0 <= n < 10 ^ 15) by (unfold n; lia).
    set (fuel := Z.to_nat (Z.log2 n)).
    pose proof (format_d_fuel n (proj1 Hn)) as Hfuel. fold fuel in Hfuel.
    destruct (digits_onto_shape fuel n "") as (D & E & HD & HL & Hne).
    rewrite app_nil_r in E.
    pose proof (ndigits_bound fuel n 14 Hn) as Hb.
    rewrite !E, app_cons.
    change (take 16 (String "-" (D +:+ String newline rest)))
      with (String "-" (take 15 (D +:+ String newline rest))).
    cbn [before]. change (Ascii.eqb "-" newline) with false. cbv iota.
    rewrite (before_take_digits _ _ 15 HD) by lia.
    assert (Hs : strip (String "-" D) = String "-" D).
    { unfold strip. cbn [lstrip]. change (is_space "-") with false. cbv iota.
      cbn [rstrip]. rewrite (rstrip_digits _ HD). destruct D; [congruence|reflexivity]. }
    rewrite Hs. split; [reflexivity|].
    rewrite int_unfold, Hs. change (Ascii.eqb "-" "-") with true. cbv iota.
    rewrite <- E, digits_parse by exact Hfuel.
    change (PyInt.parse_digits true (0 * 10 ^ Z.of_nat (ndigits fuel n) + n) "")
      with (Some n). simpl. f_equal. unfold n. lia.
  - apply Z.ltb_ge in Hneg.
    set (fuel := Z.to_nat (Z.log2 p)).
    pose proof (format_d_fuel p Hneg) as Hfuel. fold fuel in Hfuel.
    destruct (digits_onto_shape fuel p "") as (D & E & HD & HL & Hne).
    rewrite app_nil_r in E.
    assert (Hp' : 0 <= p < 10 ^ Z.of_nat 16) by (change (Z.of_nat 16) with 16; lia).
    pose proof (ndigits_bound fuel p 15 Hp') as Hb.
    rewrite !E. rewrite (before_take_digits _ _ 16 HD) by lia.
    rewrite (strip_digits _ HD). split; [reflexivity|].
    rewrite (int_digits _ Hne HD), <- E, digits_parse by exact Hfuel.
    reflexivity.
Qed.

Lemma X20_pid_text_roundtrip_witness :
  - 10 ^ 15 < 4242 < 10 ^ 16 /\
  PyInt.int (pid_str_of (PyInt.format_d 4242 +:+ String newline "junk")) = Some 4242.
Proof.
  assert (H : - 10 ^ 15 < 4242 < 10 ^ 16) by lia.
  split; [exact H|]. exact (proj1 (proj2 (X20_pid_text_roundtrip 4242 "junk" H))).
Defined.

(** X21.  [close] twice.  After a [close], whether it returned or raised,
    a second [close] with the same arguments returns without an error and
    changes neither the world nor the manager: the call that [atexit]
    makes after [__exit__] is harmless. *)
Theorem X21_close_twice (w : World) (m : PidFile) (a : option nat) (c : bool) :
  close a c (fst (close a c (w, m))) = (fst (close a c (w, m)), Ret tt).
Proof.
  rewrite (close_run a c w m).
  destruct (logged_fields m) as (Hfh & Hfn & _).
  destruct (match a with Some h => Some h | None => fh m end) as [h|] eqn:Ha;
    cbn [fst].
  - rewrite close_run, Hfh, Ha, Hfn, logged_idem.
    destruct (file_close_facts h w) as (Hcl & _).
    destruct (cleaned_facts (filename m) c (fst (file_close h w)))
      as (_ & _ & _ & _ & Hst & _).
    rewrite file_close_closed by (rewrite Hst; exact Hcl).
    cbn [fst snd close_outcome]. rewrite cleaned_idem. reflexivity.
  - rewrite close_run, Hfh, Ha, Hfn, logged_idem, cleaned_idem. reflexivity.
Qed.

(** X22.  [close] on a file object whose descriptor is broken.  When
    [fh.close()] raises an [OSError], [close] swallows it if its [errno]
    is [EBADF] and raises it again otherwise; either way the file object
    ends closed, and with [cleanup] the [finally] clause has removed the
    file at the resolved path; without [cleanup] the directory tree is
    as before. *)
Theorem X22_close_broken (w : World) (m : PidFile) (a : option nat) (c : bool)
    (h : nat) (fo : file_obj) (e : errno) :
  a = Some h \/ (a = None /\ fh m = Some h) ->
  file_state_of w h = Broken fo e ->
  exists w',
    close a c (w, m)
      = ((w', logged m),
         if bool_decide (e = EBADF) then Ret tt else Raise (OSError e)) /\
    file_state_of w' h = Closed /\
    (c = true -> forall f, filename m = Some f -> isfile w' f = false) /\
    (c = false -> w_fs w' = w_fs w).
Proof.
  intros Ha Hb.
  assert (Hsel : match a with Some h0 => Some h0 | None => fh m end = Some h).
  { destruct Ha as [->|[-> ->]]; reflexivity. }
  destruct (file_close_facts h w) as (Hcl & Hfs & _).
  destruct (cleaned_facts (filename m) c (fst (file_close h w)))
    as (_ & _ & _ & _ & Hst & Hno & Hrm).
  exists (cleaned (filename m) c (fst (file_close h w))).
  split; [|split; [rewrite Hst; exact Hcl|split]].
  - rewrite close_run, Hsel. f_equal.
    unfold file_close. rewrite Hb. cbn [snd close_outcome is_IOError exn_errno andb].
    destruct (bool_decide_reflect (e = EBADF)) as [->|Hne].
    + rewrite bool_decide_eq_true_2 by reflexivity. reflexivity.
    + rewrite bool_decide_eq_false_2 by congruence. reflexivity.
  - intros -> f Hf. apply Hrm; auto.
  - intros ->. rewrite cleaned_false. exact Hfs.
Qed.

Lemma X22_close_broken_witness :
  fh created_manager = Some 0%nat /\
  (exists fo, file_state_of broken_world 0 = Broken fo 5) /\
  exists w',
    close None true (broken_world, created_manager)
      = ((w', logged created_manager), Raise (OSError 5)) /\
    file_state_of w' 0 = Closed /\ isfile w' demo_path = false.
Proof.
  assert (H1 : fh created_manager = Some 0%nat) by (vm_compute; reflexivity).
  assert (H2 : exists fo, file_state_of broken_world 0 = Broken fo 5).
  { eexists. vm_compute. reflexivity. }
  split; [exact H1|]. split; [exact H2|].
  destruct H2 as (fo & H2).
  destruct (X22_close_broken broken_world created_manager None true 0 fo 5
              (or_intror (conj eq_refl H1)) H2)
    as (w' & Hc & Hst & Hrm & _).
  exists w'. split; [exact Hc|]. split; [exact Hst|].
  apply Hrm; [reflexivity|]. vm_compute. reflexivity.
Defined.

(** X23.  Leaving the scope.  After an [__enter__] that returned,
    [__exit__] returns without an error: the file object of the manager
    is closed, the lock it held is released, and the file at the
    resolved path is removed, which is the one change to the directory
    tree. *)
Theorem X23_scope_removes_file (w w' : World) (m m' : PidFile) :
  __enter__ (w, m) = ((w', m'), Ret tt) ->
  exists w'' f h i fo,
    __exit__ (w', m') = ((w'', m'), Ret tt) /\
    filename m' = Some f /\ fh m' = Some h /\ node_at w' f = Some (File i) /\
    isfile w'' f = false /\
    w_fs w'' = delete (resolve w' f) (w_fs w') /\
    w_files w'' !! h = Some fo /\ f_closed fo = true /\
    w_locks w'' !! i <> Some (LockedBy h) /\
    (lock_pidfile m' = true -> w_locks w'' !! i = None).
Proof.
  unfold __enter__, __exit__. intros H.
  destruct (close_after_create _ _ _ _ H)
    as (w'' & f & h & i & fo & H1 & H2 & H3 & H4 & H5 & H6 & H7 & H8 & H9 & H10 & _).
  exists w'', f, h, i, fo. auto 12.
Qed.

Lemma X23_scope_removes_file_witness :
  __enter__ (demo_world, demo_manager) = ((created_world, created_manager), Ret tt) /\
  exists w'',
    __exit__ (created_world, created_manager) = ((w'', created_manager), Ret tt) /\
    isfile w'' demo_path = false.
Proof.
  assert (H : __enter__ (demo_world, demo_manager)
              = ((created_world, created_manager), Ret tt))
    by (vm_compute; reflexivity).
  split; [exact H|].
  destruct (X23_scope_removes_file _ _ _ _ H)
    as (w'' & f & h & i & fo & Hx & Hf & _ & _ & Hi & _).
  exists w''. split; [exact Hx|].
  assert (E : Some f = Some demo_path) by (rewrite <- Hf; vm_compute; reflexivity).
  injection E as <-. exact Hi.
Defined.

(** X24.  Starting again.  After a [create] that returned and the
    [close] that followed it (the end of the scope, or the call at exit),
    a manager that is set up for the same path and holds no file object
    can create the file anew, provided the directory is still there and
    writable: its [create] returns, and the file holds its process ID. *)
Theorem X24_create_after_close (w w1 w2 : World) (m m1 m1' m2 : PidFile)
    (f : string) (p2 : Z) (rd : bool) (r : result unit) :
  create (w, m) = ((w1, m1), Ret tt) -> no_stray_locks w ->
  close None true (w1, m1) = ((w2, m1'), r) ->
  filename m1 = Some f ->
  _is_setup m2 = true -> filename m2 = Some f -> pid m2 = Some p2 -> fh m2 = None ->
  uid m2 < 0 -> gid m2 < 0 -> 0 <= chmod m2 < 4096 ->
  w_fs w2 !! posixpath.dirname (resolve w2 f) = Some (Dir rd true) ->
  r = Ret tt /\
  exists w3 h,
    create (w2, m2) = ((w3, with_fh (Some h) (logged m2)), Ret tt) /\
    file_content w3 f = Some (PyInt.format_d p2 +:+ String newline "").
Proof.
  intros H Hwf Hclose Hf Hs2 Hf2 Hp2 _ _ _ _ Hd.
  pose proof (create_close_no_stray_locks _ _ _ _ true H Hwf) as Hwf2.
  rewrite Hclose in Hwf2. cbn [fst] in Hwf2.
  destruct (close_after_create _ _ _ _ H)
    as (w'' & f' & h & i & fo & Hx & Hf' & _ & Hn & Hi & Hfs & _ & _ & _ & _ & Hcwd).
  rewrite Hx in Hclose. injection Hclose as <- <- <-.
  assert (f' = f) as -> by congruence.
  split; [reflexivity|].
  assert (Ht : truthy f = true) by exact (isfile_truthy _ _ (isfile_node _ _ _ Hn)).
  assert (Hn2 : node_at w'' f = None).
  { unfold node_at. rewrite Ht, Hfs. unfold resolve. rewrite Hcwd.
    apply lookup_delete_eq. }
  destruct (create_fresh_run w'' m2 f p2 rd true Hs2 Hf2 Hp2 Ht Hn2 Hd (or_intror Hwf2))
    as (w3 & h3 & i3 & Hc & _ & Hcont & _).
  exists w3, h3. split; [exact Hc|exact Hcont].
Qed.

Lemma X24_create_after_close_witness :
  create (demo_world, demo_manager) = ((created_world, created_manager), Ret tt) /\
  close None true (created_world, created_manager)
    = ((fst exited_state, snd exited_state), Ret tt) /\
  _is_setup other_setup = true /\ filename other_setup = Some demo_path /\
  exists w3 h,
    create (fst exited_state, other_setup)
      = ((w3, with_fh (Some h) (logged other_setup)), Ret tt) /\
    file_content w3 demo_path = Some (PyInt.format_d 4242 +:+ String newline "").
Proof.
  assert (H1 : create (demo_world, demo_manager)
               = ((created_world, created_manager), Ret tt))
    by (vm_compute; reflexivity).
  assert (H2 : no_stray_locks demo_world) by (apply no_locks_no_stray; reflexivity).
  assert (H3 : close None true (created_world, created_manager)
               = ((fst exited_state, snd exited_state), Ret tt))
    by (vm_compute; reflexivity).
  assert (H4 : filename created_manager = Some demo_path) by (vm_compute; reflexivity).
  assert (H5 : _is_setup other_setup = true) by (vm_compute; reflexivity).
  assert (H6 : filename other_setup = Some demo_path) by (vm_compute; reflexivity).
  assert (H7 : pid other_setup = Some 4242) by (vm_compute; reflexivity).
  assert (H8 : fh other_setup = None) by (vm_compute; reflexivity).
  assert (H9 : uid other_setup < 0) by (vm_compute; reflexivity).
  assert (H10 : gid other_setup < 0) by (vm_compute; reflexivity).
  assert (H11 : 0 <= chmod other_setup < 4096).
  { replace (chmod other_setup) with 420 by (vm_compute; reflexivity). lia. }
  assert (H12 : w_fs (fst exited_state)
                  !! posixpath.dirname (resolve (fst exited_state) demo_path)
                = Some (Dir true true)) by (vm_compute; reflexivity).
  split; [exact H1|]. split; [exact H3|]. split; [exact H5|]. split; [exact H6|].
  destruct (X24_create_after_close _ _ _ _ _ _ _ _ _ _ _ H1 H2 H3 H4 H5 H6 H7 H8 H9 H10
              H11 H12) as (_ & w3 & h & Hc & Hcont).
  exists w3, h. auto.
Defined.
